(** * The VIX guest-operations agent (services/plugins/vix/vixTools.c)

    A shallow embedding of the command executor of open-vm-tools: the
    registry of exited programs, the impersonation gate, the two program
    launchers with their timer-driven monitors, the command dispatcher, and
    the handlers of guest variables, files and directories.

    The embedding follows the POSIX (linux) build of the file: every
    [#ifdef _WIN32] branch is left out.  Calls into libraries that are not
    part of vixTools.c (ProcMgr, Auth, File, FileIO, the clock) are oracles
    collected in the record [GuestOS]; every call the properties talk about
    is also logged in the agent's event trace.  The handlers of variables
    and files have their own oracles, [GuestEnvironment] and [GuestFiles]. *)

From Stdlib Require Import ZArith String Ascii List Bool Lia.
From Stdlib Require Import DecimalString.
From stdpp Require Import base option list gmap strings.
Import ListNotations.

(** ** Status codes (vix.h) *)

(** [VixError] is an integer type whose named values are declared in vix.h;
    only the names vixTools.c uses are listed.  [VIX_E_SYSTEM n] stands for
    the codes [Vix_TranslateSystemError] produces from errno. *)
Inductive VixError : Set :=
  | VIX_OK
  | VIX_E_FAIL
  | VIX_E_OUT_OF_MEMORY
  | VIX_E_INVALID_ARG
  | VIX_E_FILE_NOT_FOUND
  | VIX_E_NOT_SUPPORTED
  | VIX_E_NOT_A_DIRECTORY
  | VIX_E_PROGRAM_NOT_STARTED
  | VIX_E_GUEST_USER_PERMISSIONS
  | VIX_E_INTERACTIVE_SESSION_USER_MISMATCH
  | VIX_E_OP_NOT_SUPPORTED_ON_GUEST
  | VIX_E_SYSTEM (errno : Z).

#[global] Instance VixError_eq_dec : EqDecision VixError.
Proof. solve_decision. Defined.

(** ** The exited-program registry *)

Module Registry.
Local Open Scope Z_scope.

(** Conversion of a signed integer to [uint64], as the assignments
    [exitState->pid = (uint64) pid] and [exitState->pid = pid] perform. *)
Definition to_uint64 (z : Z) : Z := z mod 2 ^ 64.

(** [struct VixToolsExitedProgramState]; the [next] pointer is the tail of
    the Rocq list that holds the entry.  [name] and [user] may be NULL. *)
Record VixToolsExitedProgramState : Set := mkExited {
  name : option string;
  user : option string;
  pid : Z;
  startTime : Z;
  exitCode : Z;
  endTime : Z;
  isRunning : bool;
}.

#[global] Instance VixToolsExitedProgramState_eq_dec :
  EqDecision VixToolsExitedProgramState.
Proof. solve_decision. Defined.

Definition VIX_TOOLS_EXITED_PROGRAM_REAP_TIME : Z := 5 * 60.

(** First loop of [VixToolsUpdateExitedProgramList]: walk the list until the
    first entry with [state]'s pid and overwrite its two exit fields.  The
    result is [None] when the walk reaches the end of the list, in which
    case [state] is still to be added. *)
Fixpoint update_running (state : VixToolsExitedProgramState)
    (epList : list VixToolsExitedProgramState)
    : option (list VixToolsExitedProgramState) :=
  match epList with
  | [] => None
  | ep :: rest =>
      if pid ep =? pid state then
        Some ({| name := name ep; user := user ep; pid := pid ep;
                 startTime := startTime ep;
                 exitCode := exitCode state;
                 endTime := endTime state;
                 isRunning := isRunning ep |} :: rest)
      else
        match update_running state rest with
        | Some rest' => Some (ep :: rest')
        | None => None
        end
  end.

(** The test of the second loop: the record is old.  Times are [time_t]
    values, taken as integers: [now - 300] does not leave the range of the
    type for any time the clock returns. *)
Definition expired (now : Z) (ep : VixToolsExitedProgramState) : bool :=
  negb (isRunning ep)
  && (endTime ep <? now - VIX_TOOLS_EXITED_PROGRAM_REAP_TIME).

(** Second loop: unlink every old record, keep the others in order. *)
Fixpoint reap (now : Z) (epList : list VixToolsExitedProgramState)
    : list VixToolsExitedProgramState :=
  match epList with
  | [] => []
  | ep :: rest =>
      if expired now ep then reap now rest else ep :: reap now rest
  end.

(** [VixToolsUpdateExitedProgramList(state)] on the global list; [now] is
    the value of the [time(NULL)] call that opens the function, [None] is
    the NULL argument. *)
Definition VixToolsUpdateExitedProgramList (now : Z)
    (state : option VixToolsExitedProgramState)
    (exitedProcessList : list VixToolsExitedProgramState)
    : list VixToolsExitedProgramState :=
  let '(state, epList) :=
    match state with
    | Some s =>
        if negb (isRunning s) then
          match update_running s exitedProcessList with
          | Some updated => (None, updated)
          | None => (Some s, exitedProcessList)
          end
        else (Some s, exitedProcessList)
    | None => (None, exitedProcessList)
    end in
  let kept := reap now epList in
  match state with
  | Some s => kept ++ [s]
  | None => kept
  end.

(** [VixToolsFindExitedProgramState(pid)]. *)
Fixpoint VixToolsFindExitedProgramState (p : Z)
    (epList : list VixToolsExitedProgramState)
    : option VixToolsExitedProgramState :=
  match epList with
  | [] => None
  | ep :: rest =>
      if pid ep =? p then Some ep else VixToolsFindExitedProgramState p rest
  end.

(** The record [VixTools_StartProgram] saves after a successful launch. *)
Definition running_record (programPath : string) (launched : Z) (start : Z)
    : VixToolsExitedProgramState :=
  {| name := Some programPath;
     user := Some "XXX TBD XXX"%string;
     pid := to_uint64 launched;
     startTime := start;
     exitCode := 0;
     endTime := 0;
     isRunning := true |}.

(** The record [VixToolsMonitorStartProgram] builds when the program ended. *)
Definition exit_record (p : Z) (code : Z) (ended : Z)
    : VixToolsExitedProgramState :=
  {| name := None;
     user := None;
     pid := to_uint64 p;
     startTime := 0;
     exitCode := code;
     endTime := ended;
     isRunning := false |}.

(** The two ways the registry is written, with the clock values read on the
    way: a launch ([VixTools_StartProgram], success path) and an observed
    exit ([VixToolsMonitorStartProgram]). *)
Inductive RegistryOp : Set :=
  | RecordRunning (programPath : string) (launched : Z) (start now : Z)
  | RecordExit (p : Z) (code : Z) (ended now : Z).

Definition apply_op (op : RegistryOp)
    (epList : list VixToolsExitedProgramState)
    : list VixToolsExitedProgramState :=
  match op with
  | RecordRunning path launched start now =>
      VixToolsUpdateExitedProgramList now
        (Some (running_record path launched start)) epList
  | RecordExit p code ended now =>
      VixToolsUpdateExitedProgramList now
        (Some (exit_record p code ended)) epList
  end.

Definition run_ops (ops : list RegistryOp)
    (epList : list VixToolsExitedProgramState)
    : list VixToolsExitedProgramState :=
  fold_left (fun l op => apply_op op l) ops epList.




End Registry.

(** ** The guest operating system and the agent's globals *)

(** [AuthToken] and [ProcMgr_AsyncProc *] are opaque handles. *)
Definition AuthToken : Set := Z.
Definition ProcMgr_AsyncProc : Set := Z.

(** The [void *userToken] of the handlers: NULL, the constant
    [PROCESS_CREATOR_USER_TOKEN] ((void * )1), or an [AuthToken]. *)
Inductive UserToken : Set :=
  | NULL_TOKEN
  | PROCESS_CREATOR_USER_TOKEN
  | AuthTokenPtr (authToken : AuthToken).

#[global] Instance UserToken_eq_dec : EqDecision UserToken.
Proof. solve_decision. Defined.

(** [requestMsg->userCredentialType]; the named values are declared in
    vixCommands.h and the code only compares against them. *)
Inductive CredentialType : Set :=
  | VIX_USER_CREDENTIAL_ROOT
  | VIX_USER_CREDENTIAL_CONSOLE_USER
  | VIX_USER_CREDENTIAL_NAMED_INTERACTIVE_USER
  | VIX_USER_CREDENTIAL_NAME_PASSWORD
  | VIX_USER_CREDENTIAL_NAME_PASSWORD_OBFUSCATED
  | VIX_USER_CREDENTIAL_UNLISTED (value : Z).

#[global] Instance CredentialType_eq_dec : EqDecision CredentialType.
Proof. solve_decision. Defined.

(** [ProcMgr_ProcArgs] of the POSIX build. *)
Record ProcMgr_ProcArgs : Set := mkProcArgs {
  workingDirectory : option string;
  envp : option (list string);
}.

#[global] Instance ProcMgr_ProcArgs_eq_dec : EqDecision ProcMgr_ProcArgs.
Proof. solve_decision. Defined.

(** The library calls vixTools.c makes, as oracles.  Calls whose answer
    changes while the agent runs take the agent's tick counter. *)
Record GuestOS : Type := mkGuestOS {
  time : nat -> Z;
  File_Exists : string -> bool;
  FileIO_Access_EXEC : string -> bool;
  File_IsDirectory : string -> bool;
  Str_Asprintf_fails : string -> bool;
  StrUtil_StrToInt : string -> option CredentialType;
  VixMsg_DeObfuscateNamePassword :
    string -> option (option string * option string);
  Auth_AuthenticateUser : option string -> option string -> option AuthToken;
  ProcMgr_ImpersonateUserStart : option string -> AuthToken -> bool;
  Posix_Getpwnam_r : string -> option Z;
  geteuid : Z;
  getpid : Z;
  getpgrp : Z;
  FoundryToolsDaemon_TranslateSystemErr : VixError;
  ProcMgr_ExecAsync : string -> ProcMgr_ProcArgs -> option ProcMgr_AsyncProc;
  ProcMgr_GetPid : ProcMgr_AsyncProc -> Z;
  ProcMgr_IsAsyncProcRunning : nat -> ProcMgr_AsyncProc -> bool;
  ProcMgr_GetExitCode : nat -> ProcMgr_AsyncProc -> Z * Z;
  ProcMgr_KillByPid : Z -> bool;
  indeterminate_int64 : Z;
}.

(** The library calls the properties count, as they appear in the trace. *)
Inductive Event : Set :=
  | EvAuthenticateUser (userName password : option string)
      (authToken : option AuthToken)
  | EvImpersonateUserStart (userName : option string) (authToken : AuthToken)
      (success : bool)
  | EvImpersonateUserStop
  | EvCloseToken (authToken : AuthToken)
  | EvExecAsync (fullCommandLine : string) (procArgs : ProcMgr_ProcArgs)
      (procState : option ProcMgr_AsyncProc)
  | EvKillByPid (target : Z) (success : bool)
  | EvIsAsyncProcRunning (procState : ProcMgr_AsyncProc) (running : bool)
  | EvGetExitCode (procState : ProcMgr_AsyncProc) (result code : Z)
  | EvFree (procState : ProcMgr_AsyncProc)
  | EvUnlinkNoFollow (path : string)
  | EvReportProgramDone (requestName : string) (err : VixError)
      (code : Z) (reported : Z).

#[global] Instance Event_eq_dec : EqDecision Event.
Proof. solve_decision. Defined.

(** [VixToolsRunProgramState] and [VixToolsStartProgramState]; the fields
    no function reads ([userName], [password]) and the event queue, which is
    the agent's timer list, are left out. *)
Record VixToolsRunProgramState : Set := mkRunState {
  runProgramOptions : Z;
  run_procState : ProcMgr_AsyncProc;
  tempScriptFilePath : option string;
  requestName : string;
}.

Record VixToolsStartProgramState : Set := mkStartState {
  start_procState : ProcMgr_AsyncProc;
}.

(** A timeout source attached to the main loop, with its callback. *)
Inductive Timer : Set :=
  | TimerMonitorAsyncProc (asyncState : VixToolsRunProgramState)
  | TimerMonitorStartProgram (asyncState : VixToolsStartProgramState).

(** The file-scope variables of vixTools.c, the sources attached to the
    event queue, the tick counter of the oracles and the trace. *)
Record Agent : Type := mkAgent {
  exitedProcessList : list Registry.VixToolsExitedProgramState;
  userEnvironmentTable : option (gmap string string);
  thisProcessRunsAsRoot : bool;
  allowConsoleUserOps : bool;
  reportProgramDoneProc : bool;
  timers : list Timer;
  tick : nat;
  trace : list Event;
}.

(** The agent before [VixTools_Initialize]. *)
Definition initial_agent : Agent :=
  {| exitedProcessList := [];
     userEnvironmentTable := None;
     thisProcessRunsAsRoot := false;
     allowConsoleUserOps := false;
     reportProgramDoneProc := false;
     timers := [];
     tick := 0;
     trace := [] |}.

(** *** Computations over the agent *)

Definition M (A : Type) : Type := Agent -> A * Agent.

#[global] Instance M_ret : MRet M := fun A (a : A) (s : Agent) => (a, s).
#[global] Instance M_bind : MBind M :=
  fun A B (f : A -> M B) (m : M A) (s : Agent) =>
    let '(a, s') := m s in f a s'.

Definition get_agent : M Agent := fun s => (s, s).

Definition emit (e : Event) : M unit := fun s =>
  (tt, {| exitedProcessList := exitedProcessList s;
          userEnvironmentTable := userEnvironmentTable s;
          thisProcessRunsAsRoot := thisProcessRunsAsRoot s;
          allowConsoleUserOps := allowConsoleUserOps s;
          reportProgramDoneProc := reportProgramDoneProc s;
          timers := timers s;
          tick := tick s;
          trace := trace s ++ [e] |}).

(** Reads the tick counter and advances it. *)
Definition next_tick : M nat := fun s =>
  (tick s, {| exitedProcessList := exitedProcessList s;
              userEnvironmentTable := userEnvironmentTable s;
              thisProcessRunsAsRoot := thisProcessRunsAsRoot s;
              allowConsoleUserOps := allowConsoleUserOps s;
              reportProgramDoneProc := reportProgramDoneProc s;
              timers := timers s;
              tick := S (tick s);
              trace := trace s |}).

Definition set_exitedProcessList
    (l : list Registry.VixToolsExitedProgramState) : M unit := fun s =>
  (tt, {| exitedProcessList := l;
          userEnvironmentTable := userEnvironmentTable s;
          thisProcessRunsAsRoot := thisProcessRunsAsRoot s;
          allowConsoleUserOps := allowConsoleUserOps s;
          reportProgramDoneProc := reportProgramDoneProc s;
          timers := timers s;
          tick := tick s;
          trace := trace s |}).

Definition set_userEnvironmentTable (t : option (gmap string string))
    : M unit := fun s =>
  (tt, {| exitedProcessList := exitedProcessList s;
          userEnvironmentTable := t;
          thisProcessRunsAsRoot := thisProcessRunsAsRoot s;
          allowConsoleUserOps := allowConsoleUserOps s;
          reportProgramDoneProc := reportProgramDoneProc s;
          timers := timers s;
          tick := tick s;
          trace := trace s |}).

Definition set_timers (ts : list Timer) : M unit := fun s =>
  (tt, {| exitedProcessList := exitedProcessList s;
          userEnvironmentTable := userEnvironmentTable s;
          thisProcessRunsAsRoot := thisProcessRunsAsRoot s;
          allowConsoleUserOps := allowConsoleUserOps s;
          reportProgramDoneProc := reportProgramDoneProc s;
          timers := ts;
          tick := tick s;
          trace := trace s |}).

(** [g_source_attach] of a fresh timeout source: it joins the queue. *)
Definition g_source_attach (t : Timer) : M unit :=
  s ← get_agent; set_timers (timers s ++ [t]).

(** [when c m]: the statement [if (c) { m }]. *)
Definition when (c : bool) (m : M unit) : M unit :=
  if c then m else mret tt.

(** ** The private environment table (POSIX build) *)

Module Env.

(** [strchr(s, '=')] and the copies made around it: the text before the
    first '=' and the text after it, [None] when there is no '='. *)
Fixpoint split_name_value (s : string) : option (string * string) :=
  match s with
  | EmptyString => None
  | String c rest =>
      if Ascii.eqb c "="%char then Some (EmptyString, rest)
      else
        match split_name_value rest with
        | Some (n, v) => Some (String c n, v)
        | None => None
        end
  end.

(** The loop of [VixToolsBuildUserEnvironmentTable] over the strings of
    [envp]; a string without '=' is skipped (the ASSERT before the
    [continue] is compiled in debug builds only).  The hash table is the
    library's; [insert] is its [HashTable_Insert]. *)
Fixpoint load_envp
    (insert : gmap string string -> string -> string -> gmap string string)
    (envp : list string) (table : gmap string string) : gmap string string :=
  match envp with
  | [] => table
  | entry :: rest =>
      match split_name_value entry with
      | None => load_envp insert rest table
      | Some (n, v) => load_envp insert rest (insert table n v)
      end
  end.

(** [VixToolsBuildUserEnvironmentTable(envp)]: with a NULL [envp] the table
    is left alone; otherwise it is allocated, or cleared when it exists, and
    filled. *)
Definition VixToolsBuildUserEnvironmentTable
    (insert : gmap string string -> string -> string -> gmap string string)
    (envp : option (list string)) : M unit :=
  match envp with
  | None => mret tt
  | Some entries =>
      set_userEnvironmentTable (Some (load_envp insert entries ∅))
  end.

(** [VixToolsEnvironmentTableEntryToEnvpEntry]: the string "key=value". *)
Definition VixToolsEnvironmentTableEntryToEnvpEntry (key value : string)
    : string :=
  (key ++ "=" ++ value)%string.

(** [VixToolsEnvironmentTableToEnvp(envTable)]: NULL for a NULL table, else
    one string per entry, in the order [HashTable_ForEach] visits them. *)
Definition VixToolsEnvironmentTableToEnvp
    (envTable : option (gmap string string)) : option (list string) :=
  match envTable with
  | Some table =>
      Some (List.map
              (fun kv => VixToolsEnvironmentTableEntryToEnvpEntry kv.1 kv.2)
              (map_to_list table))
  | None => None
  end.

End Env.

(** ** Requests *)

(** The opcodes the dispatcher's switch names (vixCommands.h), and any other
    value. *)
Inductive OpCode : Set :=
  | VIX_COMMAND_CHECK_USER_ACCOUNT
  | VIX_COMMAND_LOGOUT_IN_GUEST
  | VIX_COMMAND_GET_TOOLS_STATE
  | VIX_COMMAND_LIST_PROCESSES
  | VIX_COMMAND_LIST_PROCESSES_EX
  | VIX_COMMAND_LIST_DIRECTORY
  | VIX_COMMAND_LIST_FILES
  | VIX_COMMAND_DELETE_GUEST_FILE
  | VIX_COMMAND_DELETE_GUEST_REGISTRY_KEY
  | VIX_COMMAND_DELETE_GUEST_DIRECTORY
  | VIX_COMMAND_DELETE_GUEST_EMPTY_DIRECTORY
  | VIX_COMMAND_REGISTRY_KEY_EXISTS
  | VIX_COMMAND_GUEST_FILE_EXISTS
  | VIX_COMMAND_DIRECTORY_EXISTS
  | VIX_COMMAND_READ_REGISTRY
  | VIX_COMMAND_WRITE_REGISTRY
  | VIX_COMMAND_KILL_PROCESS
  | VIX_COMMAND_CREATE_DIRECTORY
  | VIX_COMMAND_CREATE_DIRECTORY_EX
  | VIX_COMMAND_MOVE_GUEST_FILE
  | VIX_COMMAND_MOVE_GUEST_FILE_EX
  | VIX_COMMAND_MOVE_GUEST_DIRECTORY
  | VIX_COMMAND_RUN_SCRIPT_IN_GUEST
  | VIX_COMMAND_RUN_PROGRAM
  | VIX_COMMAND_START_PROGRAM
  | VIX_COMMAND_OPEN_URL
  | VIX_COMMAND_CREATE_TEMPORARY_FILE
  | VIX_COMMAND_CREATE_TEMPORARY_FILE_EX
  | VIX_COMMAND_CREATE_TEMPORARY_DIRECTORY
  | VIX_COMMAND_READ_VARIABLE
  | VIX_COMMAND_READ_ENV_VARIABLES
  | VIX_COMMAND_WRITE_VARIABLE
  | VIX_COMMAND_GET_FILE_INFO
  | VIX_COMMAND_SET_GUEST_FILE_ATTRIBUTES
  | VMXI_HGFS_SEND_PACKET_COMMAND
  | VIX_COMMAND_GET_GUEST_NETWORKING_CONFIG
  | VIX_COMMAND_SET_GUEST_NETWORKING_CONFIG
  | VIX_COMMAND_LIST_FILESYSTEMS
  | VIX_COMMAND_UNLISTED (value : Z).

#[global] Instance OpCode_eq_dec : EqDecision OpCode.
Proof. solve_decision. Defined.

(** [VixMsgRunProgramRequest] with the strings that follow it. *)
Record VixMsgRunProgramRequest : Set := mkRunProgramRequest {
  rp_runProgramOptions : Z;
  rp_commandLineArgsLength : Z;
  rp_commandLine : string;
  rp_commandLineArgs : string;
}.

(** [VixMsgStartProgramRequest] with the strings that follow it. *)
Record VixMsgStartProgramRequest : Set := mkStartProgramRequest {
  sp_startMinimized : bool;
  sp_argumentsLength : Z;
  sp_workingDirLength : Z;
  sp_numEnvVars : Z;
  sp_programPath : string;
  sp_arguments : string;
  sp_workingDir : string;
  sp_envVars : list string;
}.

(** [VixCommandKillProcessRequest]; [kp_pid] is the value of the [pid]
    field as the [ProcMgr_Pid] the callees receive. *)
Record VixCommandKillProcessRequest : Set := mkKillProcessRequest {
  kp_pid : Z;
}.

(** A request message.  The handlers cast the message to the structure of
    their command; the record holds what each cast reads.  The credential
    field is the text that follows the [VixCommandNamePassword] structure
    after the body. *)
Record VixCommandRequestHeader : Set := mkRequest {
  opCode : OpCode;
  userCredentialType : CredentialType;
  credentialField : string;
  runProgramRequest : VixMsgRunProgramRequest;
  startProgramRequest : VixMsgStartProgramRequest;
  killProcessRequest : VixCommandKillProcessRequest;
}.

(** ** The impersonation gate *)

Section Gate.
Variable os : GuestOS.

(** [VixToolsDoesUsernameMatchCurrentUser], POSIX case. *)
Definition VixToolsDoesUsernameMatchCurrentUser (username : string)
    : VixError :=
  match Posix_Getpwnam_r os username with
  | None => FoundryToolsDaemon_TranslateSystemErr os
  | Some pw_uid =>
      if (geteuid os =? pw_uid)%Z then VIX_OK
      else VIX_E_INTERACTIVE_SESSION_USER_MISMATCH
  end.

(** [VixToolsImpersonateUserImplEx]: the status and the value left in
    [*userToken]. *)
Definition VixToolsImpersonateUserImplEx (credentialTypeStr : option string)
    (credentialType : CredentialType) (obfuscatedNamePassword : string)
    : M (VixError * UserToken) :=
  let parsed :=
    match credentialTypeStr with
    | Some str => StrUtil_StrToInt os str
    | None => Some credentialType
    end in
  match parsed with
  | None => mret (VIX_E_FAIL, NULL_TOKEN)
  | Some credentialType =>
      a ← get_agent;
      if bool_decide (credentialType = VIX_USER_CREDENTIAL_ROOT)
         && thisProcessRunsAsRoot a
      then mret (VIX_OK, PROCESS_CREATOR_USER_TOKEN)
      else if bool_decide (credentialType = VIX_USER_CREDENTIAL_CONSOLE_USER)
              && (allowConsoleUserOps a || negb (thisProcessRunsAsRoot a))
      then mret (VIX_OK, PROCESS_CREATOR_USER_TOKEN)
      else if bool_decide
                (credentialType = VIX_USER_CREDENTIAL_NAMED_INTERACTIVE_USER)
      then
        if negb (thisProcessRunsAsRoot a) then
          match VixMsg_DeObfuscateNamePassword os obfuscatedNamePassword with
          | Some (Some unobfuscatedUserName, _) =>
              let err :=
                VixToolsDoesUsernameMatchCurrentUser unobfuscatedUserName in
              if bool_decide (err = VIX_OK)
              then mret (err, PROCESS_CREATOR_USER_TOKEN)
              else mret (err, NULL_TOKEN)
          | _ => mret (VIX_E_FAIL, NULL_TOKEN)
          end
        else mret (VIX_E_FAIL, NULL_TOKEN)
      else if negb (bool_decide
                      (credentialType = VIX_USER_CREDENTIAL_NAME_PASSWORD))
              && negb (bool_decide
                         (credentialType
                          = VIX_USER_CREDENTIAL_NAME_PASSWORD_OBFUSCATED))
      then mret (VIX_E_NOT_SUPPORTED, NULL_TOKEN)
      else
        match VixMsg_DeObfuscateNamePassword os obfuscatedNamePassword with
        | None => mret (VIX_E_FAIL, NULL_TOKEN)
        | Some (unobfuscatedUserName, unobfuscatedPassword) =>
            let authToken :=
              Auth_AuthenticateUser os unobfuscatedUserName
                unobfuscatedPassword in
            emit (EvAuthenticateUser unobfuscatedUserName
                    unobfuscatedPassword authToken);;
            match authToken with
            | None => mret (VIX_E_GUEST_USER_PERMISSIONS, NULL_TOKEN)
            | Some t =>
                let success :=
                  ProcMgr_ImpersonateUserStart os unobfuscatedUserName t in
                emit (EvImpersonateUserStart unobfuscatedUserName t success);;
                if success then mret (VIX_OK, AuthTokenPtr t)
                else mret (VIX_E_GUEST_USER_PERMISSIONS, AuthTokenPtr t)
            end
        end
  end.

(** [VixToolsImpersonateUser]; the empty-password remark is compiled on
    Windows only. *)
Definition VixToolsImpersonateUser (requestMsg : VixCommandRequestHeader)
    : M (VixError * UserToken) :=
  VixToolsImpersonateUserImplEx None (userCredentialType requestMsg)
    (credentialField requestMsg).

(** [VixToolsUnimpersonateUser]. *)
Definition VixToolsUnimpersonateUser (userToken : UserToken) : M unit :=
  if bool_decide (userToken = PROCESS_CREATOR_USER_TOKEN) then mret tt
  else emit EvImpersonateUserStop.

(** [VixToolsLogoutUser]. *)
Definition VixToolsLogoutUser (userToken : UserToken) : M unit :=
  match userToken with
  | PROCESS_CREATOR_USER_TOKEN => mret tt
  | NULL_TOKEN => mret tt
  | AuthTokenPtr authToken => emit (EvCloseToken authToken)
  end.

(** The [abort:] epilogue every handler shares. *)
Definition release (impersonatingVMWareUser : bool) (userToken : UserToken)
    : M unit :=
  when impersonatingVMWareUser (VixToolsUnimpersonateUser userToken);;
  VixToolsLogoutUser userToken.

End Gate.

(** ** Launching programs *)

Section Launch.
Variable os : GuestOS.
Local Open Scope Z_scope.

(** The double quote character. *)
Definition dquote : ascii := "034"%char.

(** [while (' ' == *startProgramFileName) startProgramFileName++;] *)
Fixpoint skip_spaces (s : string) : string :=
  match s with
  | String c rest => if Ascii.eqb c " "%char then skip_spaces rest else s
  | EmptyString => s
  end.

(** The text up to the first double quote, or all of it when there is none:
    [strstr] for the closing quote, then the terminator written there. *)
Fixpoint until_dquote (s : string) : string :=
  match s with
  | String c rest =>
      if Ascii.eqb c dquote then EmptyString else String c (until_dquote rest)
  | EmptyString => EmptyString
  end.

(** The file name both launchers test: leading spaces skipped, and when the
    text starts with a quote, what lies between it and the next quote. *)
Definition program_file_name (commandLine : string) : string :=
  let startProgramFileName := skip_spaces commandLine in
  match startProgramFileName with
  | String c rest =>
      if Ascii.eqb c dquote then until_dquote rest else startProgramFileName
  | EmptyString => startProgramFileName
  end.

(** The formats ["\"%s\" %s"] and ["\"%s\""]. *)
Definition full_command_line (program : string) (arguments : option string)
    : string :=
  match arguments with
  | Some args =>
      (String dquote program ++ String dquote (String " "%char args))%string
  | None => (String dquote program ++ String dquote EmptyString)%string
  end.

(** [Str_Sprintf(resultBuffer, sizeof resultBuffer, "%"FMT64"d", pid)]. *)
Definition format_int64 (z : Z) : string :=
  NilZero.string_of_int (Z.to_int z).

(** [time(NULL)]. *)
Definition time_now : M Z := t ← next_tick; mret (time os t).

(** The call [VixToolsUpdateExitedProgramList(state)] on the agent's list. *)
Definition call_VixToolsUpdateExitedProgramList
    (state : option Registry.VixToolsExitedProgramState) : M unit :=
  now ← time_now;
  a ← get_agent;
  set_exitedProcessList
    (Registry.VixToolsUpdateExitedProgramList now state
       (exitedProcessList a)).

(** [VixToolsRunProgramImpl]: the status and the value left in [*pid]. *)
Definition VixToolsRunProgramImpl (requestName commandLine : string)
    (commandLineArgs : option string) (runProgramOptions : Z)
    (userToken : UserToken) : M (VixError * Z) :=
  let startProgramFileName := program_file_name commandLine in
  let programExists := File_Exists os startProgramFileName in
  let programIsExecutable := FileIO_Access_EXEC os startProgramFileName in
  if negb programExists then mret (VIX_E_FILE_NOT_FOUND, -1)
  else if negb programIsExecutable then mret (VIX_E_GUEST_USER_PERMISSIONS, -1)
  else
    let fullCommandLine := full_command_line commandLine commandLineArgs in
    if Str_Asprintf_fails os fullCommandLine then mret (VIX_E_OUT_OF_MEMORY, -1)
    else
      a ← get_agent;
      let procArgs :=
        {| workingDirectory := None;
           envp := Env.VixToolsEnvironmentTableToEnvp
                     (userEnvironmentTable a) |} in
      let procState := ProcMgr_ExecAsync os fullCommandLine procArgs in
      emit (EvExecAsync fullCommandLine procArgs procState);;
      match procState with
      | None => mret (VIX_E_PROGRAM_NOT_STARTED, -1)
      | Some p =>
          g_source_attach
            (TimerMonitorAsyncProc
               {| runProgramOptions := runProgramOptions;
                  run_procState := p;
                  tempScriptFilePath := None;
                  requestName := requestName |});;
          mret (VIX_OK, ProcMgr_GetPid os p)
      end.

(** [VixToolsStartProgramImpl]: the status and the value left in [*pid]. *)
Definition VixToolsStartProgramImpl (requestName programPath : string)
    (arguments workingDir : option string) (numEnvVars : Z)
    (envVars : option (list string)) (startMinimized : bool)
    (userToken : UserToken) : M (VixError * Z) :=
  let startProgramFileName := program_file_name programPath in
  let programExists := File_Exists os startProgramFileName in
  let programIsExecutable := FileIO_Access_EXEC os startProgramFileName in
  if negb programExists then mret (VIX_E_FILE_NOT_FOUND, -1)
  else if negb programIsExecutable then mret (VIX_E_GUEST_USER_PERMISSIONS, -1)
  else if match workingDir with
          | Some dir => negb (File_IsDirectory os dir)
          | None => false
          end
  then mret (VIX_E_NOT_A_DIRECTORY, -1)
  else
    let fullCommandLine := full_command_line programPath arguments in
    if Str_Asprintf_fails os fullCommandLine then mret (VIX_E_OUT_OF_MEMORY, -1)
    else
      let procArgs :=
        {| workingDirectory := workingDir; envp := envVars |} in
      let procState := ProcMgr_ExecAsync os fullCommandLine procArgs in
      emit (EvExecAsync fullCommandLine procArgs procState);;
      match procState with
      | None => mret (VIX_E_PROGRAM_NOT_STARTED, -1)
      | Some p =>
          g_source_attach
            (TimerMonitorStartProgram {| start_procState := p |});;
          mret (VIX_OK, ProcMgr_GetPid os p)
      end.

(** [VixTools_RunProgram]: the status and the text left in [*result].  The
    local [pid] has no initial value; [indeterminate_int64] is what it holds
    when [VixToolsRunProgramImpl] was not reached. *)
Definition VixTools_RunProgram (requestMsg : VixCommandRequestHeader)
    (requestName : string) : M (VixError * string) :=
  let request := runProgramRequest requestMsg in
  let commandLine := rp_commandLine request in
  '(err, impersonatingVMWareUser, userToken, pid) ←
    (if bool_decide (commandLine = EmptyString)
     then mret (VIX_E_INVALID_ARG, false, NULL_TOKEN, indeterminate_int64 os)
     else
       let commandLineArgs :=
         if 0 <? rp_commandLineArgsLength request
         then Some (rp_commandLineArgs request) else None in
       '(err, userToken) ← VixToolsImpersonateUser os requestMsg;
       if bool_decide (err = VIX_OK) then
         '(err, pid) ← VixToolsRunProgramImpl requestName commandLine
                          commandLineArgs (rp_runProgramOptions request)
                          userToken;
         mret (err, true, userToken, pid)
       else mret (err, false, userToken, indeterminate_int64 os));
  release impersonatingVMWareUser userToken;;
  mret (err, format_int64 pid).

(** [VixTools_StartProgram]: the status and the text left in [*result]. *)
Definition VixTools_StartProgram (requestMsg : VixCommandRequestHeader)
    (requestName : string) : M (VixError * string) :=
  let request := startProgramRequest requestMsg in
  let programPath := sp_programPath request in
  '(err, impersonatingVMWareUser, userToken, pid) ←
    (if bool_decide (programPath = EmptyString)
     then mret (VIX_E_INVALID_ARG, false, NULL_TOKEN, -1)
     else
       let arguments :=
         if 0 <? sp_argumentsLength request
         then Some (sp_arguments request) else None in
       let workingDir :=
         if 0 <? sp_workingDirLength request
         then Some (sp_workingDir request) else None in
       let envVars :=
         if 0 <? sp_numEnvVars request
         then Some (sp_envVars request) else None in
       '(err, userToken) ← VixToolsImpersonateUser os requestMsg;
       if bool_decide (err = VIX_OK) then
         '(err, pid) ← VixToolsStartProgramImpl requestName programPath
                          arguments workingDir (sp_numEnvVars request)
                          envVars (sp_startMinimized request) userToken;
         when (bool_decide (err = VIX_OK))
           (start ← time_now;
            call_VixToolsUpdateExitedProgramList
              (Some (Registry.running_record programPath pid start)));;
         mret (err, true, userToken, pid)
       else mret (err, false, userToken, -1));
  release impersonatingVMWareUser userToken;;
  mret (err, format_int64 pid).

End Launch.

(** ** The completion monitors and the timer queue *)

Section Monitor.
Variable os : GuestOS.
(** The option bit [VIX_RUNPROGRAM_RETURN_IMMEDIATELY] of vix.h. *)
Variable VIX_RUNPROGRAM_RETURN_IMMEDIATELY : Z.
Local Open Scope Z_scope.

(** [VixToolsFreeRunProgramState] of a state that owns a process handle. *)
Definition VixToolsFreeRunProgramState (asyncState : VixToolsRunProgramState)
    : M unit :=
  match tempScriptFilePath asyncState with
  | Some path => emit (EvUnlinkNoFollow path)
  | None => mret tt
  end;;
  emit (EvFree (run_procState asyncState)).

(** [VixToolsFreeStartProgramState] of a state that owns a process handle. *)
Definition VixToolsFreeStartProgramState
    (asyncState : VixToolsStartProgramState) : M unit :=
  emit (EvFree (start_procState asyncState)).

(** The two calls after the [done:] label of both monitors, and the
    replacement of the exit code when the retrieval failed. *)
Definition retrieve_exit_code (procState : ProcMgr_AsyncProc) : M (Z * Z) :=
  t ← next_tick;
  let '(result, code) := ProcMgr_GetExitCode os t procState in
  emit (EvGetExitCode procState result code);;
  let reported := ProcMgr_GetPid os procState in
  let exitCode := if bool_decide (0 ≠ result) then -1 else code in
  mret (exitCode, reported).

(** [ProcMgr_IsAsyncProcRunning]. *)
Definition poll_running (procState : ProcMgr_AsyncProc) : M bool :=
  t ← next_tick;
  let procIsRunning := ProcMgr_IsAsyncProcRunning os t procState in
  emit (EvIsAsyncProcRunning procState procIsRunning);;
  mret procIsRunning.

(** [VixToolsMonitorAsyncProc], the timer callback of the fire-and-report
    launch.  It always returns FALSE, which removes the source that fired. *)
Definition VixToolsMonitorAsyncProc (asyncState : VixToolsRunProgramState)
    : M unit :=
  procIsRunning ← poll_running (run_procState asyncState);
  if (procIsRunning : bool) return M unit
  then g_source_attach (TimerMonitorAsyncProc asyncState)
  else
    '(exitCode, reported) ← retrieve_exit_code (run_procState asyncState);
    a ← get_agent;
    when (reportProgramDoneProc a
          && negb (bool_decide
                     (Z.land (runProgramOptions asyncState)
                        VIX_RUNPROGRAM_RETURN_IMMEDIATELY ≠ 0)))
      (emit (EvReportProgramDone (requestName asyncState) VIX_OK
               exitCode reported));;
    VixToolsFreeRunProgramState asyncState.

(** [VixToolsMonitorStartProgram], the timer callback of the tracked
    launch. *)
Definition VixToolsMonitorStartProgram
    (asyncState : VixToolsStartProgramState) : M unit :=
  procIsRunning ← poll_running (start_procState asyncState);
  if (procIsRunning : bool) return M unit
  then g_source_attach (TimerMonitorStartProgram asyncState)
  else
    '(exitCode, reported) ← retrieve_exit_code (start_procState asyncState);
    ended ← time_now os;
    call_VixToolsUpdateExitedProgramList os
      (Some (Registry.exit_record reported exitCode ended));;
    VixToolsFreeStartProgramState asyncState.

Definition run_callback (t : Timer) : M unit :=
  match t with
  | TimerMonitorAsyncProc asyncState => VixToolsMonitorAsyncProc asyncState
  | TimerMonitorStartProgram asyncState =>
      VixToolsMonitorStartProgram asyncState
  end.

(** One timer of the event queue fires: its source is removed and its
    callback runs. *)
Definition g_main_context_iteration : M unit :=
  a ← get_agent;
  match timers a with
  | [] => mret tt
  | t :: rest => set_timers rest;; run_callback t
  end.

(** The event queue serving [n] timer expirations. *)
Fixpoint g_main_loop_run (n : nat) : M unit :=
  match n with
  | O => mret tt
  | S n' => g_main_context_iteration;; g_main_loop_run n'
  end.

End Monitor.

(** ** The handlers and the dispatcher *)

(** The handlers whose work under the gate is an operating-system leaf
    operation (listing, files, variables, temporary objects, scripts, the
    HGFS packet).  They all have the shape
    [check arguments; impersonate; work; abort: unimpersonate, logout], and
    none of them calls the Auth or impersonation libraries itself. *)
Inductive LeafHandler : Set :=
  | VixToolsListProcesses
  | VixToolsListProcessesEx
  | VixToolsListDirectory
  | VixToolsListFiles
  | VixToolsDeleteObject
  | VixToolsObjectExists
  | VixToolsCreateDirectory
  | VixToolsMoveObject
  | VixToolsRunScript
  | VixToolsOpenUrl
  | VixToolsCreateTempFile
  | VixToolsReadVariable
  | VixToolsReadEnvVariables
  | VixToolsWriteVariable
  | VixToolsGetFileInfo
  | VixToolsSetFileAttributes
  | VixToolsProcessHgfsPacket
  | VixToolsListFileSystems.

(** What the work of a leaf handler leaves behind: its status, the values of
    its result parameters, and the globals it may have written. *)
Record LeafOutcome : Type := mkLeafOutcome {
  leaf_err : VixError;
  leaf_result : option string;
  leaf_resultLength : Z;
  leaf_exitedProcessList : list Registry.VixToolsExitedProgramState;
  leaf_userEnvironmentTable : option (gmap string string);
  leaf_timers : list Timer;
}.

(** The leaf operations and the property-list helpers, as oracles:
    [leaf_precheck] is the argument check made before the gate ([Some err]
    when it jumps to [abort]), [leaf_abort_result] the result parameters of
    a handler that left before its work, [leaf_body] the work itself.  The
    two property-list functions return either an error, leaving the buffer
    NULL, or the serialized buffer and its length. *)
Record Collaborators : Type := mkCollaborators {
  leaf_precheck : LeafHandler -> VixCommandRequestHeader -> option VixError;
  leaf_abort_result :
    LeafHandler -> VixCommandRequestHeader -> VixError -> option string * Z;
  leaf_body : LeafHandler -> VixCommandRequestHeader -> Agent -> LeafOutcome;
  VixTools_GetToolsPropertiesImpl : VixError + string * Z;
  Base64_Encode : string -> Z -> option (string * Z);
  VixToolsGetGuestNetworkingConfig :
    VixCommandRequestHeader -> VixError + string * Z;
}.

(** What [VixTools_ProcessVixCommand] hands back: its return value and the
    three output parameters. *)
Record CommandResult : Set := mkCommandResult {
  status : VixError;
  resultBuffer : string;
  resultLen : Z;
  deleteResultBufferResult : bool;
}.

Section Dispatch.
Variable os : GuestOS.
Variable leaf : Collaborators.
Local Open Scope Z_scope.

(** [VixToolsPidRefersToThisProcess], POSIX case. *)
Definition VixToolsPidRefersToThisProcess (target : Z) : bool :=
  (getpid os =? target) || (0 =? target) || (-1 =? target)
  || ((target <? -1) && (getpgrp os =? target * -1)).

(** [VixToolsKillProcess]. *)
Definition VixToolsKillProcess (requestMsg : VixCommandRequestHeader)
    : M VixError :=
  '(err, userToken) ← VixToolsImpersonateUser os requestMsg;
  '(err, impersonatingVMWareUser) ←
    (if bool_decide (err = VIX_OK) then
       let target := kp_pid (killProcessRequest requestMsg) in
       if VixToolsPidRefersToThisProcess target
       then mret (VIX_E_GUEST_USER_PERMISSIONS, true)
       else
         let killed := ProcMgr_KillByPid os target in
         emit (EvKillByPid target killed);;
         if killed then mret (err, true)
         else mret (FoundryToolsDaemon_TranslateSystemErr os, true)
     else mret (err, false));
  release impersonatingVMWareUser userToken;;
  mret err.

(** [VixToolsCheckUserAccount]: the gate and nothing else. *)
Definition VixToolsCheckUserAccount (requestMsg : VixCommandRequestHeader)
    : M VixError :=
  '(err, userToken) ← VixToolsImpersonateUser os requestMsg;
  release (bool_decide (err = VIX_OK)) userToken;;
  mret err.

(** The work of a leaf handler, with the globals it wrote. *)
Definition run_leaf_body (h : LeafHandler)
    (requestMsg : VixCommandRequestHeader) : M LeafOutcome :=
  a ← get_agent;
  let out := leaf_body leaf h requestMsg a in
  set_exitedProcessList (leaf_exitedProcessList out);;
  set_userEnvironmentTable (leaf_userEnvironmentTable out);;
  set_timers (leaf_timers out);;
  mret out.

(** A leaf handler: the status and the values of its result parameters. *)
Definition leaf_handler (h : LeafHandler)
    (requestMsg : VixCommandRequestHeader)
    : M (VixError * option string * Z) :=
  match leaf_precheck leaf h requestMsg with
  | Some err =>
      release false NULL_TOKEN;;
      let '(result, len) := leaf_abort_result leaf h requestMsg err in
      mret (err, result, len)
  | None =>
      '(err, userToken) ← VixToolsImpersonateUser os requestMsg;
      if bool_decide (err = VIX_OK) then
        out ← run_leaf_body h requestMsg;
        release true userToken;;
        mret (leaf_err out, leaf_result out, leaf_resultLength out)
      else
        release false userToken;;
        let '(result, len) := leaf_abort_result leaf h requestMsg err in
        mret (err, result, len)
  end.

(** [VixTools_Base64EncodeBuffer] on a non-NULL buffer: on failure the first
    byte of the buffer is cleared and the length is left as it was. *)
Definition VixTools_Base64EncodeBuffer (resultValue : string)
    (resultValLength : Z) : VixError * string * Z :=
  match Base64_Encode leaf resultValue resultValLength with
  | None => (VIX_E_FAIL, EmptyString, resultValLength)
  | Some (base64Buffer, base64BufferLength) =>
      (VIX_OK, base64Buffer, base64BufferLength)
  end.

(** The locals of [VixTools_ProcessVixCommand] when control reaches the
    [abort:] label. *)
Record DispatchLocals : Set := mkLocals {
  d_err : VixError;
  d_resultValue : option string;
  d_resultValueLength : Z;
  d_mustSetResultValueLength : bool;
  d_deleteResultValue : bool;
}.

(** A case of the form [err = Handler(requestMsg, &resultValue);] followed
    by an optional [deleteResultValue = TRUE;]. *)
Definition text_case (h : LeafHandler) (requestMsg : VixCommandRequestHeader)
    (deleteResultValue : bool) : M DispatchLocals :=
  '(err, result, _) ← leaf_handler h requestMsg;
  mret {| d_err := err; d_resultValue := result; d_resultValueLength := 0;
          d_mustSetResultValueLength := true;
          d_deleteResultValue := deleteResultValue |}.

(** A case of the form [err = Handler(requestMsg);]. *)
Definition status_case (h : LeafHandler)
    (requestMsg : VixCommandRequestHeader) : M DispatchLocals :=
  '(err, _, _) ← leaf_handler h requestMsg;
  mret {| d_err := err; d_resultValue := None; d_resultValueLength := 0;
          d_mustSetResultValueLength := true;
          d_deleteResultValue := false |}.

Definition status_only (err : VixError) : DispatchLocals :=
  {| d_err := err; d_resultValue := None; d_resultValueLength := 0;
     d_mustSetResultValueLength := true; d_deleteResultValue := false |}.

(** The [switch (requestMsg->opCode)] of [VixTools_ProcessVixCommand]. *)
Definition dispatch_switch (requestMsg : VixCommandRequestHeader)
    (requestName : string) : M DispatchLocals :=
  match opCode requestMsg with
  | VIX_COMMAND_CHECK_USER_ACCOUNT
  | VIX_COMMAND_LOGOUT_IN_GUEST =>
      err ← VixToolsCheckUserAccount requestMsg;
      mret (status_only err)
  | VIX_COMMAND_GET_TOOLS_STATE =>
      match VixTools_GetToolsPropertiesImpl leaf with
      | inl err => mret (status_only err)
      | inr (serialized, len) =>
          let '(err, encoded, encodedLength) :=
            VixTools_Base64EncodeBuffer serialized len in
          mret {| d_err := err; d_resultValue := Some encoded;
                  d_resultValueLength := encodedLength;
                  d_mustSetResultValueLength := false;
                  d_deleteResultValue := true |}
      end
  | VIX_COMMAND_LIST_PROCESSES =>
      text_case VixToolsListProcesses requestMsg false
  | VIX_COMMAND_LIST_PROCESSES_EX =>
      text_case VixToolsListProcessesEx requestMsg false
  | VIX_COMMAND_LIST_DIRECTORY =>
      text_case VixToolsListDirectory requestMsg true
  | VIX_COMMAND_LIST_FILES =>
      text_case VixToolsListFiles requestMsg true
  | VIX_COMMAND_DELETE_GUEST_FILE
  | VIX_COMMAND_DELETE_GUEST_REGISTRY_KEY
  | VIX_COMMAND_DELETE_GUEST_DIRECTORY
  | VIX_COMMAND_DELETE_GUEST_EMPTY_DIRECTORY =>
      status_case VixToolsDeleteObject requestMsg
  | VIX_COMMAND_REGISTRY_KEY_EXISTS
  | VIX_COMMAND_GUEST_FILE_EXISTS
  | VIX_COMMAND_DIRECTORY_EXISTS =>
      text_case VixToolsObjectExists requestMsg false
  | VIX_COMMAND_READ_REGISTRY =>
      (* VixToolsReadRegistry: not supported outside Windows; the
         deleteResultValue = TRUE that follows is undone at abort *)
      mret {| d_err := VIX_E_OP_NOT_SUPPORTED_ON_GUEST;
              d_resultValue := None; d_resultValueLength := 0;
              d_mustSetResultValueLength := true;
              d_deleteResultValue := true |}
  | VIX_COMMAND_WRITE_REGISTRY =>
      mret (status_only VIX_E_OP_NOT_SUPPORTED_ON_GUEST)
  | VIX_COMMAND_KILL_PROCESS =>
      err ← VixToolsKillProcess requestMsg;
      mret (status_only err)
  | VIX_COMMAND_CREATE_DIRECTORY
  | VIX_COMMAND_CREATE_DIRECTORY_EX =>
      status_case VixToolsCreateDirectory requestMsg
  | VIX_COMMAND_MOVE_GUEST_FILE
  | VIX_COMMAND_MOVE_GUEST_FILE_EX
  | VIX_COMMAND_MOVE_GUEST_DIRECTORY =>
      status_case VixToolsMoveObject requestMsg
  | VIX_COMMAND_RUN_SCRIPT_IN_GUEST =>
      text_case VixToolsRunScript requestMsg false
  | VIX_COMMAND_RUN_PROGRAM =>
      '(err, result) ← VixTools_RunProgram os requestMsg requestName;
      mret {| d_err := err; d_resultValue := Some result;
              d_resultValueLength := 0;
              d_mustSetResultValueLength := true;
              d_deleteResultValue := false |}
  | VIX_COMMAND_START_PROGRAM =>
      '(err, result) ← VixTools_StartProgram os requestMsg requestName;
      mret {| d_err := err; d_resultValue := Some result;
              d_resultValueLength := 0;
              d_mustSetResultValueLength := true;
              d_deleteResultValue := false |}
  | VIX_COMMAND_OPEN_URL =>
      status_case VixToolsOpenUrl requestMsg
  | VIX_COMMAND_CREATE_TEMPORARY_FILE
  | VIX_COMMAND_CREATE_TEMPORARY_FILE_EX
  | VIX_COMMAND_CREATE_TEMPORARY_DIRECTORY =>
      text_case VixToolsCreateTempFile requestMsg true
  | VIX_COMMAND_READ_VARIABLE =>
      text_case VixToolsReadVariable requestMsg true
  | VIX_COMMAND_READ_ENV_VARIABLES =>
      text_case VixToolsReadEnvVariables requestMsg true
  | VIX_COMMAND_WRITE_VARIABLE =>
      status_case VixToolsWriteVariable requestMsg
  | VIX_COMMAND_GET_FILE_INFO =>
      text_case VixToolsGetFileInfo requestMsg true
  | VIX_COMMAND_SET_GUEST_FILE_ATTRIBUTES =>
      status_case VixToolsSetFileAttributes requestMsg
  | VMXI_HGFS_SEND_PACKET_COMMAND =>
      '(err, result, len) ← leaf_handler VixToolsProcessHgfsPacket requestMsg;
      mret {| d_err := err; d_resultValue := result;
              d_resultValueLength := len;
              d_mustSetResultValueLength := false;
              d_deleteResultValue := false |}
  | VIX_COMMAND_GET_GUEST_NETWORKING_CONFIG =>
      match VixToolsGetGuestNetworkingConfig leaf requestMsg with
      | inl err => mret (status_only err)
      | inr (serialized, len) =>
          mret {| d_err := VIX_OK; d_resultValue := Some serialized;
                  d_resultValueLength := len;
                  d_mustSetResultValueLength := false;
                  d_deleteResultValue := true |}
      end
  | VIX_COMMAND_LIST_FILESYSTEMS =>
      text_case VixToolsListFileSystems requestMsg false
  | VIX_COMMAND_SET_GUEST_NETWORKING_CONFIG (* a case on Windows only *)
  | VIX_COMMAND_UNLISTED _ =>
      mret (status_only VIX_OK)
  end.

(** The code after the [abort:] label. *)
Definition dispatch_abort (l : DispatchLocals) : CommandResult :=
  let '(resultValue, deleteResultValue) :=
    match d_resultValue l with
    | None => (EmptyString, false)
    | Some v => (v, d_deleteResultValue l)
    end in
  let resultValueLength :=
    if d_mustSetResultValueLength l
    then Z.of_nat (String.length resultValue)
    else d_resultValueLength l in
  {| status := d_err l;
     resultBuffer := resultValue;
     resultLen := resultValueLength;
     deleteResultBufferResult := deleteResultValue |}.

(** [VixTools_ProcessVixCommand], called with its three output parameters
    non-NULL. *)
Definition VixTools_ProcessVixCommand (requestMsg : VixCommandRequestHeader)
    (requestName : string) : M CommandResult :=
  l ← dispatch_switch requestMsg requestName;
  mret (dispatch_abort l).

(** The case labels of the switch (POSIX build, where the label
    [VIX_COMMAND_SET_GUEST_NETWORKING_CONFIG] is not compiled). *)
Definition handled (op : OpCode) : bool :=
  match op with
  | VIX_COMMAND_CHECK_USER_ACCOUNT | VIX_COMMAND_LOGOUT_IN_GUEST
  | VIX_COMMAND_GET_TOOLS_STATE
  | VIX_COMMAND_LIST_PROCESSES | VIX_COMMAND_LIST_PROCESSES_EX
  | VIX_COMMAND_LIST_DIRECTORY | VIX_COMMAND_LIST_FILES
  | VIX_COMMAND_DELETE_GUEST_FILE | VIX_COMMAND_DELETE_GUEST_REGISTRY_KEY
  | VIX_COMMAND_DELETE_GUEST_DIRECTORY
  | VIX_COMMAND_DELETE_GUEST_EMPTY_DIRECTORY
  | VIX_COMMAND_REGISTRY_KEY_EXISTS | VIX_COMMAND_GUEST_FILE_EXISTS
  | VIX_COMMAND_DIRECTORY_EXISTS
  | VIX_COMMAND_READ_REGISTRY | VIX_COMMAND_WRITE_REGISTRY
  | VIX_COMMAND_KILL_PROCESS
  | VIX_COMMAND_CREATE_DIRECTORY | VIX_COMMAND_CREATE_DIRECTORY_EX
  | VIX_COMMAND_MOVE_GUEST_FILE | VIX_COMMAND_MOVE_GUEST_FILE_EX
  | VIX_COMMAND_MOVE_GUEST_DIRECTORY
  | VIX_COMMAND_RUN_SCRIPT_IN_GUEST | VIX_COMMAND_RUN_PROGRAM
  | VIX_COMMAND_START_PROGRAM | VIX_COMMAND_OPEN_URL
  | VIX_COMMAND_CREATE_TEMPORARY_FILE | VIX_COMMAND_CREATE_TEMPORARY_FILE_EX
  | VIX_COMMAND_CREATE_TEMPORARY_DIRECTORY
  | VIX_COMMAND_READ_VARIABLE | VIX_COMMAND_READ_ENV_VARIABLES
  | VIX_COMMAND_WRITE_VARIABLE
  | VIX_COMMAND_GET_FILE_INFO | VIX_COMMAND_SET_GUEST_FILE_ATTRIBUTES
  | VMXI_HGFS_SEND_PACKET_COMMAND
  | VIX_COMMAND_GET_GUEST_NETWORKING_CONFIG
  | VIX_COMMAND_LIST_FILESYSTEMS => true
  | _ => false
  end.

End Dispatch.

(** ** Initialization and the policy setters *)

(** [VixTools_SetConsoleUserPolicy]. *)
Definition VixTools_SetConsoleUserPolicy (allowConsoleUserOpsParam : bool)
    : M unit := fun s =>
  (tt, {| exitedProcessList := exitedProcessList s;
          userEnvironmentTable := userEnvironmentTable s;
          thisProcessRunsAsRoot := thisProcessRunsAsRoot s;
          allowConsoleUserOps := allowConsoleUserOpsParam;
          reportProgramDoneProc := reportProgramDoneProc s;
          timers := timers s;
          tick := tick s;
          trace := trace s |}).

(** [VixTools_SetRunProgramCallback]; the parameter tells whether the
    function pointer is non-NULL, which is all the monitors test. *)
Definition VixTools_SetRunProgramCallback (reportProgramDoneProcParam : bool)
    : M unit := fun s =>
  (tt, {| exitedProcessList := exitedProcessList s;
          userEnvironmentTable := userEnvironmentTable s;
          thisProcessRunsAsRoot := thisProcessRunsAsRoot s;
          allowConsoleUserOps := allowConsoleUserOps s;
          reportProgramDoneProc := reportProgramDoneProcParam;
          timers := timers s;
          tick := tick s;
          trace := trace s |}).

(** [VixTools_Initialize] (POSIX build). *)
Definition VixTools_Initialize
    (insert : gmap string string -> string -> string -> gmap string string)
    (thisProcessRunsAsRootParam : bool) (originalEnvp : option (list string))
    (reportProgramDoneProcParam : bool) : M VixError :=
  (fun s =>
     (tt, {| exitedProcessList := exitedProcessList s;
             userEnvironmentTable := userEnvironmentTable s;
             thisProcessRunsAsRoot := thisProcessRunsAsRootParam;
             allowConsoleUserOps := allowConsoleUserOps s;
             reportProgramDoneProc := reportProgramDoneProcParam;
             timers := timers s;
             tick := tick s;
             trace := trace s |}));;
  Env.VixToolsBuildUserEnvironmentTable insert originalEnvp;;
  mret VIX_OK.

(** ** Guest variables *)

(** [VixMsgReadVariableRequest] with the name that follows it, and
    [VixMsgWriteVariableRequest] with the bytes that follow it, which
    [VixMsg_ParseWriteVariableRequest] reads. *)
Record VixMsgReadVariableRequest : Set := mkReadVariableRequest {
  rv_variableType : Z;
  rv_name : string;
}.

Record VixMsgWriteVariableRequest : Set := mkWriteVariableRequest {
  wv_variableType : Z;
  wv_body : string;
}.

(** The library calls of the two handlers.  The process environment and the
    privileges of the caller change while the agent runs, so these calls
    take the tick counter.  [VixMsg_ParseWriteVariableRequest] gives its
    status and the two strings it leaves in [valueName] and [value]. *)
Record GuestEnvironment : Type := mkGuestEnvironment {
  System_GetEnv : nat -> string -> option string;
  System_SetEnv : nat -> string -> string -> Z;
  Util_HasAdminPriv : nat -> Z;
  VixMsg_ParseWriteVariableRequest :
    VixMsgWriteVariableRequest -> VixError * string * string;
}.

Module GuestVar.
Section Handlers.
Variable os : GuestOS.
Variable env : GuestEnvironment.
(** The value [VIX_GUEST_ENVIRONMENT_VARIABLE] of vix.h. *)
Variable VIX_GUEST_ENVIRONMENT_VARIABLE : Z.
Local Open Scope Z_scope.

(** [VixToolsReadVariable]: the status and the value left in [*result],
    which is not written when the gate refuses.  [HashTable_Lookup] is the
    lookup of the table. *)
Definition VixToolsReadVariable (requestMsg : VixCommandRequestHeader)
    (readRequest : VixMsgReadVariableRequest)
    : M (VixError * option string) :=
  let valueName := rv_name readRequest in
  '(err, userToken) ← VixToolsImpersonateUser os requestMsg;
  '(err, impersonatingVMWareUser, result) ←
    (if bool_decide (err = VIX_OK) then
       if rv_variableType readRequest =? VIX_GUEST_ENVIRONMENT_VARIABLE then
         a ← get_agent;
         match userEnvironmentTable a with
         | Some table =>
             match table !! valueName with
             | Some value => mret (err, true, Some value)
             | None => mret (err, true, Some EmptyString)
             end
         | None =>
             t ← next_tick;
             match System_GetEnv env t valueName with
             | Some value => mret (err, true, Some value)
             | None => mret (err, true, Some EmptyString)
             end
         end
       else mret (VIX_E_OP_NOT_SUPPORTED_ON_GUEST, true, Some EmptyString)
     else mret (err, false, None));
  release impersonatingVMWareUser userToken;;
  mret (err, result).

(** [VixToolsWriteVariable] (POSIX build).  [HashTable_ReplaceOrInsert] is
    the insertion of the table. *)
Definition VixToolsWriteVariable (requestMsg : VixCommandRequestHeader)
    (writeRequest : VixMsgWriteVariableRequest) : M VixError :=
  let '(err, valueName, value) :=
    VixMsg_ParseWriteVariableRequest env writeRequest in
  '(err, impersonatingVMWareUser, userToken) ←
    (if negb (bool_decide (err = VIX_OK)) then mret (err, false, NULL_TOKEN)
     else
       '(err, userToken) ← VixToolsImpersonateUser os requestMsg;
       if negb (bool_decide (err = VIX_OK)) then mret (err, false, userToken)
       else if wv_variableType writeRequest =? VIX_GUEST_ENVIRONMENT_VARIABLE
       then
         t ← next_tick;
         if negb (Util_HasAdminPriv env t =? 1)
         then mret (VIX_E_GUEST_USER_PERMISSIONS, true, userToken)
         else
           t ← next_tick;
           if negb (System_SetEnv env t valueName value =? 0)
           then mret (FoundryToolsDaemon_TranslateSystemErr os, true,
                      userToken)
           else
             a ← get_agent;
             match userEnvironmentTable a with
             | Some table =>
                 set_userEnvironmentTable (Some (<[valueName:=value]> table))
             | None => mret tt
             end;;
             mret (err, true, userToken)
       else mret (VIX_E_OP_NOT_SUPPORTED_ON_GUEST, true, userToken));
  release impersonatingVMWareUser userToken;;
  mret err.

End Handlers.
End GuestVar.

(** ** Files and directories *)

(** The status of a file handler: a code of the list above, or one of the
    three codes of vix.h that only these handlers return. *)
Inductive FileStatus : Set :=
  | Status (err : VixError)
  | VIX_E_NOT_A_FILE
  | VIX_E_ALREADY_EXISTS
  | VIX_E_FILE_ALREADY_EXISTS.

#[global] Instance FileStatus_eq_dec : EqDecision FileStatus.
Proof. solve_decision. Defined.

(** [VixMsgSimpleFileRequest] with the path that follows it;
    [VixMsgCreateFileRequest] and [VixMsgCreateFileRequestEx], of which only
    the second has the field [createParentDirectories];
    [VixCommandRenameFileRequest] and [VixCommandRenameFileRequestEx], of
    which only the second has the field [overwrite]. *)
Record VixMsgSimpleFileRequest : Set := mkSimpleFileRequest {
  sf_pathName : string;
}.

Record VixMsgCreateFileRequestEx : Set := mkCreateFileRequest {
  cf_createParentDirectories : bool;
  cf_pathName : string;
}.

Record VixCommandRenameFileRequestEx : Set := mkRenameFileRequest {
  rf_overwrite : bool;
  rf_oldPathName : string;
  rf_newPathName : string;
}.

(** The calls of the File library that change the file system.  The
    handlers below return, beside their status, the list of the calls of
    this kind they made, in order. *)
Inductive FileCall : Set :=
  | CallUnlinkNoFollow (pathName : string)
  | CallDeleteDirectoryTree (pathName : string)
  | CallDeleteEmptyDirectory (pathName : string)
  | CallCreateDirectoryHierarchy (pathName : string)
  | CallCreateDirectory (pathName : string)
  | CallRename (oldPathName newPathName : string).

#[global] Instance FileCall_eq_dec : EqDecision FileCall.
Proof. solve_decision. Defined.

(** The File library beyond [File_Exists] and [File_IsDirectory].  One
    handler runs against one state of the file system; the oracles answer
    for that state, the changing calls with their result. *)
Record GuestFiles : Type := mkGuestFiles {
  File_IsSymLink : string -> bool;
  File_IsFile : string -> bool;
  File_IsSameFile : string -> string -> bool;
  File_UnlinkNoFollow : string -> Z;
  File_DeleteDirectoryTree : string -> bool;
  File_DeleteEmptyDirectory : string -> bool;
  File_CreateDirectoryHierarchy : string -> bool;
  File_CreateDirectory : string -> bool;
  File_Rename : string -> string -> bool;
}.

Module GuestFile.
Section Handlers.
Variable os : GuestOS.
Variable fs : GuestFiles.
Local Open Scope Z_scope.

(** The [abort:] epilogue, returning the status and the calls made. *)
Definition finish (err : FileStatus) (impersonatingVMWareUser : bool)
    (userToken : UserToken) (made : list FileCall)
    : M (FileStatus * list FileCall) :=
  release impersonatingVMWareUser userToken;;
  mret (err, made).

(** The two tests the directory opcodes of [VixToolsDeleteObject] share. *)
Definition delete_directory (pathName : string) (userToken : UserToken)
    (call : FileCall) (success : bool) : M (FileStatus * list FileCall) :=
  if negb (File_Exists os pathName)
  then finish (Status VIX_E_FILE_NOT_FOUND) true userToken []
  else if negb (File_IsDirectory os pathName)
  then finish (Status VIX_E_NOT_A_DIRECTORY) true userToken []
  else if negb success
  then finish (Status (FoundryToolsDaemon_TranslateSystemErr os)) true
         userToken [call]
  else finish (Status VIX_OK) true userToken [call].

(** [VixToolsDeleteObject]. *)
Definition VixToolsDeleteObject (requestMsg : VixCommandRequestHeader)
    (fileRequest : VixMsgSimpleFileRequest)
    : M (FileStatus * list FileCall) :=
  let pathName := sf_pathName fileRequest in
  if bool_decide (pathName = EmptyString)
  then finish (Status VIX_E_INVALID_ARG) false NULL_TOKEN []
  else
    '(err, userToken) ← VixToolsImpersonateUser os requestMsg;
    if negb (bool_decide (err = VIX_OK))
    then finish (Status err) false userToken []
    else
      match opCode requestMsg with
      | VIX_COMMAND_DELETE_GUEST_FILE =>
          let refusal :=
            if negb (File_IsSymLink fs pathName) then
              if negb (File_Exists os pathName)
              then Some (Status VIX_E_FILE_NOT_FOUND)
              else if negb (File_IsFile fs pathName)
              then Some VIX_E_NOT_A_FILE
              else None
            else None in
          match refusal with
          | Some status => finish status true userToken []
          | None =>
              let resultInt := File_UnlinkNoFollow fs pathName in
              if negb (resultInt =? 0)
              then finish (Status (FoundryToolsDaemon_TranslateSystemErr os))
                     true userToken [CallUnlinkNoFollow pathName]
              else finish (Status err) true userToken
                     [CallUnlinkNoFollow pathName]
          end
      | VIX_COMMAND_DELETE_GUEST_REGISTRY_KEY =>
          finish (Status VIX_E_OP_NOT_SUPPORTED_ON_GUEST) true userToken []
      | VIX_COMMAND_DELETE_GUEST_DIRECTORY =>
          delete_directory pathName userToken
            (CallDeleteDirectoryTree pathName)
            (File_DeleteDirectoryTree fs pathName)
      | VIX_COMMAND_DELETE_GUEST_EMPTY_DIRECTORY =>
          delete_directory pathName userToken
            (CallDeleteEmptyDirectory pathName)
            (File_DeleteEmptyDirectory fs pathName)
      | _ => finish (Status VIX_E_INVALID_ARG) true userToken []
      end.

(** [Str_Sprintf(resultBuffer, sizeof resultBuffer, "%d", resultInt)]. *)
Definition format_int (z : Z) : string :=
  NilZero.string_of_int (Z.to_int z).

(** [VixToolsObjectExists] (POSIX build): the status and the text left in
    [*result]. *)
Definition VixToolsObjectExists (requestMsg : VixCommandRequestHeader)
    (fileRequest : VixMsgSimpleFileRequest) : M (VixError * string) :=
  let pathName := sf_pathName fileRequest in
  '(err, impersonatingVMWareUser, userToken, resultInt) ←
    (if bool_decide (pathName = EmptyString)
     then mret (VIX_E_INVALID_ARG, false, NULL_TOKEN, 0)
     else
       '(err, userToken) ← VixToolsImpersonateUser os requestMsg;
       if negb (bool_decide (err = VIX_OK))
       then mret (err, false, userToken, 0)
       else
         match opCode requestMsg with
         | VIX_COMMAND_GUEST_FILE_EXISTS =>
             mret (err, true, userToken,
                   if File_IsFile fs pathName then 1 else 0)
         | VIX_COMMAND_REGISTRY_KEY_EXISTS =>
             mret (VIX_E_OP_NOT_SUPPORTED_ON_GUEST, true, userToken, 0)
         | VIX_COMMAND_DIRECTORY_EXISTS =>
             mret (err, true, userToken,
                   if File_IsDirectory os pathName then 1 else 0)
         | _ => mret (VIX_E_INVALID_ARG, true, userToken, 0)
         end);
  release impersonatingVMWareUser userToken;;
  mret (err, format_int resultInt).

(** [VixToolsCreateDirectory]. *)
Definition VixToolsCreateDirectory (requestMsg : VixCommandRequestHeader)
    (dirRequest : VixMsgCreateFileRequestEx)
    : M (FileStatus * list FileCall) :=
  let dirPathName := cf_pathName dirRequest in
  let layout :=
    match opCode requestMsg with
    | VIX_COMMAND_CREATE_DIRECTORY => Some true
    | VIX_COMMAND_CREATE_DIRECTORY_EX =>
        Some (cf_createParentDirectories dirRequest)
    | _ => None
    end in
  match layout with
  | None => finish (Status VIX_E_FAIL) false NULL_TOKEN []
  | Some createParentDirectories =>
      if bool_decide (dirPathName = EmptyString)
      then finish (Status VIX_E_INVALID_ARG) false NULL_TOKEN []
      else
        '(err, userToken) ← VixToolsImpersonateUser os requestMsg;
        if negb (bool_decide (err = VIX_OK))
        then finish (Status err) false userToken []
        else if File_Exists os dirPathName
        then finish VIX_E_FILE_ALREADY_EXISTS true userToken []
        else if createParentDirectories then
          if negb (File_CreateDirectoryHierarchy fs dirPathName)
          then finish (Status (FoundryToolsDaemon_TranslateSystemErr os))
                 true userToken [CallCreateDirectoryHierarchy dirPathName]
          else finish (Status err) true userToken
                 [CallCreateDirectoryHierarchy dirPathName]
        else
          if negb (File_CreateDirectory fs dirPathName)
          then finish (Status (FoundryToolsDaemon_TranslateSystemErr os))
                 true userToken [CallCreateDirectory dirPathName]
          else finish (Status err) true userToken
                 [CallCreateDirectory dirPathName]
  end.

(** [VixToolsMoveObject] (linux build). *)
Definition VixToolsMoveObject (requestMsg : VixCommandRequestHeader)
    (renameRequest : VixCommandRenameFileRequestEx)
    : M (FileStatus * list FileCall) :=
  let srcFilePathName := rf_oldPathName renameRequest in
  let destFilePathName := rf_newPathName renameRequest in
  let layout :=
    match opCode requestMsg with
    | VIX_COMMAND_MOVE_GUEST_FILE => Some true
    | VIX_COMMAND_MOVE_GUEST_FILE_EX
    | VIX_COMMAND_MOVE_GUEST_DIRECTORY => Some (rf_overwrite renameRequest)
    | _ => None
    end in
  match layout with
  | None => finish (Status VIX_E_FAIL) false NULL_TOKEN []
  | Some overwrite =>
      if bool_decide (srcFilePathName = EmptyString)
         || bool_decide (destFilePathName = EmptyString)
      then finish (Status VIX_E_INVALID_ARG) false NULL_TOKEN []
      else
        '(err, userToken) ← VixToolsImpersonateUser os requestMsg;
        if negb (bool_decide (err = VIX_OK))
        then finish (Status err) false userToken []
        else if negb (File_Exists os srcFilePathName)
        then finish (Status VIX_E_FILE_NOT_FOUND) true userToken []
        else if File_IsSameFile fs srcFilePathName destFilePathName
        then finish (Status VIX_OK) true userToken []
        else if File_IsDirectory os destFilePathName
        then finish VIX_E_ALREADY_EXISTS true userToken []
        else
          let refusal :=
            match opCode requestMsg with
            | VIX_COMMAND_MOVE_GUEST_FILE_EX =>
                if File_IsDirectory os srcFilePathName
                then Some VIX_E_NOT_A_FILE
                else if negb overwrite && File_Exists os destFilePathName
                then Some VIX_E_FILE_ALREADY_EXISTS
                else None
            | VIX_COMMAND_MOVE_GUEST_DIRECTORY =>
                if negb (File_IsDirectory os srcFilePathName)
                then Some (Status VIX_E_NOT_A_DIRECTORY)
                else None
            | _ => None
            end in
          match refusal with
          | Some status => finish status true userToken []
          | None =>
              if negb (File_Rename fs srcFilePathName destFilePathName)
              then finish (Status (FoundryToolsDaemon_TranslateSystemErr os))
                     true userToken
                     [CallRename srcFilePathName destFilePathName]
              else finish (Status err) true userToken
                     [CallRename srcFilePathName destFilePathName]
          end
  end.

End Handlers.
End GuestFile.

(** * Vocabulary of the properties *)

(** The agent with [events] appended to its trace. *)
Definition add_trace (a : Agent) (events : list Event) : Agent :=
  {| exitedProcessList := exitedProcessList a;
     userEnvironmentTable := userEnvironmentTable a;
     thisProcessRunsAsRoot := thisProcessRunsAsRoot a;
     allowConsoleUserOps := allowConsoleUserOps a;
     reportProgramDoneProc := reportProgramDoneProc a;
     timers := timers a;
     tick := tick a;
     trace := trace a ++ events |}.

(** The calls of the Auth and impersonation libraries. *)
Definition is_gate_event (e : Event) : bool :=
  match e with
  | EvAuthenticateUser _ _ _ | EvImpersonateUserStart _ _ _
  | EvImpersonateUserStop | EvCloseToken _ => true
  | _ => false
  end.

Definition gate_events (events : list Event) : list Event :=
  List.filter is_gate_event events.

Definition is_close (e : Event) : bool :=
  match e with EvCloseToken _ => true | _ => false end.

Definition is_acquisition (e : Event) : bool :=
  match e with EvAuthenticateUser _ _ (Some _) => true | _ => false end.

Definition is_switch (e : Event) : bool :=
  match e with EvImpersonateUserStart _ _ true => true | _ => false end.

Definition is_restore (e : Event) : bool :=
  match e with EvImpersonateUserStop => true | _ => false end.

Definition is_exec (e : Event) : bool :=
  match e with EvExecAsync _ _ _ => true | _ => false end.

Definition is_kill (e : Event) : bool :=
  match e with EvKillByPid _ _ => true | _ => false end.

(** Number of events of a kind in a trace. *)
Definition calls (kind : Event -> bool) (events : list Event) : nat :=
  length (List.filter kind events).

(** What one pass through the gate logs, with the status and the token it
    leaves to the handler. *)
Inductive gate_outcome : VixError -> UserToken -> list Event -> Prop :=
  | gate_no_switch :
      gate_outcome VIX_OK PROCESS_CREATOR_USER_TOKEN []
  | gate_refused err :
      err ≠ VIX_OK -> gate_outcome err NULL_TOKEN []
  | gate_not_authenticated u p :
      gate_outcome VIX_E_GUEST_USER_PERMISSIONS NULL_TOKEN
        [EvAuthenticateUser u p None]
  | gate_switch_failed u p t :
      gate_outcome VIX_E_GUEST_USER_PERMISSIONS (AuthTokenPtr t)
        [EvAuthenticateUser u p (Some t); EvImpersonateUserStart u t false]
  | gate_switched u p t :
      gate_outcome VIX_OK (AuthTokenPtr t)
        [EvAuthenticateUser u p (Some t); EvImpersonateUserStart u t true].

(** The gate calls of one handler, from acquisition to release: nothing when
    no identity was acquired; a failed authentication; an identity acquired
    whose context switch failed, closed; an identity acquired and switched
    to, restored and then closed. *)
Inductive disciplined : list Event -> Prop :=
  | disc_none : disciplined []
  | disc_not_authenticated u p :
      disciplined [EvAuthenticateUser u p None]
  | disc_switch_failed u p t :
      disciplined [EvAuthenticateUser u p (Some t);
                   EvImpersonateUserStart u t false;
                   EvCloseToken t]
  | disc_scoped u p t :
      disciplined [EvAuthenticateUser u p (Some t);
                   EvImpersonateUserStart u t true;
                   EvImpersonateUserStop;
                   EvCloseToken t].

(** What the [abort:] epilogue logs. *)
Definition release_events (impersonatingVMWareUser : bool)
    (userToken : UserToken) : list Event :=
  (if impersonatingVMWareUser
      && negb (bool_decide (userToken = PROCESS_CREATOR_USER_TOKEN))
   then [EvImpersonateUserStop] else [])
  ++ match userToken with
     | AuthTokenPtr t => [EvCloseToken t]
     | _ => []
     end.

(** A computation only appends to the trace, and what it appends together
    with its result satisfies [Q]. *)
Definition emits {A : Type} (m : M A) (Q : A -> list Event -> Prop) : Prop :=
  ∀ a : Agent, ∃ events, trace (m a).2 = trace a ++ events ∧ Q (m a).1 events.

(** Between [a] and [a'] no process was created, no registry record was
    written and no monitor was attached. *)
Definition nothing_launched (a a' : Agent) : Prop :=
  exitedProcessList a' = exitedProcessList a
  ∧ timers a' = timers a
  ∧ calls is_exec (trace a') = calls is_exec (trace a).

(** The working directory [VixTools_StartProgram] passes on. *)
Definition requested_workingDir (request : VixMsgStartProgramRequest)
    : option string :=
  if (0 <? sp_workingDirLength request)%Z
  then Some (sp_workingDir request) else None.

(** The environment [VixTools_StartProgram] passes on. *)
Definition requested_envVars (request : VixMsgStartProgramRequest)
    : option (list string) :=
  if (0 <? sp_numEnvVars request)%Z
  then Some (sp_envVars request) else None.

(** One of the tests the launchers make before creating a process does not
    pass: the program file does not exist, or cannot be executed, or the
    working directory asked for is not a directory. *)
Definition refused (os : GuestOS) (file : string)
    (workingDir : option string) : Prop :=
  File_Exists os file = false
  ∨ FileIO_Access_EXEC os file = false
  ∨ (∃ dir, workingDir = Some dir ∧ File_IsDirectory os dir = false).

(** The process a timer's callback monitors. *)
Definition timer_procState (t : Timer) : ProcMgr_AsyncProc :=
  match t with
  | TimerMonitorAsyncProc asyncState => run_procState asyncState
  | TimerMonitorStartProgram asyncState => start_procState asyncState
  end.




(** The retrievals of the exit status of process [p], and the monitors of
    [p] in a timer queue. *)
Definition is_exit_code_retrieval_of (p : ProcMgr_AsyncProc) (e : Event)
    : bool :=
  match e with
  | EvGetExitCode procState _ _ => (procState =? p)%Z
  | _ => false
  end.

Definition monitors_of (p : ProcMgr_AsyncProc) (queue : list Timer) : nat :=
  length (List.filter (fun t => (timer_procState t =? p)%Z) queue).

(** [ep'] is the entry of the launch [ep] recorded: the fields set at the
    launch agree. *)
Definition same_launch (ep ep' : Registry.VixToolsExitedProgramState)
    : Prop :=
  Registry.pid ep' = Registry.pid ep
  ∧ Registry.name ep' = Registry.name ep
  ∧ Registry.user ep' = Registry.user ep
  ∧ Registry.startTime ep' = Registry.startTime ep
  ∧ Registry.isRunning ep' = Registry.isRunning ep.

(** The string holds no '='. *)
Fixpoint no_equals (s : string) : bool :=
  match s with
  | EmptyString => true
  | String c rest => negb (Ascii.eqb c "="%char) && no_equals rest
  end.

(** The string holds no double quote. *)
Fixpoint no_dquote (s : string) : bool :=
  match s with
  | EmptyString => true
  | String c rest => negb (Ascii.eqb c dquote) && no_dquote rest
  end.

(** The names of the strings of an environment, and the strings that have
    one (those with a '='). *)
Definition envp_names (entries : list string) : list string :=
  omap (fun entry => fst <$> Env.split_name_value entry) entries.

Definition name_value_entries (entries : list string) : list string :=
  List.filter (fun entry => bool_decide (is_Some (Env.split_name_value entry)))
    entries.

(** The arguments [VixTools_RunProgram] and [VixTools_StartProgram] pass
    on: NULL when the length field of the request is 0. *)
Definition requested_commandLineArgs (request : VixMsgRunProgramRequest)
    : option string :=
  if (0 <? rp_commandLineArgsLength request)%Z
  then Some (rp_commandLineArgs request) else None.

Definition requested_arguments (request : VixMsgStartProgramRequest)
    : option string :=
  if (0 <? sp_argumentsLength request)%Z
  then Some (sp_arguments request) else None.

(** The calls of the completion callback, and the monitors of
    fire-and-report launches in a timer queue. *)
Definition is_report (e : Event) : bool :=
  match e with EvReportProgramDone _ _ _ _ => true | _ => false end.

Definition is_fire_and_report_monitor (t : Timer) : bool :=
  match t with TimerMonitorAsyncProc _ => true | _ => false end.

Definition fire_and_report_monitors (queue : list Timer) : nat :=
  length (List.filter is_fire_and_report_monitor queue).

(** * Sample inputs *)

(** A launch, its exit five seconds later, and, five seconds after that
    (well inside the five minutes for which the entry of an ended program is
    kept), a second launch that the system gives the same pid. *)
Definition pid_reuse_ops : list Registry.RegistryOp :=
  [ Registry.RecordRunning "/bin/true" 7 1000 1000;
    Registry.RecordExit 7 0 1005 1005;
    Registry.RecordRunning "/bin/true" 7 1010 1010 ].


(** A terminal entry that ended at [ended]. *)
Definition terminal_entry (ended : Z) : Registry.VixToolsExitedProgramState :=
  Registry.exit_record 41 0 ended.

(** A running placeholder started at [started]. *)
Definition running_entry (started : Z) : Registry.VixToolsExitedProgramState :=
  Registry.running_record "/bin/sleep" 42 started.

(** A guest in which /bin/true is the only executable and /tmp the only
    directory; an empty credential field cannot be decoded, user alice
    authenticates but the switch to her identity is refused, user bob
    authenticates and is switched to; a launched process is seen running at
    ticks 0 to 2 and its exit status cannot be retrieved. *)
Definition sample_os : GuestOS :=
  {| time := fun n => (1000 + Z.of_nat n)%Z;
     File_Exists := fun path => bool_decide (path = "/bin/true");
     FileIO_Access_EXEC := fun path => bool_decide (path = "/bin/true");
     File_IsDirectory := fun path => bool_decide (path = "/tmp");
     Str_Asprintf_fails := fun _ => false;
     StrUtil_StrToInt := fun _ => None;
     VixMsg_DeObfuscateNamePassword :=
       fun blob =>
         if bool_decide (blob = "") then None
         else Some (Some blob, Some "secret");
     Auth_AuthenticateUser :=
       fun u _ =>
         if bool_decide (u = Some "alice") then Some 77%Z
         else if bool_decide (u = Some "bob") then Some 78%Z
         else None;
     ProcMgr_ImpersonateUserStart := fun u _ => bool_decide (u = Some "bob");
     Posix_Getpwnam_r := fun _ => Some 1000%Z;
     geteuid := 1000;
     getpid := 4242;
     getpgrp := 4200;
     FoundryToolsDaemon_TranslateSystemErr := VIX_E_SYSTEM 3;
     ProcMgr_ExecAsync := fun _ _ => Some 1%Z;
     ProcMgr_GetPid := fun h => (5000 + h)%Z;
     ProcMgr_IsAsyncProcRunning := fun t _ => bool_decide (t < 3);
     ProcMgr_GetExitCode := fun _ _ => (1%Z, 17%Z);
     ProcMgr_KillByPid := fun _ => true;
     indeterminate_int64 := 0 |}.

(** Leaf operations that succeed without a result. *)
Definition sample_leaf : Collaborators :=
  {| leaf_precheck := fun _ _ => None;
     leaf_abort_result := fun _ _ _ => (None, 0%Z);
     leaf_body := fun _ _ a =>
       {| leaf_err := VIX_OK; leaf_result := None; leaf_resultLength := 0;
          leaf_exitedProcessList := exitedProcessList a;
          leaf_userEnvironmentTable := userEnvironmentTable a;
          leaf_timers := timers a |};
     VixTools_GetToolsPropertiesImpl := inl VIX_E_FAIL;
     Base64_Encode := fun _ _ => None;
     VixToolsGetGuestNetworkingConfig := fun _ => inl VIX_E_FAIL |}.

(** A request of user [who] with credentials of kind [cred]: as a launch, of
    [path] in directory [dir] (none when empty) with the environment [env];
    as a kill, of process [target]. *)
Definition sample_request (op : OpCode) (cred : CredentialType)
    (who path dir : string) (env : list string) (target : Z)
    : VixCommandRequestHeader :=
  {| opCode := op;
     userCredentialType := cred;
     credentialField := who;
     runProgramRequest :=
       {| rp_runProgramOptions := 0; rp_commandLineArgsLength := 0;
          rp_commandLine := path; rp_commandLineArgs := "" |};
     startProgramRequest :=
       {| sp_startMinimized := false; sp_argumentsLength := 0;
          sp_workingDirLength := Z.of_nat (String.length dir);
          sp_numEnvVars := Z.of_nat (length env);
          sp_programPath := path; sp_arguments := "";
          sp_workingDir := dir; sp_envVars := env |};
     killProcessRequest := {| kp_pid := target |} |}.

(** A kill of process group 0 sent with a name and password that cannot be
    decoded. *)
Definition kill_group_zero_bad_credential : VixCommandRequestHeader :=
  sample_request VIX_COMMAND_KILL_PROCESS VIX_USER_CREDENTIAL_NAME_PASSWORD
    "" "" "" [] 0.

(** A kill of the agent's own pid sent by the console user. *)
Definition kill_self_console_user : VixCommandRequestHeader :=
  sample_request VIX_COMMAND_KILL_PROCESS VIX_USER_CREDENTIAL_CONSOLE_USER
    "alice" "" "" [] 4242.

(** A tracked launch of a file that does not exist, by the console user. *)
Definition start_missing_program : VixCommandRequestHeader :=
  sample_request VIX_COMMAND_START_PROGRAM VIX_USER_CREDENTIAL_CONSOLE_USER
    "alice" "/no/such/file" "" [] 0.

(** The agent after [VixTools_Initialize] received the list
    ["PATH=/usr/bin"], with a hash table whose insertion stores the value. *)
Definition agent_with_table : Agent :=
  (Env.VixToolsBuildUserEnvironmentTable (fun table k v => <[k:=v]> table)
     (Some ["PATH=/usr/bin"]) initial_agent).2.

(** The monitors of a fire-and-report and of a tracked launch of process
    handle 1. *)
Definition sample_run_state : VixToolsRunProgramState :=
  {| runProgramOptions := 0; run_procState := 1%Z;
     tempScriptFilePath := None; requestName := "req" |}.

Definition sample_start_state : VixToolsStartProgramState :=
  {| start_procState := 1%Z |}.

(** An agent with a completion callback registered, the monitor [t] in its
    queue, and the oracles at tick [n]. *)
Definition agent_monitoring (t : Timer) (n : nat) : Agent :=
  {| exitedProcessList := [];
     userEnvironmentTable := None;
     thisProcessRunsAsRoot := false;
     allowConsoleUserOps := false;
     reportProgramDoneProc := true;
     timers := [t];
     tick := n;
     trace := [] |}.

(** A check of the account of alice, who authenticates with her password
    but to whose identity the agent cannot switch. *)
Definition check_account_of_alice : VixCommandRequestHeader :=
  sample_request VIX_COMMAND_CHECK_USER_ACCOUNT
    VIX_USER_CREDENTIAL_NAME_PASSWORD "alice" "" "" [] 0.

(** A request with an opcode that vixCommands.h does not list. *)
Definition unknown_command : VixCommandRequestHeader :=
  sample_request (VIX_COMMAND_UNLISTED 9999) VIX_USER_CREDENTIAL_ROOT
    "root" "" "" [] 0.

(** The agent before initialization with the oracles at tick [n]. *)
Definition agent_at (n : nat) : Agent :=
  {| exitedProcessList := [];
     userEnvironmentTable := None;
     thisProcessRunsAsRoot := false;
     allowConsoleUserOps := false;
     reportProgramDoneProc := false;
     timers := [];
     tick := n;
     trace := [] |}.

(** Requests of the console user: a fire-and-report launch and a tracked
    launch of /bin/true, a launch without a program, a kill of process 7. *)
Definition run_true : VixCommandRequestHeader :=
  sample_request VIX_COMMAND_RUN_PROGRAM VIX_USER_CREDENTIAL_CONSOLE_USER
    "alice" "/bin/true" "" [] 0.

Definition start_true : VixCommandRequestHeader :=
  sample_request VIX_COMMAND_START_PROGRAM VIX_USER_CREDENTIAL_CONSOLE_USER
    "alice" "/bin/true" "/tmp" ["LANG=C"] 0.

Definition run_nothing : VixCommandRequestHeader :=
  sample_request VIX_COMMAND_RUN_PROGRAM VIX_USER_CREDENTIAL_CONSOLE_USER
    "alice" "" "" [] 0.

Definition kill_process_7 : VixCommandRequestHeader :=
  sample_request VIX_COMMAND_KILL_PROCESS VIX_USER_CREDENTIAL_CONSOLE_USER
    "alice" "" "" [] 7.

(** A request of the console user with opcode [op]. *)
Definition console_request (op : OpCode) : VixCommandRequestHeader :=
  sample_request op VIX_USER_CREDENTIAL_CONSOLE_USER "alice" "" "" [] 0.

(** A guest whose caller has administrator privileges at tick 0 only, in
    which setting a variable succeeds and the process environment is empty;
    a write request is parsed as the variable LD_LIBRARY_PATH with the body
    of the request as its value. *)
Definition sample_env : GuestEnvironment :=
  {| System_GetEnv := fun _ _ => None;
     System_SetEnv := fun _ _ _ => 0%Z;
     Util_HasAdminPriv := fun t => if bool_decide (t = 0) then 1%Z else 0%Z;
     VixMsg_ParseWriteVariableRequest :=
       fun request => (VIX_OK, "LD_LIBRARY_PATH", wv_body request) |}.

(** A value for [VIX_GUEST_ENVIRONMENT_VARIABLE], a write of /opt/lib and
    the reads of LD_LIBRARY_PATH and of PATH. *)
Definition sample_variable_type : Z := 3.

Definition write_library_path : VixMsgWriteVariableRequest :=
  {| wv_variableType := sample_variable_type; wv_body := "/opt/lib" |}.

Definition read_library_path : VixMsgReadVariableRequest :=
  {| rv_variableType := sample_variable_type; rv_name := "LD_LIBRARY_PATH" |}.

Definition read_shell : VixMsgReadVariableRequest :=
  {| rv_variableType := sample_variable_type; rv_name := "SHELL" |}.

(** A file system, beside [sample_os], without symbolic links, in which
    /bin/true is the only regular file, two paths name the same file when
    they are equal, and every changing call succeeds. *)
Definition sample_fs : GuestFiles :=
  {| File_IsSymLink := fun _ => false;
     File_IsFile := fun path => bool_decide (path = "/bin/true");
     File_IsSameFile := fun old new => bool_decide (old = new);
     File_UnlinkNoFollow := fun _ => 0%Z;
     File_DeleteDirectoryTree := fun _ => true;
     File_DeleteEmptyDirectory := fun _ => true;
     File_CreateDirectoryHierarchy := fun _ => true;
     File_CreateDirectory := fun _ => true;
     File_Rename := fun _ _ => true |}.

(** * Properties *)

(** Membership of an event in an explicit list of events. *)
Ltac find_event :=
  repeat (apply elem_of_cons; first [ left; reflexivity | right ]).

Ltac event_cases H :=
  repeat (apply elem_of_cons in H as [H | H];
          [ first [ discriminate H | by injection H ] | ]);
  by apply elem_of_nil in H.

(** ** The registry *)

Section RegistryFacts.
Import Registry.
Local Open Scope Z_scope.

Implicit Types (l epList : list VixToolsExitedProgramState).
Implicit Types (s ep : VixToolsExitedProgramState).

Lemma reap_elem_of now l ep :
  ep ∈ reap now l ↔ ep ∈ l ∧ expired now ep = false.
Proof.
  induction l as [|x l IH]; simpl.
  - split; [intros H; inversion H | intros [H _]; inversion H].
  - destruct (expired now x) eqn:Hx.
    + rewrite IH, elem_of_cons. split.
      * intros [? ?]; auto.
      * intros [[-> | ?] ?]; [congruence | auto].
    + rewrite !elem_of_cons, IH. split.
      * intros [-> | [? ?]]; auto.
      * intros [[-> | ?] ?]; auto.
Qed.

Lemma reap_pids_incl now l p :
  p ∈ List.map pid (reap now l) → p ∈ List.map pid l.
Proof.
  induction l as [|x l IH]; simpl; [done|].
  destruct (expired now x); simpl; rewrite ?elem_of_cons; intuition.
Qed.



Lemma update_running_None s l :
  update_running s l = None ↔ pid s ∉ List.map pid l.
Proof.
  induction l as [|x l IH]; simpl.
  - split; [intros _ H; inversion H | done].
  - destruct (Z.eqb_spec (pid x) (pid s)) as [e|n].
    + split; [done|]. intros H. exfalso. apply H. rewrite e. left.
    + rewrite not_elem_of_cons. destruct (update_running s l).
      * split; [done|]. intros [_ H]. by apply IH in H.
      * split; [|done]. intros _. split; [congruence | by apply IH].
Qed.

Lemma find_None p l :
  VixToolsFindExitedProgramState p l = None ↔ p ∉ List.map pid l.
Proof.
  induction l as [|x l IH]; simpl.
  - split; [intros _ H; inversion H | done].
  - destruct (Z.eqb_spec (pid x) p) as [e|n].
    + split; [done|]. intros H. exfalso. apply H. rewrite e. left.
    + rewrite not_elem_of_cons, IH. intuition.
Qed.









End RegistryFacts.




(** C4.  The expiry pass of [VixToolsUpdateExitedProgramList] at time [now]
    removes a terminal entry that ended one second before the five-minute
    window ([now - 300 - 1]), keeps a terminal entry that ended one second
    inside it ([now - 300 + 1]), and keeps every entry marked running,
    whatever its times; the pass is all the function does when it is called
    with NULL. *)
Theorem reap_retention_boundary (now : Z)
    (epList : list Registry.VixToolsExitedProgramState)
    (ep : Registry.VixToolsExitedProgramState) :
  ep ∈ epList →
  Registry.VIX_TOOLS_EXITED_PROGRAM_REAP_TIME = 300%Z
  ∧ (Registry.isRunning ep = false →
     Registry.endTime ep = (now - 300 - 1)%Z →
     ep ∉ Registry.reap now epList)
  ∧ (Registry.isRunning ep = false →
     Registry.endTime ep = (now - 300 + 1)%Z →
     ep ∈ Registry.reap now epList)
  ∧ (Registry.isRunning ep = true → ep ∈ Registry.reap now epList)
  ∧ Registry.VixToolsUpdateExitedProgramList now None epList
    = Registry.reap now epList.
Proof.
  intros Hin. split; [reflexivity|].
  unfold Registry.VixToolsUpdateExitedProgramList. simpl.
  repeat split.
  - intros Hrun Hend H. apply reap_elem_of in H as [_ H].
    unfold Registry.expired, Registry.VIX_TOOLS_EXITED_PROGRAM_REAP_TIME in H.
    rewrite Hrun, Hend in H. simpl in H.
    apply Z.ltb_ge in H. lia.
  - intros Hrun Hend. apply reap_elem_of. split; [done|].
    unfold Registry.expired, Registry.VIX_TOOLS_EXITED_PROGRAM_REAP_TIME.
    rewrite Hrun, Hend. simpl. apply Z.ltb_ge. lia.
  - intros Hrun. apply reap_elem_of. split; [done|].
    unfold Registry.expired. by rewrite Hrun.
Qed.

(** The theorem at time 10000 on a list of three entries. *)
Lemma reap_retention_boundary_witness :
  terminal_entry 9699 ∈ [running_entry 5; terminal_entry 9699;
                          terminal_entry 9701]
  ∧ terminal_entry 9699
    ∉ Registry.reap 10000 [running_entry 5; terminal_entry 9699;
                            terminal_entry 9701].
Proof.
  assert (Hin : terminal_entry 9699 ∈ [running_entry 5; terminal_entry 9699;
                                        terminal_entry 9701]).
  { apply elem_of_cons. right. apply elem_of_cons. by left. }
  split; [exact Hin|].
  apply (reap_retention_boundary 10000 _ (terminal_entry 9699) Hin);
    reflexivity.
Defined.

(** ** The dispatcher's default case *)

(** C7.  A request whose opcode has no case in the switch of
    [VixTools_ProcessVixCommand] gets the status [VIX_OK], the empty result
    of length 0 and the ownership flag false, and nothing else happens. *)
Theorem unhandled_opcode_is_empty_success (os : GuestOS)
    (leaf : Collaborators) (requestMsg : VixCommandRequestHeader)
    (requestName : string) (a : Agent) :
  handled (opCode requestMsg) = false →
  VixTools_ProcessVixCommand os leaf requestMsg requestName a
  = ({| status := VIX_OK; resultBuffer := ""; resultLen := 0;
        deleteResultBufferResult := false |}, a).
Proof.
  unfold VixTools_ProcessVixCommand, dispatch_switch, handled.
  destruct (opCode requestMsg); intros H; try discriminate H; reflexivity.
Qed.

(** The theorem at an opcode that is not listed in vixCommands.h. *)
Lemma unhandled_opcode_is_empty_success_witness :
  handled (opCode unknown_command) = false
  ∧ VixTools_ProcessVixCommand sample_os sample_leaf unknown_command "req"
      initial_agent
    = ({| status := VIX_OK; resultBuffer := ""; resultLen := 0;
          deleteResultBufferResult := false |}, initial_agent).
Proof.
  split; [reflexivity|].
  apply (unhandled_opcode_is_empty_success sample_os sample_leaf
           unknown_command "req" initial_agent).
  reflexivity.
Defined.

(** ** The gate *)

Section GateFacts.
Variable os : GuestOS.

Lemma add_trace_nil a : add_trace a [] = a.
Proof. destruct a. unfold add_trace. simpl. by rewrite app_nil_r. Qed.

Lemma add_trace_app a e1 e2 :
  add_trace (add_trace a e1) e2 = add_trace a (e1 ++ e2).
Proof. unfold add_trace. simpl. by rewrite app_assoc. Qed.

Local Ltac gate_path :=
  unfold mbind, M_bind, mret, M_ret; simpl;
  first
    [ exists []; rewrite add_trace_nil; split; [reflexivity|];
      first [ apply gate_no_switch | apply gate_refused; congruence ]
    | eexists; split;
      [unfold add_trace; simpl; rewrite <- ?app_assoc; reflexivity|];
      econstructor ].

(** The gate changes nothing but the trace, and logs one of the five
    outcomes. *)
Lemma VixToolsImpersonateUserImplEx_outcome str ty obf a :
  ∃ events,
    (VixToolsImpersonateUserImplEx os str ty obf a).2 = add_trace a events
    ∧ gate_outcome (VixToolsImpersonateUserImplEx os str ty obf a).1.1
        (VixToolsImpersonateUserImplEx os str ty obf a).1.2 events.
Proof.
  unfold VixToolsImpersonateUserImplEx.
  destruct (match str with
            | Some s => StrUtil_StrToInt os s
            | None => Some ty
            end) as [ty'|]; [|gate_path].
  unfold mbind, M_bind, get_agent, mret, M_ret. simpl.
  destruct (bool_decide (ty' = VIX_USER_CREDENTIAL_ROOT)
            && thisProcessRunsAsRoot a); [gate_path|].
  destruct (bool_decide (ty' = VIX_USER_CREDENTIAL_CONSOLE_USER)
            && (allowConsoleUserOps a || negb (thisProcessRunsAsRoot a)));
    [gate_path|].
  destruct (bool_decide (ty' = VIX_USER_CREDENTIAL_NAMED_INTERACTIVE_USER)).
  { destruct (negb (thisProcessRunsAsRoot a)); [|gate_path].
    destruct (VixMsg_DeObfuscateNamePassword os obf) as [[[u|] pw]|];
      [|gate_path|gate_path].
    destruct (bool_decide
                (VixToolsDoesUsernameMatchCurrentUser os u = VIX_OK))
      eqn:Hm; simpl.
    - apply bool_decide_eq_true in Hm. rewrite Hm. gate_path.
    - apply bool_decide_eq_false in Hm.
      exists []. rewrite add_trace_nil. split; [reflexivity|].
      by apply gate_refused. }
  destruct (negb (bool_decide (ty' = VIX_USER_CREDENTIAL_NAME_PASSWORD))
            && negb (bool_decide
                       (ty' = VIX_USER_CREDENTIAL_NAME_PASSWORD_OBFUSCATED)));
    [gate_path|].
  destruct (VixMsg_DeObfuscateNamePassword os obf) as [[u pw]|];
    [|gate_path].
  destruct (Auth_AuthenticateUser os u pw) as [t|]; [|gate_path].
  destruct (ProcMgr_ImpersonateUserStart os u t); gate_path.
Qed.

Lemma VixToolsImpersonateUser_outcome requestMsg a :
  ∃ err userToken events,
    VixToolsImpersonateUser os requestMsg a
    = ((err, userToken), add_trace a events)
    ∧ gate_outcome err userToken events.
Proof.
  unfold VixToolsImpersonateUser.
  destruct (VixToolsImpersonateUserImplEx_outcome None
              (userCredentialType requestMsg) (credentialField requestMsg) a)
    as (events & Hst & Hout).
  destruct (VixToolsImpersonateUserImplEx os None
              (userCredentialType requestMsg) (credentialField requestMsg) a)
    as [[err tok] a'].
  simpl in *. subst a'. by exists err, tok, events.
Qed.

Lemma release_add_trace imp tok a :
  release imp tok a = (tt, add_trace a (release_events imp tok)).
Proof.
  unfold release, release_events, when, VixToolsUnimpersonateUser,
    VixToolsLogoutUser, mbind, M_bind, mret, M_ret.
  destruct a, imp, tok; unfold add_trace, emit; simpl;
    rewrite <- ?app_assoc, ?app_nil_r; reflexivity.
Qed.

(** A handler that passes the gate once, appends no gate call of its own
    and ends with the epilogue has logged a disciplined sequence. *)
Lemma gate_then_release_disciplined err tok events body :
  gate_outcome err tok events →
  gate_events body = [] →
  disciplined
    (gate_events
       (events ++ body ++ release_events (bool_decide (err = VIX_OK)) tok)).
Proof.
  intros Hout Hbody. unfold gate_events in *.
  rewrite !List.filter_app, Hbody.
  destruct Hout; simpl; try constructor.
  rewrite bool_decide_eq_false_2 by done. constructor.
Qed.

Lemma gate_outcome_no_exec err tok events :
  gate_outcome err tok events → calls is_exec events = 0.
Proof. by destruct 1. Qed.

Lemma gate_outcome_no_kill err tok events :
  gate_outcome err tok events → calls is_kill events = 0.
Proof. by destruct 1. Qed.

Lemma release_events_no_exec imp tok :
  calls is_exec (release_events imp tok) = 0.
Proof. by destruct imp, tok. Qed.

Lemma release_events_no_kill imp tok :
  calls is_kill (release_events imp tok) = 0.
Proof. by destruct imp, tok. Qed.

Lemma calls_app kind e1 e2 :
  calls kind (e1 ++ e2) = calls kind e1 + calls kind e2.
Proof. unfold calls. by rewrite List.filter_app, length_app. Qed.

End GateFacts.

(** ** Killing a process *)

Lemma pid_refers_to_this_process (os : GuestOS) (target : Z) :
  (0 ≤ getpgrp os)%Z →
  target = getpid os ∨ target = 0%Z ∨ target = (-1)%Z
  ∨ target = (- getpgrp os)%Z →
  VixToolsPidRefersToThisProcess os target = true.
Proof.
  intros Hpg H. unfold VixToolsPidRefersToThisProcess.
  destruct (Z.eqb_spec (getpid os) target); [done|].
  destruct (Z.eqb_spec 0 target); [done|].
  destruct (Z.eqb_spec (-1) target); [done|]. simpl.
  destruct H as [H | [H | [H | H]]]; try congruence.
  apply andb_true_iff. split; [apply Z.ltb_lt | apply Z.eqb_eq]; lia.
Qed.

(** C3, as amended.  A kill request whose target is the agent's own pid, 0,
    -1 or the negative of the agent's process group (a group id is never
    negative) always fails and never reaches [ProcMgr_KillByPid]; the status
    is the permission-denied error whenever the gate let the request in, and
    the gate's own error otherwise. *)
Theorem kill_self_refused (os : GuestOS)
    (requestMsg : VixCommandRequestHeader) (a : Agent) :
  (0 ≤ getpgrp os)%Z →
  kp_pid (killProcessRequest requestMsg) = getpid os
  ∨ kp_pid (killProcessRequest requestMsg) = 0%Z
  ∨ kp_pid (killProcessRequest requestMsg) = (-1)%Z
  ∨ kp_pid (killProcessRequest requestMsg) = (- getpgrp os)%Z →
  (VixToolsKillProcess os requestMsg a).1 ≠ VIX_OK
  ∧ ((VixToolsImpersonateUser os requestMsg a).1.1 = VIX_OK →
     (VixToolsKillProcess os requestMsg a).1 = VIX_E_GUEST_USER_PERMISSIONS)
  ∧ ((VixToolsImpersonateUser os requestMsg a).1.1 ≠ VIX_OK →
     (VixToolsKillProcess os requestMsg a).1
     = (VixToolsImpersonateUser os requestMsg a).1.1)
  ∧ calls is_kill (trace (VixToolsKillProcess os requestMsg a).2)
    = calls is_kill (trace a).
Proof.
  intros Hpg Htarget.
  pose proof (pid_refers_to_this_process os _ Hpg Htarget) as Hrefers.
  destruct (VixToolsImpersonateUser_outcome os requestMsg a)
    as (err & tok & events & Hgate & Hout).
  unfold VixToolsKillProcess, mbind, M_bind. rewrite Hgate. simpl.
  destruct (bool_decide (err = VIX_OK)) eqn:Herr.
  - apply bool_decide_eq_true in Herr. rewrite Hrefers.
    unfold mret, M_ret. rewrite release_add_trace. simpl.
    split_and!; [done | done | done |].
    rewrite !calls_app, (gate_outcome_no_kill _ _ _ Hout),
      release_events_no_kill. lia.
  - apply bool_decide_eq_false in Herr.
    unfold mret, M_ret. rewrite release_add_trace. simpl.
    split_and!; [done | done | done |].
    rewrite !calls_app, (gate_outcome_no_kill _ _ _ Hout),
      release_events_no_kill. lia.
Qed.

(** The theorem at a kill of the agent's own pid by the console user. *)
Lemma kill_self_refused_witness :
  (VixToolsKillProcess sample_os kill_self_console_user initial_agent).1
  = VIX_E_GUEST_USER_PERMISSIONS
  ∧ calls is_kill
      (trace (VixToolsKillProcess sample_os kill_self_console_user
                initial_agent).2) = 0.
Proof.
  assert (Hpg : (0 ≤ getpgrp sample_os)%Z) by (simpl; lia).
  assert (Htarget :
    kp_pid (killProcessRequest kill_self_console_user) = getpid sample_os
    ∨ kp_pid (killProcessRequest kill_self_console_user) = 0%Z
    ∨ kp_pid (killProcessRequest kill_self_console_user) = (-1)%Z
    ∨ kp_pid (killProcessRequest kill_self_console_user)
      = (- getpgrp sample_os)%Z) by (left; reflexivity).
  destruct (kill_self_refused sample_os kill_self_console_user initial_agent
              Hpg Htarget) as (_ & Hdenied & _ & Hcalls).
  split; [apply Hdenied; reflexivity | exact Hcalls].
Defined.

(** C3 as stated fails: a kill of process group 0 whose credential the gate
    cannot decode returns the gate's general failure ([VIX_E_FAIL]), not the
    permission-denied error. *)
Lemma kill_self_status_can_be_gate_error :
  ¬ (∀ (os : GuestOS) (requestMsg : VixCommandRequestHeader) (a : Agent),
       kp_pid (killProcessRequest requestMsg) = getpid os
       ∨ kp_pid (killProcessRequest requestMsg) = 0%Z
       ∨ kp_pid (killProcessRequest requestMsg) = (-1)%Z
       ∨ kp_pid (killProcessRequest requestMsg) = (- getpgrp os)%Z →
       (VixToolsKillProcess os requestMsg a).1
       = VIX_E_GUEST_USER_PERMISSIONS
       ∧ calls is_kill (trace (VixToolsKillProcess os requestMsg a).2)
         = calls is_kill (trace a)).
Proof.
  intros H.
  destruct (H sample_os kill_group_zero_bad_credential initial_agent)
    as [Hstatus _]; [right; left; reflexivity|].
  vm_compute in Hstatus. discriminate Hstatus.
Qed.

(** ** Launch preconditions *)

Section LaunchFacts.
Variable os : GuestOS.

Lemma VixToolsRunProgramImpl_refused name cmd args opts tok a :
  refused os (program_file_name cmd) None →
  ∃ err, err ≠ VIX_OK
    ∧ VixToolsRunProgramImpl os name cmd args opts tok a = ((err, (-1)%Z), a).
Proof.
  unfold VixToolsRunProgramImpl.
  intros [H | [H | (dir & [=] & _)]].
  - rewrite H. simpl. by exists VIX_E_FILE_NOT_FOUND.
  - rewrite H. destruct (File_Exists os _); simpl.
    + by exists VIX_E_GUEST_USER_PERMISSIONS.
    + by exists VIX_E_FILE_NOT_FOUND.
Qed.

Lemma VixToolsStartProgramImpl_refused name path args dir n env mini tok a :
  refused os (program_file_name path) dir →
  ∃ err, err ≠ VIX_OK
    ∧ VixToolsStartProgramImpl os name path args dir n env mini tok a
      = ((err, (-1)%Z), a).
Proof.
  unfold refused, VixToolsStartProgramImpl.
  destruct (File_Exists os _); simpl; [|by exists VIX_E_FILE_NOT_FOUND].
  destruct (FileIO_Access_EXEC os _); simpl;
    [|by exists VIX_E_GUEST_USER_PERMISSIONS].
  intros [H | [H | (d & -> & H)]]; try discriminate H.
  rewrite H. simpl. by exists VIX_E_NOT_A_DIRECTORY.
Qed.

Lemma nothing_launched_add_trace a events :
  calls is_exec events = 0 → nothing_launched a (add_trace a events).
Proof.
  intros H. unfold nothing_launched. simpl.
  rewrite calls_app, H. split_and!; [done | done | lia].
Qed.

Lemma VixTools_RunProgram_refused requestMsg name a :
  refused os
    (program_file_name (rp_commandLine (runProgramRequest requestMsg)))
    None →
  (VixTools_RunProgram os requestMsg name a).1.1 ≠ VIX_OK
  ∧ nothing_launched a (VixTools_RunProgram os requestMsg name a).2.
Proof.
  intros Href. unfold VixTools_RunProgram, mbind, M_bind.
  destruct (bool_decide (rp_commandLine (runProgramRequest requestMsg)
                         = EmptyString)).
  { unfold mret, M_ret. rewrite release_add_trace. simpl.
    split; [done|]. by apply nothing_launched_add_trace. }
  destruct (VixToolsImpersonateUser_outcome os requestMsg a)
    as (err & tok & events & Hgate & Hout).
  rewrite Hgate. simpl.
  destruct (bool_decide (err = VIX_OK)) eqn:Herr.
  - destruct (VixToolsRunProgramImpl_refused name
                (rp_commandLine (runProgramRequest requestMsg))
                (if (0 <? rp_commandLineArgsLength
                            (runProgramRequest requestMsg))%Z
                 then Some (rp_commandLineArgs (runProgramRequest requestMsg))
                 else None)
                (rp_runProgramOptions (runProgramRequest requestMsg))
                tok (add_trace a events) Href) as (err' & Hne & Himpl).
    rewrite Himpl. unfold mret, M_ret. rewrite release_add_trace. simpl.
    split; [done|]. rewrite add_trace_app.
    apply nothing_launched_add_trace.
    by rewrite calls_app, (gate_outcome_no_exec _ _ _ Hout),
      release_events_no_exec.
  - apply bool_decide_eq_false in Herr.
    unfold mret, M_ret. rewrite release_add_trace. simpl.
    split; [done|]. rewrite add_trace_app.
    apply nothing_launched_add_trace.
    by rewrite calls_app, (gate_outcome_no_exec _ _ _ Hout),
      release_events_no_exec.
Qed.

Lemma VixTools_StartProgram_refused requestMsg name a :
  refused os
    (program_file_name (sp_programPath (startProgramRequest requestMsg)))
    (requested_workingDir (startProgramRequest requestMsg)) →
  (VixTools_StartProgram os requestMsg name a).1.1 ≠ VIX_OK
  ∧ nothing_launched a (VixTools_StartProgram os requestMsg name a).2.
Proof.
  intros Href. unfold VixTools_StartProgram, mbind, M_bind.
  destruct (bool_decide (sp_programPath (startProgramRequest requestMsg)
                         = EmptyString)).
  { unfold mret, M_ret. rewrite release_add_trace. simpl.
    split; [done|]. by apply nothing_launched_add_trace. }
  destruct (VixToolsImpersonateUser_outcome os requestMsg a)
    as (err & tok & events & Hgate & Hout).
  rewrite Hgate. simpl.
  destruct (bool_decide (err = VIX_OK)) eqn:Herr.
  - destruct (VixToolsStartProgramImpl_refused name
                (sp_programPath (startProgramRequest requestMsg))
                (if (0 <? sp_argumentsLength
                            (startProgramRequest requestMsg))%Z
                 then Some (sp_arguments (startProgramRequest requestMsg))
                 else None)
                (requested_workingDir (startProgramRequest requestMsg))
                (sp_numEnvVars (startProgramRequest requestMsg))
                (requested_envVars (startProgramRequest requestMsg))
                (sp_startMinimized (startProgramRequest requestMsg))
                tok (add_trace a events) Href) as (err' & Hne & Himpl).
    unfold requested_workingDir, requested_envVars in Himpl.
    rewrite Himpl. simpl.
    rewrite bool_decide_eq_false_2 by done.
    unfold when, mret, M_ret. rewrite release_add_trace. simpl.
    split; [done|]. rewrite add_trace_app.
    apply nothing_launched_add_trace.
    by rewrite calls_app, (gate_outcome_no_exec _ _ _ Hout),
      release_events_no_exec.
  - apply bool_decide_eq_false in Herr.
    unfold mret, M_ret. rewrite release_add_trace. simpl.
    split; [done|]. rewrite add_trace_app.
    apply nothing_launched_add_trace.
    by rewrite calls_app, (gate_outcome_no_exec _ _ _ Hout),
      release_events_no_exec.
Qed.

End LaunchFacts.

(** C8.  Both launchers test the program file (the path without leading
    spaces and quotes) before anything else: a file that does not exist
    gives the file-not-found error, a file that exists but cannot be
    executed the permissions error, and in the tracked launcher a working
    directory that is given but is not a directory gives, after these two
    tests, the not-a-directory error.  In every one of these cases the
    launcher returns with the agent as it found it, so that no process is
    created, and the handlers around the launchers then fail without a
    process, a monitor or a registry record. *)
Theorem launch_preconditions (os : GuestOS) (a : Agent)
    (requestName program : string) (arguments workingDir : option string)
    (runProgramOptions numEnvVars : Z) (envVars : option (list string))
    (startMinimized : bool) (userToken : UserToken)
    (requestMsg : VixCommandRequestHeader) :
  (File_Exists os (program_file_name program) = false →
   VixToolsRunProgramImpl os requestName program arguments runProgramOptions
     userToken a = ((VIX_E_FILE_NOT_FOUND, (-1)%Z), a)
   ∧ VixToolsStartProgramImpl os requestName program arguments workingDir
       numEnvVars envVars startMinimized userToken a
     = ((VIX_E_FILE_NOT_FOUND, (-1)%Z), a))
  ∧ (File_Exists os (program_file_name program) = true →
     FileIO_Access_EXEC os (program_file_name program) = false →
     VixToolsRunProgramImpl os requestName program arguments
       runProgramOptions userToken a
     = ((VIX_E_GUEST_USER_PERMISSIONS, (-1)%Z), a)
     ∧ VixToolsStartProgramImpl os requestName program arguments workingDir
         numEnvVars envVars startMinimized userToken a
       = ((VIX_E_GUEST_USER_PERMISSIONS, (-1)%Z), a))
  ∧ (∀ dir,
       File_Exists os (program_file_name program) = true →
       FileIO_Access_EXEC os (program_file_name program) = true →
       workingDir = Some dir → File_IsDirectory os dir = false →
       VixToolsStartProgramImpl os requestName program arguments workingDir
         numEnvVars envVars startMinimized userToken a
       = ((VIX_E_NOT_A_DIRECTORY, (-1)%Z), a))
  ∧ (refused os
       (program_file_name (rp_commandLine (runProgramRequest requestMsg)))
       None →
     (VixTools_RunProgram os requestMsg requestName a).1.1 ≠ VIX_OK
     ∧ nothing_launched a (VixTools_RunProgram os requestMsg requestName a).2)
  ∧ (refused os
       (program_file_name (sp_programPath (startProgramRequest requestMsg)))
       (requested_workingDir (startProgramRequest requestMsg)) →
     (VixTools_StartProgram os requestMsg requestName a).1.1 ≠ VIX_OK
     ∧ nothing_launched a
         (VixTools_StartProgram os requestMsg requestName a).2).
Proof.
  split_and!.
  - intros H. unfold VixToolsRunProgramImpl, VixToolsStartProgramImpl.
    by rewrite H.
  - intros H1 H2. unfold VixToolsRunProgramImpl, VixToolsStartProgramImpl.
    by rewrite H1, H2.
  - intros dir H1 H2 -> H3. unfold VixToolsStartProgramImpl.
    by rewrite H1, H2, H3.
  - apply VixTools_RunProgram_refused.
  - apply VixTools_StartProgram_refused.
Qed.

(** The theorem at a tracked launch of /no/such/file. *)
Lemma launch_preconditions_witness :
  File_Exists sample_os (program_file_name "/no/such/file") = false
  ∧ VixToolsStartProgramImpl sample_os "req" "/no/such/file" None None 0
      None false PROCESS_CREATOR_USER_TOKEN initial_agent
    = ((VIX_E_FILE_NOT_FOUND, (-1)%Z), initial_agent)
  ∧ nothing_launched initial_agent
      (VixTools_StartProgram sample_os start_missing_program "req"
         initial_agent).2.
Proof.
  assert (Hmissing :
    File_Exists sample_os (program_file_name "/no/such/file") = false)
    by reflexivity.
  destruct (launch_preconditions sample_os initial_agent "req"
              "/no/such/file" None None 0 0 None false
              PROCESS_CREATOR_USER_TOKEN start_missing_program)
    as (Hnotfound & _ & _ & _ & Hhandler).
  split; [exact Hmissing|].
  split; [apply (Hnotfound Hmissing)|].
  apply Hhandler. left. reflexivity.
Defined.

(** ** The environment of a launched program *)

Lemma table_envp_entries (table : gmap string string) (entry : string) :
  entry ∈ List.map
            (fun kv => Env.VixToolsEnvironmentTableEntryToEnvpEntry kv.1 kv.2)
            (map_to_list table)
  ↔ ∃ k v, table !! k = Some v
           ∧ entry = Env.VixToolsEnvironmentTableEntryToEnvpEntry k v.
Proof.
  rewrite list_elem_of_In, in_map_iff. split.
  - intros ([k v] & <- & Hin). exists k, v. split; [|done].
    apply elem_of_map_to_list. by apply list_elem_of_In.
  - intros (k & v & Hkv & ->). exists (k, v). split; [done|].
    apply list_elem_of_In. by apply elem_of_map_to_list.
Qed.

(** C5, as amended.  When the private environment table exists, a
    fire-and-report launch ([VixToolsRunProgramImpl]) that passes its tests
    creates the process with an environment made of exactly the table's
    variables, one string name=value per entry, and not with the agent's
    own environment.  A tracked launch ([VixToolsStartProgramImpl]) whose
    request carries environment variables creates the process with the
    request's variables, whatever the table holds. *)
Theorem private_table_feeds_fire_and_report_launch (os : GuestOS) (a : Agent)
    (table : gmap string string) (requestName program : string)
    (arguments workingDir : option string) (runProgramOptions numEnvVars : Z)
    (envVars : option (list string)) (startMinimized : bool)
    (userToken : UserToken) :
  userEnvironmentTable a = Some table →
  (∃ events,
     trace (VixToolsRunProgramImpl os requestName program arguments
              runProgramOptions userToken a).2 = trace a ++ events
     ∧ (∀ cmd procArgs r, EvExecAsync cmd procArgs r ∈ events →
        ∃ entries, envp procArgs = Some entries
          ∧ ∀ entry, entry ∈ entries
              ↔ ∃ k v, table !! k = Some v
                  ∧ entry = Env.VixToolsEnvironmentTableEntryToEnvpEntry k v)
     ∧ (File_Exists os (program_file_name program) = true →
        FileIO_Access_EXEC os (program_file_name program) = true →
        Str_Asprintf_fails os (full_command_line program arguments) = false →
        ∃ procArgs r,
          events = [EvExecAsync (full_command_line program arguments)
                      procArgs r]))
  ∧ (∀ vars, envVars = Some vars →
     ∃ events,
       trace (VixToolsStartProgramImpl os requestName program arguments
                workingDir numEnvVars envVars startMinimized userToken a).2
       = trace a ++ events
       ∧ ∀ cmd procArgs r, EvExecAsync cmd procArgs r ∈ events →
           envp procArgs = Some vars).
Proof.
  intros Htable. split.
  - unfold VixToolsRunProgramImpl.
    destruct (File_Exists os _); simpl;
      [|exists []; rewrite app_nil_r; split_and!;
        [done | intros ??? H; inversion H | done]].
    destruct (FileIO_Access_EXEC os _); simpl;
      [|exists []; rewrite app_nil_r; split_and!;
        [done | intros ??? H; inversion H | done]].
    destruct (Str_Asprintf_fails os _); simpl;
      [exists []; rewrite app_nil_r; split_and!;
       [done | intros ??? H; inversion H | done]|].
    unfold mbind, M_bind, get_agent. simpl. rewrite Htable. simpl.
    set (procArgs := {| workingDirectory := None; envp := _ |}).
    exists [EvExecAsync (full_command_line program arguments) procArgs
              (ProcMgr_ExecAsync os (full_command_line program arguments)
                 procArgs)].
    split_and!.
    + destruct (ProcMgr_ExecAsync os _ _); reflexivity.
    + intros cmd pa r H. apply list_elem_of_singleton in H.
      injection H as -> -> ->. simpl. eexists. split; [reflexivity|].
      intros entry. apply table_envp_entries.
    + intros _ _ _. by eexists _, _.
  - intros vars ->. unfold VixToolsStartProgramImpl.
    destruct (File_Exists os _); simpl;
      [|exists []; rewrite app_nil_r; split;
        [done | intros ??? H; inversion H]].
    destruct (FileIO_Access_EXEC os _); simpl;
      [|exists []; rewrite app_nil_r; split;
        [done | intros ??? H; inversion H]].
    destruct (match workingDir with
              | Some dir => negb (File_IsDirectory os dir)
              | None => false
              end); simpl;
      [exists []; rewrite app_nil_r; split;
       [done | intros ??? H; inversion H]|].
    destruct (Str_Asprintf_fails os _); simpl;
      [exists []; rewrite app_nil_r; split;
       [done | intros ??? H; inversion H]|].
    unfold mbind, M_bind. simpl.
    set (procArgs := {| workingDirectory := workingDir; envp := _ |}).
    exists [EvExecAsync (full_command_line program arguments) procArgs
              (ProcMgr_ExecAsync os (full_command_line program arguments)
                 procArgs)].
    split.
    + destruct (ProcMgr_ExecAsync os _ _); reflexivity.
    + intros cmd pa r H. apply list_elem_of_singleton in H.
      by injection H as -> -> ->.
Qed.

(** The theorem at a launch of /bin/true by the agent whose table holds
    PATH. *)
Lemma private_table_feeds_fire_and_report_launch_witness :
  userEnvironmentTable agent_with_table = Some {[ "PATH" := "/usr/bin" ]}
  ∧ ∃ events,
      trace (VixToolsRunProgramImpl sample_os "req" "/bin/true" None 0
               PROCESS_CREATOR_USER_TOKEN agent_with_table).2
      = trace agent_with_table ++ events
      ∧ ∃ procArgs r,
          events = [EvExecAsync (full_command_line "/bin/true" None)
                      procArgs r].
Proof.
  assert (Htable : userEnvironmentTable agent_with_table
                   = Some {[ "PATH" := "/usr/bin" ]}).
  { reflexivity. }
  split; [exact Htable|].
  destruct (private_table_feeds_fire_and_report_launch sample_os
              agent_with_table {[ "PATH" := "/usr/bin" ]} "req" "/bin/true"
              None None 0 0 None false PROCESS_CREATOR_USER_TOKEN Htable)
    as [(events & Htrace & _ & Hexec) _].
  exists events. split; [exact Htrace|].
  apply Hexec; reflexivity.
Defined.

(** C5 as stated fails: with a private table that holds PATH, a tracked
    launch whose request carries LANG=C creates the process with LANG=C
    alone. *)
Lemma tracked_launch_uses_request_environment :
  ¬ (∀ (os : GuestOS) (a : Agent) (table : gmap string string)
       (requestName program : string) (arguments workingDir : option string)
       (numEnvVars : Z) (envVars : option (list string))
       (startMinimized : bool) (userToken : UserToken)
       (cmd : string) (procArgs : ProcMgr_ProcArgs)
       (r : option ProcMgr_AsyncProc),
       userEnvironmentTable a = Some table →
       EvExecAsync cmd procArgs r
       ∈ trace (VixToolsStartProgramImpl os requestName program arguments
                  workingDir numEnvVars envVars startMinimized userToken a).2 →
       envp procArgs = Env.VixToolsEnvironmentTableToEnvp (Some table)).
Proof.
  intros H.
  assert (Htable : userEnvironmentTable agent_with_table
                   = Some {[ "PATH" := "/usr/bin" ]}).
  { reflexivity. }
  specialize (H sample_os agent_with_table {[ "PATH" := "/usr/bin" ]}
                "req" "/bin/true" None None 1%Z (Some ["LANG=C"]) false
                PROCESS_CREATOR_USER_TOKEN
                (full_command_line "/bin/true" None)
                {| workingDirectory := None; envp := Some ["LANG=C"] |}
                (Some 1%Z) Htable).
  simpl in H. rewrite map_to_list_singleton in H. simpl in H.
  assert (Hlaunched :
    EvExecAsync (full_command_line "/bin/true" None)
      {| workingDirectory := None; envp := Some ["LANG=C"] |} (Some 1%Z)
    ∈ [EvExecAsync (full_command_line "/bin/true" None)
         {| workingDirectory := None; envp := Some ["LANG=C"] |}
         (Some 1%Z)]) by apply list_elem_of_singleton, eq_refl.
  specialize (H Hlaunched). discriminate H.
Qed.

(** ** The monitors *)

Section MonitorFacts.
Variable os : GuestOS.
Variable VIX_RUNPROGRAM_RETURN_IMMEDIATELY : Z.
Variable p : ProcMgr_AsyncProc.

Local Ltac count_calls :=
  unfold calls, monitors_of;
  rewrite ?List.filter_app, ?length_app; simpl;
  rewrite ?Z.eqb_refl; simpl; lia.

(** One expiration of the timer of a monitor of [p]: while the process runs
    the exit status is not asked for and the timer is armed again; once it
    has ended the status is asked for once and the timer is gone. *)
Lemma run_callback_poll t b :
  timer_procState t = p →
  if ProcMgr_IsAsyncProcRunning os (tick b) p
  then calls (is_exit_code_retrieval_of p)
         (trace (run_callback os VIX_RUNPROGRAM_RETURN_IMMEDIATELY t b).2)
       = calls (is_exit_code_retrieval_of p) (trace b)
       ∧ timers (run_callback os VIX_RUNPROGRAM_RETURN_IMMEDIATELY t b).2
         = timers b ++ [t]
  else calls (is_exit_code_retrieval_of p)
         (trace (run_callback os VIX_RUNPROGRAM_RETURN_IMMEDIATELY t b).2)
       = S (calls (is_exit_code_retrieval_of p) (trace b))
       ∧ timers (run_callback os VIX_RUNPROGRAM_RETURN_IMMEDIATELY t b).2
         = timers b.
Proof.
  intros <-.
  destruct t as [st | st]; simpl;
    unfold VixToolsMonitorAsyncProc, VixToolsMonitorStartProgram,
      poll_running, retrieve_exit_code, mbind, M_bind, next_tick; simpl.
  - destruct (ProcMgr_IsAsyncProcRunning os (tick b) (run_procState st));
      simpl.
    + split; [count_calls | done].
    + destruct (ProcMgr_GetExitCode os (S (tick b)) (run_procState st))
        as [result code]. simpl.
      unfold VixToolsFreeRunProgramState, when, mbind, M_bind. simpl.
      destruct (reportProgramDoneProc b && _), (tempScriptFilePath st);
        simpl; (split; [count_calls | done]).
  - destruct (ProcMgr_IsAsyncProcRunning os (tick b) (start_procState st));
      simpl.
    + split; [count_calls | done].
    + destruct (ProcMgr_GetExitCode os (S (tick b)) (start_procState st))
        as [result code]. simpl.
      split; [count_calls | done].
Qed.

(** The timer of a monitor of another process leaves the retrievals for
    [p] and the monitors of [p] as they are. *)
Lemma run_callback_other t b :
  timer_procState t ≠ p →
  calls (is_exit_code_retrieval_of p)
    (trace (run_callback os VIX_RUNPROGRAM_RETURN_IMMEDIATELY t b).2)
  = calls (is_exit_code_retrieval_of p) (trace b)
  ∧ monitors_of p
      (timers (run_callback os VIX_RUNPROGRAM_RETURN_IMMEDIATELY t b).2)
    = monitors_of p (timers b).
Proof.
  intros Hne. apply Z.eqb_neq in Hne.
  destruct t as [st | st]; simpl in *;
    unfold VixToolsMonitorAsyncProc, VixToolsMonitorStartProgram,
      poll_running, retrieve_exit_code, mbind, M_bind, next_tick; simpl.
  - destruct (ProcMgr_IsAsyncProcRunning os (tick b) (run_procState st));
      simpl.
    + unfold calls, monitors_of.
      rewrite !List.filter_app, !length_app. simpl. rewrite Hne. simpl.
      lia.
    + destruct (ProcMgr_GetExitCode os (S (tick b)) (run_procState st))
        as [result code]. simpl.
      unfold VixToolsFreeRunProgramState, when, mbind, M_bind. simpl.
      destruct (reportProgramDoneProc b && _), (tempScriptFilePath st);
        simpl; unfold calls; rewrite !List.filter_app, !length_app; simpl;
        rewrite Hne; simpl; lia.
  - destruct (ProcMgr_IsAsyncProcRunning os (tick b) (start_procState st));
      simpl.
    + unfold calls, monitors_of.
      rewrite !List.filter_app, !length_app. simpl. rewrite Hne. simpl.
      lia.
    + destruct (ProcMgr_GetExitCode os (S (tick b)) (start_procState st))
        as [result code]. simpl.
      unfold calls. rewrite !List.filter_app, !length_app. simpl.
      rewrite Hne. simpl. lia.
Qed.

(** The retrievals made for [p] and the monitors of [p] still queued add up
    to the same number before and after a timer expires. *)
Lemma g_main_context_iteration_conserves a :
  calls (is_exit_code_retrieval_of p)
    (trace (g_main_context_iteration os VIX_RUNPROGRAM_RETURN_IMMEDIATELY
              a).2)
  + monitors_of p
      (timers (g_main_context_iteration os VIX_RUNPROGRAM_RETURN_IMMEDIATELY
                 a).2)
  = calls (is_exit_code_retrieval_of p) (trace a) + monitors_of p (timers a).
Proof.
  unfold g_main_context_iteration, mbind, M_bind, get_agent. simpl.
  destruct (timers a) as [|t rest] eqn:Hq; simpl; [by rewrite Hq|].
  set (b := {| exitedProcessList := exitedProcessList a;
               userEnvironmentTable := userEnvironmentTable a;
               thisProcessRunsAsRoot := thisProcessRunsAsRoot a;
               allowConsoleUserOps := allowConsoleUserOps a;
               reportProgramDoneProc := reportProgramDoneProc a;
               timers := rest;
               tick := tick a;
               trace := trace a |}).
  destruct (decide (timer_procState t = p)) as [Hp | Hp].
  - pose proof (run_callback_poll t b Hp) as Hpoll.
    destruct (ProcMgr_IsAsyncProcRunning os (tick b) p);
      destruct Hpoll as [-> ->]; unfold monitors_of; simpl;
      rewrite ?List.filter_app, ?length_app; simpl;
      apply Z.eqb_eq in Hp; rewrite Hp; simpl; lia.
  - destruct (run_callback_other t b Hp) as [-> ->].
    unfold monitors_of. simpl.
    apply Z.eqb_neq in Hp. by rewrite Hp.
Qed.

Lemma g_main_loop_run_conserves n : ∀ a,
  calls (is_exit_code_retrieval_of p)
    (trace (g_main_loop_run os VIX_RUNPROGRAM_RETURN_IMMEDIATELY n a).2)
  + monitors_of p
      (timers (g_main_loop_run os VIX_RUNPROGRAM_RETURN_IMMEDIATELY n a).2)
  = calls (is_exit_code_retrieval_of p) (trace a) + monitors_of p (timers a).
Proof.
  induction n as [|n IH]; intros a; simpl; [done|].
  unfold mbind at 1 2, M_bind at 1 2.
  pose proof (g_main_context_iteration_conserves a) as Hstep.
  destruct (g_main_context_iteration os VIX_RUNPROGRAM_RETURN_IMMEDIATELY a)
    as [[] a1]. simpl in Hstep.
  by rewrite IH.
Qed.

End MonitorFacts.

(** C9.  Each expiration of the timer of either monitor of a process asks
    for its exit status ([ProcMgr_GetExitCode]) not at all when the poll
    sees the process running, in which case the timer is armed again, and
    exactly once when the poll sees it ended, in which case the timer is not
    armed again.  So, whatever else the event queue holds and however many
    expirations it serves, the retrievals made for a process and the
    monitors of it still queued add up to the same number, and a process
    with one monitor has its exit status retrieved at most once. *)
Theorem exit_status_retrieved_once (os : GuestOS)
    (VIX_RUNPROGRAM_RETURN_IMMEDIATELY : Z) (p : ProcMgr_AsyncProc)
    (a : Agent) (n : nat) :
  monitors_of p (timers a) = 1 →
  (∀ (t : Timer) (b : Agent),
     timer_procState t = p →
     if ProcMgr_IsAsyncProcRunning os (tick b) p
     then calls (is_exit_code_retrieval_of p)
            (trace (run_callback os VIX_RUNPROGRAM_RETURN_IMMEDIATELY t b).2)
          = calls (is_exit_code_retrieval_of p) (trace b)
          ∧ timers (run_callback os VIX_RUNPROGRAM_RETURN_IMMEDIATELY t b).2
            = timers b ++ [t]
     else calls (is_exit_code_retrieval_of p)
            (trace (run_callback os VIX_RUNPROGRAM_RETURN_IMMEDIATELY t b).2)
          = S (calls (is_exit_code_retrieval_of p) (trace b))
          ∧ timers (run_callback os VIX_RUNPROGRAM_RETURN_IMMEDIATELY t b).2
            = timers b)
  ∧ calls (is_exit_code_retrieval_of p)
      (trace (g_main_loop_run os VIX_RUNPROGRAM_RETURN_IMMEDIATELY n a).2)
    + monitors_of p
        (timers (g_main_loop_run os VIX_RUNPROGRAM_RETURN_IMMEDIATELY n a).2)
    = calls (is_exit_code_retrieval_of p) (trace a) + 1
  ∧ calls (is_exit_code_retrieval_of p)
      (trace (g_main_loop_run os VIX_RUNPROGRAM_RETURN_IMMEDIATELY n a).2)
    ≤ calls (is_exit_code_retrieval_of p) (trace a) + 1.
Proof.
  intros Hone.
  pose proof (g_main_loop_run_conserves os VIX_RUNPROGRAM_RETURN_IMMEDIATELY
                p n a) as Hsum.
  rewrite Hone in Hsum. split_and!.
  - intros t b. apply run_callback_poll.
  - exact Hsum.
  - lia.
Qed.

(** The theorem at the tracked monitor of the sample guest, whose process
    ends after three polls; ten expirations are served. *)
Lemma exit_status_retrieved_once_witness :
  monitors_of 1%Z
    (timers (agent_monitoring (TimerMonitorStartProgram sample_start_state)
               0)) = 1
  ∧ calls (is_exit_code_retrieval_of 1%Z)
      (trace (g_main_loop_run sample_os 1 10
                (agent_monitoring
                   (TimerMonitorStartProgram sample_start_state) 0)).2)
    ≤ 1.
Proof.
  assert (Hone : monitors_of 1%Z
                   (timers (agent_monitoring
                              (TimerMonitorStartProgram sample_start_state)
                              0)) = 1) by reflexivity.
  split; [exact Hone|].
  destruct (exit_status_retrieved_once sample_os 1 1%Z
              (agent_monitoring
                 (TimerMonitorStartProgram sample_start_state) 0) 10 Hone)
    as (_ & _ & Hmost).
  exact Hmost.
Defined.

(** ** A failed retrieval of the exit status *)

Section FailedRetrieval.
Import Registry.
Local Open Scope Z_scope.

Lemma find_app_absent p l1 l2 :
  p ∉ List.map pid l1 →
  VixToolsFindExitedProgramState p (l1 ++ l2)
  = VixToolsFindExitedProgramState p l2.
Proof.
  induction l1 as [|x l1 IH]; simpl; [done|].
  rewrite not_elem_of_cons. intros [Hx Hl].
  destruct (Z.eqb_spec (pid x) p); [congruence | auto].
Qed.

Lemma find_updated_entry s now l l' :
  update_running s l = Some l' →
  now - VIX_TOOLS_EXITED_PROGRAM_REAP_TIME ≤ endTime s
  ∨ (∀ r, VixToolsFindExitedProgramState (pid s) l = Some r →
          isRunning r = true) →
  ∃ ep, VixToolsFindExitedProgramState (pid s) (reap now l') = Some ep
        ∧ exitCode ep = exitCode s.
Proof.
  intros Hu Hkept. revert l' Hu.
  induction l as [|x l IH]; intros l'; simpl in *; [done|].
  destruct (Z.eqb_spec (pid x) (pid s)) as [e|n].
  - intros [= <-]. simpl. unfold expired at 1. simpl.
    replace (negb (isRunning x)
             && (endTime s <? now - VIX_TOOLS_EXITED_PROGRAM_REAP_TIME))
      with false.
    + simpl. rewrite e, Z.eqb_refl. eexists. split; [reflexivity | done].
    + symmetry. destruct Hkept as [Hclock | Hrun].
      * apply andb_false_iff. right. apply Z.ltb_ge. lia.
      * by rewrite (Hrun x eq_refl).
  - destruct (update_running s l) as [r|]; [|done].
    intros [= <-]. simpl.
    destruct (expired now x); simpl; [by apply IH|].
    destruct (Z.eqb_spec (pid x) (pid s)); [done | by apply IH].
Qed.

(** After an exit is recorded, the first entry of its pid carries its exit
    code, provided the exit is not older than the retention window or the
    entry the list held for the pid, if any, was marked running. *)
Lemma recorded_exit_code s now l :
  isRunning s = false →
  now - VIX_TOOLS_EXITED_PROGRAM_REAP_TIME ≤ endTime s
  ∨ (∀ r, VixToolsFindExitedProgramState (pid s) l = Some r →
          isRunning r = true) →
  ∃ ep, VixToolsFindExitedProgramState (pid s)
          (VixToolsUpdateExitedProgramList now (Some s) l) = Some ep
        ∧ exitCode ep = exitCode s.
Proof.
  intros Hrun Hkept. unfold VixToolsUpdateExitedProgramList.
  rewrite Hrun. simpl.
  destruct (update_running s l) as [l'|] eqn:Hu.
  - by eapply find_updated_entry.
  - apply update_running_None in Hu.
    rewrite find_app_absent.
    + simpl. rewrite Z.eqb_refl. by eexists.
    + intros H. apply Hu. by eapply reap_pids_incl.
Qed.

End FailedRetrieval.

(** C10.  When a monitor sees its process ended and the retrieval of the
    exit status fails (a nonzero result of [ProcMgr_GetExitCode]), the exit
    code is replaced by -1: the fire-and-report monitor passes -1 to the
    completion callback in every call it makes, and it makes the call when a
    callback is registered and the launch did not ask to return
    immediately; the tracked monitor records -1 in the registry, where the
    entry found for the pid carries it (the entry the registry held for the
    pid, if any, being the running placeholder of the launch, or else the
    clock not having moved by more than the retention window between the
    monitor's two readings). *)
Theorem failed_retrieval_gives_minus_one (os : GuestOS)
    (VIX_RUNPROGRAM_RETURN_IMMEDIATELY : Z) (a : Agent)
    (procState : ProcMgr_AsyncProc) :
  ProcMgr_IsAsyncProcRunning os (tick a) procState = false →
  (ProcMgr_GetExitCode os (S (tick a)) procState).1 ≠ 0%Z →
  (∀ asyncState : VixToolsRunProgramState,
     run_procState asyncState = procState →
     ∃ events,
       trace (VixToolsMonitorAsyncProc os VIX_RUNPROGRAM_RETURN_IMMEDIATELY
                asyncState a).2 = trace a ++ events
       ∧ (∀ name err code reported,
            EvReportProgramDone name err code reported ∈ events →
            code = (-1)%Z)
       ∧ (reportProgramDoneProc a = true →
          Z.land (runProgramOptions asyncState)
            VIX_RUNPROGRAM_RETURN_IMMEDIATELY = 0%Z →
          EvReportProgramDone (requestName asyncState) VIX_OK (-1)
            (ProcMgr_GetPid os procState) ∈ events))
  ∧ (∀ asyncState : VixToolsStartProgramState,
       start_procState asyncState = procState →
       (time os (S (S (S (tick a))))
        - Registry.VIX_TOOLS_EXITED_PROGRAM_REAP_TIME
        ≤ time os (S (S (tick a))))%Z
       ∨ (∀ r,
            Registry.VixToolsFindExitedProgramState
              (Registry.to_uint64 (ProcMgr_GetPid os procState))
              (exitedProcessList a) = Some r →
            Registry.isRunning r = true) →
       ∃ ep,
         Registry.VixToolsFindExitedProgramState
           (Registry.to_uint64 (ProcMgr_GetPid os procState))
           (exitedProcessList
              (VixToolsMonitorStartProgram os asyncState a).2) = Some ep
         ∧ Registry.exitCode ep = (-1)%Z).
Proof.
  intros Hended Hfailed. split.
  - intros st <-.
    unfold VixToolsMonitorAsyncProc, poll_running, retrieve_exit_code,
      mbind, M_bind, next_tick. simpl. rewrite Hended. simpl.
    destruct (ProcMgr_GetExitCode os (S (tick a)) (run_procState st))
      as [result code]. simpl in *.
    rewrite (bool_decide_eq_true_2 (0%Z ≠ result)) by congruence.
    unfold VixToolsFreeRunProgramState, when, mbind, M_bind, get_agent.
    simpl.
    destruct (reportProgramDoneProc a) eqn:Hproc; simpl.
    + destruct (bool_decide
                  (Z.land (runProgramOptions st)
                     VIX_RUNPROGRAM_RETURN_IMMEDIATELY ≠ 0%Z)) eqn:Hopt;
        simpl.
      * apply bool_decide_eq_true in Hopt.
        destruct (tempScriptFilePath st); simpl;
          rewrite <- !app_assoc; simpl;
          (eexists; split; [reflexivity|]; split;
           [intros ???? H; event_cases H | intros _ ?; done]).
      * destruct (tempScriptFilePath st); simpl;
          rewrite <- !app_assoc; simpl;
          (eexists; split; [reflexivity|]; split;
           [intros ???? H; event_cases H | intros _ _; find_event]).
    + destruct (tempScriptFilePath st); simpl;
        rewrite <- !app_assoc; simpl;
        (eexists; split; [reflexivity|]; split;
         [intros ???? H; event_cases H | intros ?; done]).
  - intros st <- Hclock.
    unfold VixToolsMonitorStartProgram, poll_running, retrieve_exit_code,
      time_now, call_VixToolsUpdateExitedProgramList, time_now,
      mbind, M_bind, next_tick, get_agent. simpl. rewrite Hended. simpl.
    destruct (ProcMgr_GetExitCode os (S (tick a)) (start_procState st))
      as [result code]. simpl in *.
    rewrite (bool_decide_eq_true_2 (0%Z ≠ result)) by congruence.
    apply (recorded_exit_code
             (Registry.exit_record (ProcMgr_GetPid os (start_procState st))
                (-1) (time os (S (S (tick a)))))
             (time os (S (S (S (tick a))))) (exitedProcessList a));
      [reflexivity | exact Hclock].
Qed.

(** The theorem at the two monitors of the sample guest, polled at tick 3,
    where the process has ended and its status cannot be retrieved. *)
Lemma failed_retrieval_gives_minus_one_witness :
  ProcMgr_IsAsyncProcRunning sample_os 3 1%Z = false
  ∧ (ProcMgr_GetExitCode sample_os 4 1%Z).1 ≠ 0%Z
  ∧ (∃ events,
       trace (VixToolsMonitorAsyncProc sample_os 1 sample_run_state
                (agent_monitoring (TimerMonitorAsyncProc sample_run_state)
                   3)).2 = [] ++ events
       ∧ EvReportProgramDone "req" VIX_OK (-1) 5001 ∈ events)
  ∧ ∃ ep,
      Registry.VixToolsFindExitedProgramState
        (Registry.to_uint64 (ProcMgr_GetPid sample_os 1%Z))
        (exitedProcessList
           (VixToolsMonitorStartProgram sample_os sample_start_state
              (agent_monitoring
                 (TimerMonitorStartProgram sample_start_state) 3)).2)
      = Some ep
      ∧ Registry.exitCode ep = (-1)%Z.
Proof.
  assert (Hended : ∀ t, ProcMgr_IsAsyncProcRunning sample_os
                          (tick (agent_monitoring t 3)) 1%Z = false)
    by reflexivity.
  assert (Hfailed : ∀ t, (ProcMgr_GetExitCode sample_os
                            (S (tick (agent_monitoring t 3))) 1%Z).1 ≠ 0%Z)
    by (intros t; simpl; lia).
  split; [exact (Hended (TimerMonitorStartProgram sample_start_state))|].
  split; [exact (Hfailed (TimerMonitorStartProgram sample_start_state))|].
  split.
  - destruct (failed_retrieval_gives_minus_one sample_os 1
                (agent_monitoring (TimerMonitorAsyncProc sample_run_state) 3)
                1%Z (Hended _) (Hfailed _)) as [Hreport _].
    destruct (Hreport sample_run_state eq_refl)
      as (events & Htrace & _ & Hcalled).
    exists events. split; [exact Htrace|].
    apply Hcalled; reflexivity.
  - destruct (failed_retrieval_gives_minus_one sample_os 1
                (agent_monitoring
                   (TimerMonitorStartProgram sample_start_state) 3) 1%Z
                (Hended _) (Hfailed _)) as [_ Htracked].
    apply (Htracked sample_start_state); [reflexivity|].
    left. simpl. unfold Registry.VIX_TOOLS_EXITED_PROGRAM_REAP_TIME. lia.
Defined.

(** ** The dispatcher and the gate *)

Section DispatchFacts.
Variable os : GuestOS.
Variable leaf : Collaborators.

Lemma emits_ret {A} (x : A) (Q : A → list Event → Prop) :
  Q x [] → emits (mret x) Q.
Proof. intros HQ a. exists []. by rewrite app_nil_r. Qed.

(** A computation followed by one that leaves the agent alone. *)
Lemma emits_then_pure {A B} (m : M A) (k : A → M B)
    (Q : list Event → Prop) :
  emits m (λ _, Q) → (∀ x b, (k x b).2 = b) → emits (m ≫= k) (λ _, Q).
Proof.
  intros Hm Hk a. destruct (Hm a) as (events & Htrace & HQ).
  exists events. unfold mbind, M_bind.
  destruct (m a) as [x a1]. simpl in *. by rewrite Hk.
Qed.

Lemma VixToolsRunProgramImpl_trace name cmd args opts tok b :
  ∃ body,
    trace (VixToolsRunProgramImpl os name cmd args opts tok b).2
    = trace b ++ body
    ∧ gate_events body = [].
Proof.
  unfold VixToolsRunProgramImpl.
  destruct (File_Exists os _); simpl;
    [|exists []; by rewrite app_nil_r].
  destruct (FileIO_Access_EXEC os _); simpl;
    [|exists []; by rewrite app_nil_r].
  destruct (Str_Asprintf_fails os _); simpl;
    [exists []; by rewrite app_nil_r|].
  unfold mbind, M_bind, get_agent. simpl.
  set (procArgs := {| workingDirectory := None; envp := _ |}).
  exists [EvExecAsync (full_command_line cmd args) procArgs
            (ProcMgr_ExecAsync os (full_command_line cmd args) procArgs)].
  split; [|done].
  destruct (ProcMgr_ExecAsync os _ _); reflexivity.
Qed.

Lemma VixToolsStartProgramImpl_trace name path args dir n env mini tok b :
  ∃ body,
    trace (VixToolsStartProgramImpl os name path args dir n env mini tok b).2
    = trace b ++ body
    ∧ gate_events body = [].
Proof.
  unfold VixToolsStartProgramImpl.
  destruct (File_Exists os _); simpl;
    [|exists []; by rewrite app_nil_r].
  destruct (FileIO_Access_EXEC os _); simpl;
    [|exists []; by rewrite app_nil_r].
  destruct (match dir with
            | Some d => negb (File_IsDirectory os d)
            | None => false
            end); simpl; [exists []; by rewrite app_nil_r|].
  destruct (Str_Asprintf_fails os _); simpl;
    [exists []; by rewrite app_nil_r|].
  unfold mbind, M_bind. simpl.
  set (procArgs := {| workingDirectory := dir; envp := env |}).
  exists [EvExecAsync (full_command_line path args) procArgs
            (ProcMgr_ExecAsync os (full_command_line path args) procArgs)].
  split; [|done].
  destruct (ProcMgr_ExecAsync os _ _); reflexivity.
Qed.

(** The common end of the handler proofs: the gate logged [events], the
    work [body], and the epilogue runs in an agent whose trace is both. *)
Lemma epilogue_disciplined {A} (x : A) err tok events body imp a b :
  gate_outcome err tok events →
  gate_events body = [] →
  imp = bool_decide (err = VIX_OK) →
  trace b = (trace a ++ events) ++ body →
  ∃ all,
    trace ((release imp tok ≫= λ _, mret x) b).2 = trace a ++ all
    ∧ disciplined (gate_events all).
Proof.
  intros Hout Hbody -> Htrace.
  exists (events ++ body ++ release_events (bool_decide (err = VIX_OK)) tok).
  split; [|by apply gate_then_release_disciplined].
  unfold mbind, M_bind. rewrite release_add_trace. simpl.
  by rewrite Htrace, <- !app_assoc.
Qed.

Lemma VixToolsCheckUserAccount_disciplined requestMsg :
  emits (VixToolsCheckUserAccount os requestMsg)
    (λ _ events, disciplined (gate_events events)).
Proof.
  intros a. unfold VixToolsCheckUserAccount, mbind at 1, M_bind at 1.
  destruct (VixToolsImpersonateUser_outcome os requestMsg a)
    as (err & tok & events & Hgate & Hout).
  rewrite Hgate. cbv beta iota.
  apply (epilogue_disciplined err err tok events [] _ a);
    [done | done | done |].
  simpl. by rewrite app_nil_r.
Qed.

Lemma VixToolsKillProcess_disciplined requestMsg :
  emits (VixToolsKillProcess os requestMsg)
    (λ _ events, disciplined (gate_events events)).
Proof.
  intros a. unfold VixToolsKillProcess, mbind at 1, M_bind at 1.
  destruct (VixToolsImpersonateUser_outcome os requestMsg a)
    as (err & tok & events & Hgate & Hout).
  rewrite Hgate. cbv beta iota. unfold mbind at 1, M_bind at 1.
  destruct (bool_decide (err = VIX_OK)) eqn:Herr.
  - destruct (VixToolsPidRefersToThisProcess os _).
    + apply (epilogue_disciplined VIX_E_GUEST_USER_PERMISSIONS err tok
               events [] true a); [done | done | done |].
      simpl. by rewrite app_nil_r.
    + destruct (ProcMgr_KillByPid os
                  (kp_pid (killProcessRequest requestMsg))) eqn:Hkill.
      * apply (epilogue_disciplined err err tok events
                 [EvKillByPid (kp_pid (killProcessRequest requestMsg)) true]
                 true a); [done | done | done |].
        reflexivity.
      * apply (epilogue_disciplined
                 (FoundryToolsDaemon_TranslateSystemErr os) err tok events
                 [EvKillByPid (kp_pid (killProcessRequest requestMsg)) false]
                 true a); [done | done | done |].
        reflexivity.
  - apply (epilogue_disciplined err err tok events [] false a);
      [done | done | done |].
    simpl. by rewrite app_nil_r.
Qed.

Lemma run_leaf_body_trace h requestMsg b :
  trace (run_leaf_body leaf h requestMsg b).2 = trace b.
Proof. reflexivity. Qed.

Lemma leaf_handler_disciplined h requestMsg :
  emits (leaf_handler os leaf h requestMsg)
    (λ _ events, disciplined (gate_events events)).
Proof.
  intros a. unfold leaf_handler.
  destruct (leaf_precheck leaf h requestMsg) as [err|].
  - destruct (leaf_abort_result leaf h requestMsg err) as [result len].
    apply (epilogue_disciplined (err, result, len) VIX_E_FAIL NULL_TOKEN
             [] [] false a); [by apply gate_refused | done | done |].
    simpl. by rewrite !app_nil_r.
  - unfold mbind at 1, M_bind at 1.
    destruct (VixToolsImpersonateUser_outcome os requestMsg a)
      as (err & tok & events & Hgate & Hout).
    rewrite Hgate. cbv beta iota.
    destruct (bool_decide (err = VIX_OK)) eqn:Herr.
    + unfold mbind at 1, M_bind at 1.
      pose proof (run_leaf_body_trace h requestMsg (add_trace a events))
        as Hbody.
      destruct (run_leaf_body leaf h requestMsg (add_trace a events))
        as [out b]. simpl in Hbody.
      apply (epilogue_disciplined
               (leaf_err out, leaf_result out, leaf_resultLength out)
               err tok events [] true a); [done | done | done |].
      by rewrite app_nil_r.
    + destruct (leaf_abort_result leaf h requestMsg err) as [result len].
      apply (epilogue_disciplined (err, result, len) err tok events []
               false a); [done | done | done |].
      simpl. by rewrite app_nil_r.
Qed.

Lemma VixTools_RunProgram_disciplined requestMsg name :
  emits (VixTools_RunProgram os requestMsg name)
    (λ _ events, disciplined (gate_events events)).
Proof.
  intros a. unfold VixTools_RunProgram, mbind at 1, M_bind at 1.
  destruct (bool_decide (rp_commandLine (runProgramRequest requestMsg)
                         = EmptyString)).
  { apply (epilogue_disciplined _ VIX_E_FAIL NULL_TOKEN [] [] false a);
      [by apply gate_refused | done | done |].
    simpl. by rewrite !app_nil_r. }
  unfold mbind at 1, M_bind at 1.
  destruct (VixToolsImpersonateUser_outcome os requestMsg a)
    as (err & tok & events & Hgate & Hout).
  rewrite Hgate. cbv beta iota.
  destruct (bool_decide (err = VIX_OK)) eqn:Herr.
  - unfold mbind at 1, M_bind at 1.
    destruct (VixToolsRunProgramImpl_trace name
                (rp_commandLine (runProgramRequest requestMsg))
                (if (0 <? rp_commandLineArgsLength
                            (runProgramRequest requestMsg))%Z
                 then Some (rp_commandLineArgs (runProgramRequest requestMsg))
                 else None)
                (rp_runProgramOptions (runProgramRequest requestMsg))
                tok (add_trace a events)) as (body & Hbody & Hnone).
    destruct (VixToolsRunProgramImpl os _ _ _ _ _ _) as [[err' launched] b].
    simpl in Hbody.
    by apply (epilogue_disciplined _ err tok events body true a).
  - apply (epilogue_disciplined _ err tok events [] false a);
      [done | done | done |].
    simpl. by rewrite app_nil_r.
Qed.

Lemma record_launch_trace c path launched b :
  trace ((when c
            (start ← time_now os;
             call_VixToolsUpdateExitedProgramList os
               (Some (Registry.running_record path launched start)))) b).2
  = trace b.
Proof. by destruct c. Qed.

Lemma VixTools_StartProgram_disciplined requestMsg name :
  emits (VixTools_StartProgram os requestMsg name)
    (λ _ events, disciplined (gate_events events)).
Proof.
  intros a. unfold VixTools_StartProgram, mbind at 1, M_bind at 1.
  destruct (bool_decide (sp_programPath (startProgramRequest requestMsg)
                         = EmptyString)).
  { apply (epilogue_disciplined _ VIX_E_FAIL NULL_TOKEN [] [] false a);
      [by apply gate_refused | done | done |].
    simpl. by rewrite !app_nil_r. }
  unfold mbind at 1, M_bind at 1.
  destruct (VixToolsImpersonateUser_outcome os requestMsg a)
    as (err & tok & events & Hgate & Hout).
  rewrite Hgate. cbv beta iota.
  destruct (bool_decide (err = VIX_OK)) eqn:Herr.
  - unfold mbind at 1, M_bind at 1.
    destruct (VixToolsStartProgramImpl_trace name
                (sp_programPath (startProgramRequest requestMsg))
                (if (0 <? sp_argumentsLength
                            (startProgramRequest requestMsg))%Z
                 then Some (sp_arguments (startProgramRequest requestMsg))
                 else None)
                (if (0 <? sp_workingDirLength
                            (startProgramRequest requestMsg))%Z
                 then Some (sp_workingDir (startProgramRequest requestMsg))
                 else None)
                (sp_numEnvVars (startProgramRequest requestMsg))
                (if (0 <? sp_numEnvVars (startProgramRequest requestMsg))%Z
                 then Some (sp_envVars (startProgramRequest requestMsg))
                 else None)
                (sp_startMinimized (startProgramRequest requestMsg))
                tok (add_trace a events)) as (body & Hbody & Hnone).
    destruct (VixToolsStartProgramImpl os _ _ _ _ _ _ _ _ _)
      as [[err' launched] b].
    simpl in Hbody. cbv beta iota. unfold mbind at 1, M_bind at 1.
    pose proof (record_launch_trace (bool_decide (err' = VIX_OK))
                  (sp_programPath (startProgramRequest requestMsg))
                  launched b) as Hrec.
    destruct (when _ _ b) as [[] b'].
    simpl in Hrec.
    apply (epilogue_disciplined _ err tok events body true a);
      [done | done | done |].
    simpl. by rewrite Hrec.
  - apply (epilogue_disciplined _ err tok events [] false a);
      [done | done | done |].
    simpl. by rewrite app_nil_r.
Qed.

Lemma dispatch_switch_disciplined requestMsg name :
  emits (dispatch_switch os leaf requestMsg name)
    (λ _ events, disciplined (gate_events events)).
Proof.
  unfold dispatch_switch, text_case, status_case.
  destruct (opCode requestMsg);
    try (apply emits_then_pure;
         [apply leaf_handler_disciplined | by intros [[? ?] ?] ?]);
    try (apply emits_ret; constructor).
  - apply emits_then_pure;
      [apply VixToolsCheckUserAccount_disciplined | done].
  - apply emits_then_pure;
      [apply VixToolsCheckUserAccount_disciplined | done].
  - destruct (VixTools_GetToolsPropertiesImpl leaf) as [err | [buf len]].
    + apply emits_ret. constructor.
    + destruct (VixTools_Base64EncodeBuffer leaf buf len) as [[? ?] ?].
      apply emits_ret. constructor.
  - apply emits_then_pure; [apply VixToolsKillProcess_disciplined | done].
  - apply emits_then_pure;
      [apply VixTools_RunProgram_disciplined | by intros [? ?] ?].
  - apply emits_then_pure;
      [apply VixTools_StartProgram_disciplined | by intros [? ?] ?].
  - destruct (VixToolsGetGuestNetworkingConfig leaf requestMsg)
      as [err | [buf len]]; apply emits_ret; constructor.
Qed.

Lemma calls_gate_events kind events :
  (∀ e, kind e = true → is_gate_event e = true) →
  calls kind (gate_events events) = calls kind events.
Proof.
  intros Hk. unfold calls, gate_events.
  induction events as [|e events IH]; simpl; [done|].
  destruct (is_gate_event e) eqn:Hg; simpl.
  - destruct (kind e); simpl; by rewrite IH.
  - destruct (kind e) eqn:He; [|done].
    apply Hk in He. congruence.
Qed.

Lemma disciplined_counts g :
  disciplined g →
  calls is_close g = calls is_acquisition g
  ∧ calls is_restore g = calls is_switch g
  ∧ calls is_close g ≤ 1.
Proof. destruct 1; vm_compute; auto. Qed.

End DispatchFacts.

(** C2, as amended.  For every dispatched command and every credential, the
    gate calls the command adds to the trace are one of: none at all; a
    failed authentication; an authentication that returned an identity whose
    context switch then failed, followed by the close of that identity; an
    authentication and a context switch, followed by the restore and then
    the close.  So the identity handle is closed ([Auth_CloseToken]) exactly
    as often as an authentication returned one, whether or not the switch to
    it succeeded, at most once per command, and the context is restored
    exactly as often as it was switched; [VixToolsLogoutUser] does nothing
    for the sentinel token and for NULL. *)
Theorem release_matches_acquisition (os : GuestOS) (leaf : Collaborators)
    (requestMsg : VixCommandRequestHeader) (requestName : string)
    (a : Agent) :
  (∃ events,
     trace (VixTools_ProcessVixCommand os leaf requestMsg requestName a).2
     = trace a ++ events
     ∧ disciplined (gate_events events)
     ∧ calls is_close events = calls is_acquisition events
     ∧ calls is_restore events = calls is_switch events
     ∧ calls is_close events ≤ 1)
  ∧ VixToolsLogoutUser PROCESS_CREATOR_USER_TOKEN a = (tt, a)
  ∧ VixToolsLogoutUser NULL_TOKEN a = (tt, a).
Proof.
  split; [|by split].
  destruct (dispatch_switch_disciplined os leaf requestMsg requestName a)
    as (events & Htrace & Hdisc).
  exists events. split.
  - unfold VixTools_ProcessVixCommand, mbind, M_bind.
    destruct (dispatch_switch os leaf requestMsg requestName a). exact Htrace.
  - split; [exact Hdisc|].
    destruct (disciplined_counts _ Hdisc) as (H1 & H2 & H3).
    rewrite (calls_gate_events is_close), (calls_gate_events is_acquisition)
      in H1 by (by intros []).
    rewrite (calls_gate_events is_restore), (calls_gate_events is_switch)
      in H2 by (by intros []).
    rewrite (calls_gate_events is_close) in H3 by (by intros []).
    split_and!; assumption.
Qed.

(** C2 as stated fails: alice authenticates, the switch to her identity
    fails, and her identity is closed: one close, no successful
    impersonation. *)
Lemma close_without_successful_impersonation :
  ¬ (∀ (os : GuestOS) (leaf : Collaborators)
       (requestMsg : VixCommandRequestHeader) (requestName : string),
       calls is_close
         (trace (VixTools_ProcessVixCommand os leaf requestMsg requestName
                   initial_agent).2)
       = calls is_switch
           (trace (VixTools_ProcessVixCommand os leaf requestMsg requestName
                     initial_agent).2)).
Proof.
  intros H.
  specialize (H sample_os sample_leaf check_account_of_alice "req").
  vm_compute in H. discriminate H.
Qed.

(** ** The result of a failing handler *)







(** * Further properties *)

(** ** The registry: sweeps, lookups and running entries *)

Section RegistrySweeps.
Import Registry.
Local Open Scope Z_scope.

Implicit Types (l epList : list VixToolsExitedProgramState).
Implicit Types (s ep r : VixToolsExitedProgramState).

Lemma expired_later now now' ep :
  now ≤ now' → expired now ep = true → expired now' ep = true.
Proof.
  unfold expired. intros Hle.
  rewrite !andb_true_iff, !Z.ltb_lt. intros [Hrun Hend]. split; [done|lia].
Qed.

Lemma reap_reap now now' l :
  now ≤ now' → reap now' (reap now l) = reap now' l.
Proof.
  intros Hle. induction l as [|ep l IH]; [done|]. simpl.
  destruct (expired now ep) eqn:Hnow.
  - by rewrite (expired_later now now' ep Hle Hnow).
  - simpl. rewrite IH. done.
Qed.

Lemma find_app p l1 l2 :
  VixToolsFindExitedProgramState p (l1 ++ l2)
  = match VixToolsFindExitedProgramState p l1 with
    | Some ep => Some ep
    | None => VixToolsFindExitedProgramState p l2
    end.
Proof.
  induction l1 as [|ep l1 IH]; [done|]. simpl.
  by destruct (pid ep =? p).
Qed.

(** The entry [r] after the in-place update with the exit fields of [s]. *)
Lemma update_running_find s l r :
  VixToolsFindExitedProgramState (pid s) l = Some r →
  ∃ l', update_running s l = Some l'
    ∧ VixToolsFindExitedProgramState (pid s) l'
      = Some {| name := name r; user := user r; pid := pid r;
                startTime := startTime r; exitCode := exitCode s;
                endTime := endTime s; isRunning := isRunning r |}.
Proof.
  induction l as [|ep l IH]; [done|]. simpl.
  destruct (pid ep =? pid s) eqn:Hpid.
  - intros [= ->]. eexists. split; [done|]. simpl. by rewrite Hpid.
  - intros Hfind. destruct (IH Hfind) as (l' & -> & Hl').
    eexists. split; [done|]. simpl. by rewrite Hpid.
Qed.

Lemma find_reap now p l r :
  VixToolsFindExitedProgramState p l = Some r →
  expired now r = false →
  VixToolsFindExitedProgramState p (reap now l) = Some r.
Proof.
  induction l as [|ep l IH]; [done|]. simpl.
  destruct (pid ep =? p) eqn:Hpid.
  - intros [= ->] ->. simpl. by rewrite Hpid.
  - intros Hfind Hr. destruct (expired now ep); simpl; rewrite ?Hpid; auto.
Qed.

Lemma update_in_place_find s now l r :
  isRunning s = false →
  VixToolsFindExitedProgramState (pid s) l = Some r →
  isRunning r = true →
  VixToolsFindExitedProgramState (pid s)
    (VixToolsUpdateExitedProgramList now (Some s) l)
  = Some {| name := name r; user := user r; pid := pid r;
            startTime := startTime r; exitCode := exitCode s;
            endTime := endTime s; isRunning := true |}.
Proof.
  intros Hs Hfind Hr. unfold VixToolsUpdateExitedProgramList.
  rewrite Hs. simpl.
  destruct (update_running_find s l r Hfind) as (l' & -> & Hl').
  rewrite Hr in Hl'. apply find_reap; [done|].
  unfold expired. done.
Qed.

Lemma update_running_keeps s l l' ep :
  update_running s l = Some l' → ep ∈ l →
  ∃ ep', ep' ∈ l' ∧ same_launch ep ep'.
Proof.
  revert l'. induction l as [|e l IH]; [done|]. simpl. intros l'.
  destruct (pid e =? pid s).
  - intros [= <-] [->|Hin]%elem_of_cons.
    + eexists. split; [apply list_elem_of_here|]. by repeat split.
    + exists ep. split; [by apply list_elem_of_further|]. by repeat split.
  - destruct (update_running s l) as [rest'|]; [|done].
    intros [= <-] [->|Hin]%elem_of_cons.
    + exists e. split; [apply list_elem_of_here|]. by repeat split.
    + destruct (IH rest' eq_refl Hin) as (ep' & Hin' & Hsame).
      exists ep'. split; [by apply list_elem_of_further|done].
Qed.

Lemma reap_keeps_running now l ep :
  ep ∈ l → isRunning ep = true → ep ∈ reap now l.
Proof.
  intros Hin Hrun. induction l as [|e l IH]; [by apply elem_of_nil in Hin|].
  simpl. apply elem_of_cons in Hin as [->|Hin].
  - unfold expired. rewrite Hrun. simpl. apply list_elem_of_here.
  - destruct (expired now e); [auto|]. apply list_elem_of_further. auto.
Qed.

Lemma update_keeps_running now state l ep :
  ep ∈ l → isRunning ep = true →
  ∃ ep', ep' ∈ VixToolsUpdateExitedProgramList now state l
         ∧ same_launch ep ep'.
Proof.
  intros Hin Hrun. unfold VixToolsUpdateExitedProgramList.
  assert (Hsame : same_launch ep ep) by by repeat split.
  destruct state as [s|].
  - destruct (negb (isRunning s)).
    + destruct (update_running s l) as [l'|] eqn:Hupd.
      * destruct (update_running_keeps s l l' ep Hupd Hin)
          as (ep' & Hin' & Hsame').
        exists ep'. split; [|done]. apply reap_keeps_running; [done|].
        destruct Hsame' as (_ & _ & _ & _ & ->). done.
      * exists ep. split; [|done].
        apply elem_of_app. left. by apply reap_keeps_running.
    + exists ep. split; [|done].
      apply elem_of_app. left. by apply reap_keeps_running.
  - exists ep. split; [|done]. by apply reap_keeps_running.
Qed.

Lemma run_ops_keeps_running ops : ∀ l ep,
  ep ∈ l → isRunning ep = true →
  ∃ ep', ep' ∈ run_ops ops l ∧ same_launch ep ep'.
Proof.
  induction ops as [|op ops IH]; intros l ep Hin Hrun.
  - exists ep. split; [done|]. by repeat split.
  - assert (∃ ep1, ep1 ∈ apply_op op l ∧ same_launch ep ep1)
      as (ep1 & Hin1 & Hsame1).
    { destruct op; simpl; by apply update_keeps_running. }
    destruct Hsame1 as (H1 & H2 & H3 & H4 & H5).
    destruct (IH (apply_op op l) ep1 Hin1) as (ep' & Hin' & Hsame').
    { congruence. }
    exists ep'. split; [done|].
    destruct Hsame' as (K1 & K2 & K3 & K4 & K5).
    unfold same_launch. repeat split; congruence.
Qed.

End RegistrySweeps.

(** X1.  A sweep of the registry (the update called with NULL, as
    [VixToolsListProcessesEx] does) makes an earlier sweep redundant: when
    the clock has not gone back, sweeping at [now] and then at [now'] leaves
    the list that one sweep at [now'] leaves.  In particular a sweep
    repeated at the same time changes nothing. *)
Theorem sweep_absorbs_earlier_sweep (now now' : Z)
    (epList : list Registry.VixToolsExitedProgramState) :
  (now ≤ now')%Z →
  Registry.VixToolsUpdateExitedProgramList now' None
    (Registry.VixToolsUpdateExitedProgramList now None epList)
  = Registry.VixToolsUpdateExitedProgramList now' None epList.
Proof.
  intros Hle. unfold Registry.VixToolsUpdateExitedProgramList.
  by apply reap_reap.
Qed.

(** The theorem at a list with a running entry and two terminal ones. *)
Lemma sweep_absorbs_earlier_sweep_witness :
  (10000 ≤ 10001)%Z
  ∧ Registry.VixToolsUpdateExitedProgramList 10001 None
      (Registry.VixToolsUpdateExitedProgramList 10000 None
         [running_entry 5; terminal_entry 9699; terminal_entry 9701])
    = [running_entry 5; terminal_entry 9701].
Proof.
  split; [lia|].
  rewrite (sweep_absorbs_earlier_sweep 10000 10001); [reflexivity|lia].
Defined.

(** X2.  The lookup after a launch was recorded: for the pid of the launch
    it gives the entry the swept list already had for that pid, when there
    is one (a reused pid finds the older entry), and the new running record
    otherwise; for any other pid it gives what the swept list gives. *)
Theorem lookup_after_launch (programPath : string) (launched start now : Z)
    (epList : list Registry.VixToolsExitedProgramState) (p : Z) :
  Registry.VixToolsFindExitedProgramState p
    (Registry.apply_op
       (Registry.RecordRunning programPath launched start now) epList)
  = match Registry.VixToolsFindExitedProgramState p
            (Registry.reap now epList) with
    | Some ep => Some ep
    | None =>
        if (Registry.to_uint64 launched =? p)%Z
        then Some (Registry.running_record programPath launched start)
        else None
    end.
Proof.
  simpl. unfold Registry.VixToolsUpdateExitedProgramList. simpl.
  by rewrite find_app.
Qed.

(** X3.  The exit of a program whose running entry the lookup finds is
    written into that entry: afterwards the lookup gives the same name,
    user and start time with the exit code and end time of the report, and
    the entry is still flagged as running. *)
Theorem exit_is_recorded_in_the_launch_entry (p code ended now : Z)
    (epList : list Registry.VixToolsExitedProgramState)
    (r : Registry.VixToolsExitedProgramState) :
  Registry.VixToolsFindExitedProgramState (Registry.to_uint64 p) epList
  = Some r →
  Registry.isRunning r = true →
  Registry.VixToolsFindExitedProgramState (Registry.to_uint64 p)
    (Registry.apply_op (Registry.RecordExit p code ended now) epList)
  = Some {| Registry.name := Registry.name r;
            Registry.user := Registry.user r;
            Registry.pid := Registry.to_uint64 p;
            Registry.startTime := Registry.startTime r;
            Registry.exitCode := code;
            Registry.endTime := ended;
            Registry.isRunning := true |}.
Proof.
  intros Hfind Hrun.
  pose proof (update_in_place_find (Registry.exit_record p code ended) now
                epList r eq_refl Hfind Hrun) as Hupd.
  unfold Registry.apply_op.
  change (Registry.pid (Registry.exit_record p code ended))
    with (Registry.to_uint64 p) in Hupd.
  rewrite Hupd. simpl. do 2 f_equal.
  clear Hrun Hupd. induction epList as [|ep l IH]; [done|].
  simpl in Hfind. destruct (Registry.pid ep =? Registry.to_uint64 p)%Z eqn:E.
  - injection Hfind as <-. by apply Z.eqb_eq.
  - auto.
Qed.

(** The theorem at the exit of process 42, whose running entry is in the
    list. *)
Lemma exit_is_recorded_in_the_launch_entry_witness :
  Registry.VixToolsFindExitedProgramState (Registry.to_uint64 42)
    (Registry.apply_op (Registry.RecordExit 42 3 1010 1011)
       [terminal_entry 1000; running_entry 1001])
  = Some {| Registry.name := Some "/bin/sleep"%string;
            Registry.user := Some "XXX TBD XXX"%string;
            Registry.pid := 42;
            Registry.startTime := 1001;
            Registry.exitCode := 3;
            Registry.endTime := 1010;
            Registry.isRunning := true |}.
Proof.
  apply (exit_is_recorded_in_the_launch_entry 42 3 1010 1011
           [terminal_entry 1000; running_entry 1001] (running_entry 1001));
    reflexivity.
Defined.

(** X4.  No sequence of launches and exits removes an entry that is flagged
    as running, and none clears the flag: the list always holds an entry
    with its pid, name, user and start time that is flagged as running. *)
Theorem running_entry_is_never_removed (ops : list Registry.RegistryOp)
    (epList : list Registry.VixToolsExitedProgramState)
    (ep : Registry.VixToolsExitedProgramState) :
  ep ∈ epList →
  Registry.isRunning ep = true →
  ∃ ep', ep' ∈ Registry.run_ops ops epList
    ∧ Registry.pid ep' = Registry.pid ep
    ∧ Registry.name ep' = Registry.name ep
    ∧ Registry.user ep' = Registry.user ep
    ∧ Registry.startTime ep' = Registry.startTime ep
    ∧ Registry.isRunning ep' = true.
Proof.
  intros Hin Hrun.
  destruct (run_ops_keeps_running ops epList ep Hin Hrun)
    as (ep' & Hin' & H1 & H2 & H3 & H4 & H5).
  exists ep'. repeat split; congruence.
Qed.

(** The theorem at a running entry of pid 42 and a launch, an exit and a
    second launch of pid 7. *)
Lemma running_entry_is_never_removed_witness :
  ∃ ep', ep' ∈ Registry.run_ops pid_reuse_ops [running_entry 5]
    ∧ Registry.pid ep' = 42%Z
    ∧ Registry.name ep' = Some "/bin/sleep"%string
    ∧ Registry.user ep' = Some "XXX TBD XXX"%string
    ∧ Registry.startTime ep' = 5%Z
    ∧ Registry.isRunning ep' = true.
Proof.
  apply (running_entry_is_never_removed pid_reuse_ops [running_entry 5]
           (running_entry 5)); [apply list_elem_of_here | reflexivity].
Defined.

(** ** The environment table: entries and the initial environment *)

Section EnvironmentFacts.

Lemma split_name_value_entry n v :
  no_equals n = true →
  Env.split_name_value (Env.VixToolsEnvironmentTableEntryToEnvpEntry n v)
  = Some (n, v).
Proof.
  unfold Env.VixToolsEnvironmentTableEntryToEnvpEntry.
  induction n as [|c n IH]; simpl; [done|].
  intros [Hc Hn]%andb_true_iff. apply negb_true_iff in Hc.
  by rewrite Hc, (IH Hn).
Qed.

Lemma split_name_value_inv s : ∀ n v,
  Env.split_name_value s = Some (n, v) →
  s = Env.VixToolsEnvironmentTableEntryToEnvpEntry n v
  ∧ no_equals n = true.
Proof.
  unfold Env.VixToolsEnvironmentTableEntryToEnvpEntry.
  induction s as [|c s IH]; simpl; [done|]. intros n v.
  destruct (Ascii.eqb c "=") eqn:Hc.
  - intros [= <- <-]. apply Ascii.eqb_eq in Hc as ->. done.
  - destruct (Env.split_name_value s) as [[n' v']|]; [|done].
    intros [= <- <-]. destruct (IH n' v' eq_refl) as [-> Hn'].
    simpl. by rewrite Hc, Hn'.
Qed.

Lemma entries_of_split entries :
  List.map (fun kv => Env.VixToolsEnvironmentTableEntryToEnvpEntry kv.1 kv.2)
    (omap Env.split_name_value entries)
  = name_value_entries entries.
Proof.
  induction entries as [|e es IH]; [done|]. simpl.
  destruct (Env.split_name_value e) as [[n v]|] eqn:He; simpl.
  - f_equal; [|exact IH]. by destruct (split_name_value_inv e n v He) as [-> _].
  - done.
Qed.

Variable insert :
  gmap string string → string → string → gmap string string.
Hypothesis insert_fresh :
  ∀ table k v, table !! k = None → insert table k v = <[k:=v]> table.

Lemma load_envp_entries entries : ∀ table,
  NoDup (envp_names entries) →
  (∀ n, n ∈ envp_names entries → table !! n = None) →
  map_to_list (Env.load_envp insert entries table)
  ≡ₚ map_to_list table ++ omap Env.split_name_value entries.
Proof.
  induction entries as [|e es IH]; intros table Hnodup Hfresh.
  - simpl. by rewrite app_nil_r.
  - simpl. unfold envp_names in Hnodup, Hfresh. simpl in Hnodup, Hfresh.
    destruct (Env.split_name_value e) as [[n v]|]; simpl in *.
    + apply NoDup_cons in Hnodup as [Hn Hnodup].
      assert (Hnone : table !! n = None).
      { apply Hfresh, elem_of_cons. by left. }
      rewrite (insert_fresh table n v Hnone).
      rewrite IH; [|done|].
      * rewrite (map_to_list_insert table n v Hnone). simpl.
        by rewrite <- Permutation_middle.
      * intros m Hm. rewrite lookup_insert_ne.
        -- apply Hfresh, elem_of_cons. by right.
        -- intros ->. done.
    + by apply IH.
Qed.

End EnvironmentFacts.

(** X5.  Splitting and printing an entry of the environment are inverse to
    each other: a string splits into a name and a value exactly when it is
    the entry printed for them and the name holds no '='. *)
Theorem environment_entry_round_trip (entry n v : string) :
  Env.split_name_value entry = Some (n, v)
  ↔ entry = Env.VixToolsEnvironmentTableEntryToEnvpEntry n v
    ∧ no_equals n = true.
Proof.
  split.
  - apply split_name_value_inv.
  - intros [-> Hn]. by apply split_name_value_entry.
Qed.

(** X6.  The environment given to [VixTools_Initialize] comes back as the
    environment of the private table: when the names of its strings are
    distinct (and the hash table's insertion stores a name it does not hold
    yet), the strings printed from the table are, in some order, the strings
    of the list that have a '='; the others are dropped. *)
Theorem initial_environment_is_replayed
    (insert : gmap string string → string → string → gmap string string)
    (thisProcessRunsAsRootParam reportProgramDoneProcParam : bool)
    (entries : list string) (a : Agent) :
  (∀ table k v, table !! k = None → insert table k v = <[k:=v]> table) →
  NoDup (envp_names entries) →
  ∃ envp,
    Env.VixToolsEnvironmentTableToEnvp
      (userEnvironmentTable
         (VixTools_Initialize insert thisProcessRunsAsRootParam
            (Some entries) reportProgramDoneProcParam a).2) = Some envp
    ∧ envp ≡ₚ name_value_entries entries.
Proof.
  intros Hinsert Hnodup. eexists. split; [reflexivity|].
  rewrite <- entries_of_split.
  apply Permutation_map.
  rewrite (load_envp_entries insert Hinsert entries ∅ Hnodup).
  - by rewrite map_to_list_empty.
  - intros n _. apply lookup_empty.
Qed.

(** The theorem at a list of two variables and a string without '='. *)
Lemma initial_environment_is_replayed_witness :
  ∃ envp,
    Env.VixToolsEnvironmentTableToEnvp
      (userEnvironmentTable
         (VixTools_Initialize (fun table k v => <[k:=v]> table) true
            (Some ["PATH=/usr/bin"; "malformed"; "HOME=/root"]) false
            initial_agent).2) = Some envp
    ∧ envp ≡ₚ ["PATH=/usr/bin"; "HOME=/root"].
Proof.
  apply (initial_environment_is_replayed (fun table k v => <[k:=v]> table)
           true false ["PATH=/usr/bin"; "malformed"; "HOME=/root"]
           initial_agent).
  - reflexivity.
  - apply (bool_decide_unpack _). vm_compute. exact I.
Defined.

(** ** The gate: credentials without a password *)

(** X7.  A request whose credential kind is neither of the two
    name-and-password kinds passes the gate without any call of the Auth or
    impersonation libraries and without any other effect; the token it
    leaves is NULL or the process-creator constant, and the status is
    [VIX_OK] exactly when it is that constant. *)
Theorem no_authentication_without_password (os : GuestOS)
    (requestMsg : VixCommandRequestHeader) (a : Agent) :
  userCredentialType requestMsg ≠ VIX_USER_CREDENTIAL_NAME_PASSWORD →
  userCredentialType requestMsg
  ≠ VIX_USER_CREDENTIAL_NAME_PASSWORD_OBFUSCATED →
  ∃ err userToken,
    VixToolsImpersonateUser os requestMsg a = ((err, userToken), a)
    ∧ (userToken = NULL_TOKEN ∨ userToken = PROCESS_CREATOR_USER_TOKEN)
    ∧ (err = VIX_OK ↔ userToken = PROCESS_CREATOR_USER_TOKEN).
Proof.
  intros Hnp Hobf.
  unfold VixToolsImpersonateUser, VixToolsImpersonateUserImplEx.
  unfold mbind, M_bind, get_agent, mret, M_ret.
  destruct (userCredentialType requestMsg); try done; simpl;
    destruct (thisProcessRunsAsRoot a), (allowConsoleUserOps a); simpl;
    repeat case_match; try case_bool_decide;
    (do 2 eexists; split; [reflexivity|]; split; [auto|]; split; congruence).
Qed.

(** The theorem at a request of the console user. *)
Lemma no_authentication_without_password_witness :
  ∃ err userToken,
    VixToolsImpersonateUser sample_os kill_self_console_user initial_agent
    = ((err, userToken), initial_agent)
    ∧ (userToken = NULL_TOKEN ∨ userToken = PROCESS_CREATOR_USER_TOKEN)
    ∧ (err = VIX_OK ↔ userToken = PROCESS_CREATOR_USER_TOKEN).
Proof.
  apply (no_authentication_without_password sample_os kill_self_console_user
           initial_agent); discriminate.
Defined.

(** X8.  After [VixTools_Initialize] and [VixTools_SetConsoleUserPolicy],
    the root credential is honoured exactly when the agent was initialized
    as running as root, and the console-user credential exactly when the
    policy allows it or the agent does not run as root; a credential that
    is not honoured is answered [VIX_E_NOT_SUPPORTED].  Neither changes the
    agent. *)
Theorem root_and_console_user_policy (os : GuestOS)
    (insert : gmap string string → string → string → gmap string string)
    (thisProcessRunsAsRootParam reportProgramDoneProcParam : bool)
    (originalEnvp : option (list string)) (allowConsoleUserOpsParam : bool)
    (requestMsg : VixCommandRequestHeader) (a : Agent) :
  let configured :=
    (VixTools_SetConsoleUserPolicy allowConsoleUserOpsParam
       (VixTools_Initialize insert thisProcessRunsAsRootParam originalEnvp
          reportProgramDoneProcParam a).2).2 in
  (userCredentialType requestMsg = VIX_USER_CREDENTIAL_ROOT →
   VixToolsImpersonateUser os requestMsg configured
   = (if thisProcessRunsAsRootParam
      then (VIX_OK, PROCESS_CREATOR_USER_TOKEN)
      else (VIX_E_NOT_SUPPORTED, NULL_TOKEN), configured))
  ∧ (userCredentialType requestMsg = VIX_USER_CREDENTIAL_CONSOLE_USER →
     VixToolsImpersonateUser os requestMsg configured
     = (if allowConsoleUserOpsParam || negb thisProcessRunsAsRootParam
        then (VIX_OK, PROCESS_CREATOR_USER_TOKEN)
        else (VIX_E_NOT_SUPPORTED, NULL_TOKEN), configured)).
Proof.
  intros configured.
  assert (Hroot : thisProcessRunsAsRoot configured
                  = thisProcessRunsAsRootParam).
  { subst configured. by destruct originalEnvp. }
  assert (Hallow : allowConsoleUserOps configured = allowConsoleUserOpsParam).
  { subst configured. by destruct originalEnvp. }
  clearbody configured.
  unfold VixToolsImpersonateUser, VixToolsImpersonateUserImplEx.
  unfold mbind, M_bind, get_agent, mret, M_ret.
  split; intros ->; simpl; rewrite Hroot, ?Hallow;
    by destruct thisProcessRunsAsRootParam, allowConsoleUserOpsParam.
Qed.

(** The theorem at a root agent that forbids console-user operations. *)
Lemma root_and_console_user_policy_witness :
  userCredentialType kill_self_console_user
  = VIX_USER_CREDENTIAL_CONSOLE_USER
  ∧ (VixToolsImpersonateUser sample_os kill_self_console_user
       (VixTools_SetConsoleUserPolicy false
          (VixTools_Initialize (fun table k v => <[k:=v]> table) true None
             false initial_agent).2).2).1
    = (VIX_E_NOT_SUPPORTED, NULL_TOKEN).
Proof.
  split; [reflexivity|].
  rewrite (proj2 (root_and_console_user_policy sample_os
                    (fun table k v => <[k:=v]> table) true false None false
                    kill_self_console_user initial_agent) eq_refl).
  reflexivity.
Defined.

(** ** Killing another process *)

(** X9.  A kill request for a process that is not the agent's own (not its
    pid, not 0, not -1, not minus its process group) calls
    [ProcMgr_KillByPid] exactly once, with the requested pid, when the gate
    admits the user, and returns [VIX_OK] when the call succeeds and the
    translated system error when it fails; when the gate refuses, nothing
    is killed and the gate's error is returned. *)
Theorem kill_of_another_process (os : GuestOS)
    (requestMsg : VixCommandRequestHeader) (a : Agent) :
  kp_pid (killProcessRequest requestMsg) ≠ getpid os →
  kp_pid (killProcessRequest requestMsg) ≠ 0%Z →
  kp_pid (killProcessRequest requestMsg) ≠ (-1)%Z →
  ((kp_pid (killProcessRequest requestMsg) < -1)%Z →
   getpgrp os ≠ (- kp_pid (killProcessRequest requestMsg))%Z) →
  ∃ events,
    trace (VixToolsKillProcess os requestMsg a).2 = trace a ++ events
    ∧ if bool_decide ((VixToolsImpersonateUser os requestMsg a).1.1 = VIX_OK)
      then
        List.filter is_kill events
        = [EvKillByPid (kp_pid (killProcessRequest requestMsg))
             (ProcMgr_KillByPid os (kp_pid (killProcessRequest requestMsg)))]
        ∧ (VixToolsKillProcess os requestMsg a).1
          = (if ProcMgr_KillByPid os (kp_pid (killProcessRequest requestMsg))
             then VIX_OK else FoundryToolsDaemon_TranslateSystemErr os)
      else
        List.filter is_kill events = []
        ∧ (VixToolsKillProcess os requestMsg a).1
          = (VixToolsImpersonateUser os requestMsg a).1.1.
Proof.
  intros Hpid H0 H1 Hgrp.
  assert (Hself : VixToolsPidRefersToThisProcess os
                    (kp_pid (killProcessRequest requestMsg)) = false).
  { unfold VixToolsPidRefersToThisProcess.
    rewrite !orb_false_iff, andb_false_iff, Z.ltb_ge, !Z.eqb_neq.
    split; [split; [split|]|]; try congruence.
    destruct (Z.lt_ge_cases (kp_pid (killProcessRequest requestMsg)) (-1));
      [right; specialize (Hgrp H); lia | by left]. }
  destruct (VixToolsImpersonateUser_outcome os requestMsg a)
    as (err & tok & gate & Hgate & Hout).
  unfold VixToolsKillProcess, mbind, M_bind. rewrite Hgate. simpl.
  rewrite Hself.
  destruct (bool_decide (err = VIX_OK)) eqn:Herr.
  - apply bool_decide_eq_true in Herr. subst err.
    assert (Hnone : List.filter is_kill gate = [])
      by (inversion Hout; reflexivity).
    destruct (ProcMgr_KillByPid os (kp_pid (killProcessRequest requestMsg)));
      unfold mret, M_ret; simpl; rewrite release_add_trace; simpl;
      (eexists; split; [rewrite <- !app_assoc; reflexivity|]);
      rewrite !List.filter_app, Hnone; simpl;
      (split; [|reflexivity]); by destruct tok.
  - unfold mret, M_ret. rewrite release_add_trace. simpl.
    eexists. split; [rewrite <- !app_assoc; reflexivity|].
    split; [|reflexivity]. rewrite List.filter_app.
    assert (Hnone : List.filter is_kill gate = [])
      by (inversion Hout; reflexivity).
    rewrite Hnone. by destruct tok.
Qed.

(** The theorem at a kill of process 7 by the console user. *)
Lemma kill_of_another_process_witness :
  ∃ events,
    trace (VixToolsKillProcess sample_os kill_process_7 initial_agent).2
    = [] ++ events
    ∧ List.filter is_kill events = [EvKillByPid 7 true]
    ∧ (VixToolsKillProcess sample_os kill_process_7 initial_agent).1 = VIX_OK.
Proof.
  apply (kill_of_another_process sample_os kill_process_7 initial_agent);
    [discriminate | discriminate | discriminate | intros H; discriminate H].
Defined.

(** ** The launchers: command lines, success and what is left behind *)

Section CommandLineFacts.

Lemma until_dquote_app p rest :
  no_dquote p = true → until_dquote (p ++ String dquote rest) = p.
Proof.
  induction p as [|c p IH]; simpl; [done|].
  intros [Hc Hp]%andb_true_iff. apply negb_true_iff in Hc.
  by rewrite Hc, (IH Hp).
Qed.

Lemma skip_spaces_no_dquote p :
  no_dquote p = true → no_dquote (skip_spaces p) = true.
Proof.
  induction p as [|c p IH]; simpl; [done|].
  intros Hp. destruct (Ascii.eqb c " "); [|done].
  apply andb_true_iff in Hp as [_ Hp]. auto.
Qed.

End CommandLineFacts.

(** X10.  For a program path without a double quote, the command line the
    launchers build ('"path" arguments') names that path under the
    launchers' own reading of a command line, and the file the launchers
    test before the launch is the path without its leading spaces. *)
Theorem quoted_command_line_names_the_program (program : string)
    (arguments : option string) :
  no_dquote program = true →
  program_file_name (full_command_line program arguments) = program
  ∧ program_file_name program = skip_spaces program.
Proof.
  intros Hp. split.
  - unfold program_file_name, full_command_line.
    destruct arguments; simpl; by apply until_dquote_app.
  - unfold program_file_name.
    pose proof (skip_spaces_no_dquote program Hp) as Hs.
    destruct (skip_spaces program) as [|c s]; [done|].
    simpl in Hs. apply andb_true_iff in Hs as [Hc _].
    apply negb_true_iff in Hc. by rewrite Hc.
Qed.

(** The theorem at a path that starts with a space. *)
Lemma quoted_command_line_names_the_program_witness :
  no_dquote " /bin/ls" = true
  ∧ program_file_name (full_command_line " /bin/ls" (Some "-l")) = " /bin/ls"
  ∧ program_file_name " /bin/ls" = "/bin/ls".
Proof.
  split; [reflexivity|].
  apply (quoted_command_line_names_the_program " /bin/ls" (Some "-l")).
  reflexivity.
Defined.

(** X11.  A launch request with an empty program path is answered
    [VIX_E_INVALID_ARG] before the gate is tried: the agent is left as it
    was, trace included.  The text returned with the error is "-1" for a
    tracked launch; for a fire-and-report launch it is printed from the
    local [pid], which has no value at that point. *)
Theorem empty_program_path_is_refused_before_the_gate (os : GuestOS)
    (requestMsg : VixCommandRequestHeader) (requestName : string)
    (a : Agent) :
  (rp_commandLine (runProgramRequest requestMsg) = EmptyString →
   VixTools_RunProgram os requestMsg requestName a
   = ((VIX_E_INVALID_ARG, format_int64 (indeterminate_int64 os)), a))
  ∧ (sp_programPath (startProgramRequest requestMsg) = EmptyString →
     VixTools_StartProgram os requestMsg requestName a
     = ((VIX_E_INVALID_ARG, "-1"), a)).
Proof.
  split; intros Hempty.
  - unfold VixTools_RunProgram, mbind, M_bind. by rewrite Hempty.
  - unfold VixTools_StartProgram, mbind, M_bind. by rewrite Hempty.
Qed.

(** The theorem at a fire-and-report launch without a program. *)
Lemma empty_program_path_is_refused_before_the_gate_witness :
  rp_commandLine (runProgramRequest run_nothing) = EmptyString
  ∧ VixTools_RunProgram sample_os run_nothing "req" initial_agent
    = ((VIX_E_INVALID_ARG, "0"), initial_agent).
Proof.
  split; [reflexivity|].
  apply (proj1 (empty_program_path_is_refused_before_the_gate sample_os
                  run_nothing "req" initial_agent)).
  reflexivity.
Defined.

(** X12.  A fire-and-report launch, whatever its outcome, writes nothing to
    the registry of exited programs, leaves the private environment table
    as it is and does not read the clock. *)
Theorem fire_and_report_launch_leaves_no_record (os : GuestOS)
    (requestMsg : VixCommandRequestHeader) (requestName : string)
    (a : Agent) :
  exitedProcessList (VixTools_RunProgram os requestMsg requestName a).2
  = exitedProcessList a
  ∧ userEnvironmentTable (VixTools_RunProgram os requestMsg requestName a).2
    = userEnvironmentTable a
  ∧ tick (VixTools_RunProgram os requestMsg requestName a).2 = tick a.
Proof.
  unfold VixTools_RunProgram, mbind, M_bind.
  destruct (bool_decide (rp_commandLine (runProgramRequest requestMsg)
                         = EmptyString)); [done|].
  destruct (VixToolsImpersonateUser_outcome os requestMsg a)
    as (err & tok & gate & Hgate & Hout).
  rewrite Hgate. simpl.
  destruct (bool_decide (err = VIX_OK)).
  - unfold VixToolsRunProgramImpl, mbind, M_bind.
    destruct (File_Exists os _); simpl;
      [|unfold mret, M_ret; by rewrite release_add_trace].
    destruct (FileIO_Access_EXEC os _); simpl;
      [|unfold mret, M_ret; by rewrite release_add_trace].
    destruct (Str_Asprintf_fails os _); simpl;
      [unfold mret, M_ret; by rewrite release_add_trace|].
    destruct (ProcMgr_ExecAsync os _ _); simpl;
      unfold mret, M_ret; by rewrite release_add_trace.
  - unfold mret, M_ret. rewrite release_add_trace. simpl. done.
Qed.

Section LaunchSuccess.
Variable os : GuestOS.

Lemma VixTools_StartProgram_success requestMsg name a :
  (VixTools_StartProgram os requestMsg name a).1.1 = VIX_OK →
  ∃ procState,
    ProcMgr_ExecAsync os
      (full_command_line (sp_programPath (startProgramRequest requestMsg))
         (requested_arguments (startProgramRequest requestMsg)))
      {| workingDirectory :=
           requested_workingDir (startProgramRequest requestMsg);
         envp := requested_envVars (startProgramRequest requestMsg) |}
    = Some procState
    ∧ (VixTools_StartProgram os requestMsg name a).1.2
      = format_int64 (ProcMgr_GetPid os procState)
    ∧ timers (VixTools_StartProgram os requestMsg name a).2
      = timers a
        ++ [TimerMonitorStartProgram {| start_procState := procState |}]
    ∧ exitedProcessList (VixTools_StartProgram os requestMsg name a).2
      = Registry.reap (time os (S (tick a))) (exitedProcessList a)
        ++ [Registry.running_record
              (sp_programPath (startProgramRequest requestMsg))
              (ProcMgr_GetPid os procState) (time os (tick a))]
    ∧ tick (VixTools_StartProgram os requestMsg name a).2 = S (S (tick a)).
Proof.
  unfold requested_arguments, requested_workingDir, requested_envVars.
  unfold VixTools_StartProgram, mbind, M_bind.
  destruct (bool_decide (sp_programPath (startProgramRequest requestMsg)
                         = EmptyString)); [done|].
  destruct (VixToolsImpersonateUser_outcome os requestMsg a)
    as (err & tok & gate & Hgate & Hout).
  rewrite Hgate. simpl.
  destruct (bool_decide (err = VIX_OK)) eqn:Herr.
  2: { apply bool_decide_eq_false in Herr. unfold mret, M_ret.
       rewrite release_add_trace. simpl. done. }
  unfold VixToolsStartProgramImpl, mbind, M_bind.
  destruct (File_Exists os _); simpl;
    [|unfold mret, M_ret; by rewrite release_add_trace].
  destruct (FileIO_Access_EXEC os _); simpl;
    [|unfold mret, M_ret; by rewrite release_add_trace].
  match goal with
  | |- context [if ?c then mret (VIX_E_NOT_A_DIRECTORY, _) else _] =>
      destruct c; simpl;
      [unfold mret, M_ret; by rewrite release_add_trace|]
  end.
  destruct (Str_Asprintf_fails os _); simpl;
    [unfold mret, M_ret; by rewrite release_add_trace|].
  destruct (ProcMgr_ExecAsync os _ _) as [procState|]; simpl;
    [|unfold mret, M_ret; by rewrite release_add_trace].
  unfold mret, M_ret. rewrite release_add_trace. simpl.
  intros _. by exists procState.
Qed.

Lemma VixTools_RunProgram_success requestMsg name a :
  (VixTools_RunProgram os requestMsg name a).1.1 = VIX_OK →
  ∃ procState,
    ProcMgr_ExecAsync os
      (full_command_line (rp_commandLine (runProgramRequest requestMsg))
         (requested_commandLineArgs (runProgramRequest requestMsg)))
      {| workingDirectory := None;
         envp := Env.VixToolsEnvironmentTableToEnvp
                   (userEnvironmentTable a) |}
    = Some procState
    ∧ (VixTools_RunProgram os requestMsg name a).1.2
      = format_int64 (ProcMgr_GetPid os procState)
    ∧ timers (VixTools_RunProgram os requestMsg name a).2
      = timers a
        ++ [TimerMonitorAsyncProc
              {| runProgramOptions :=
                   rp_runProgramOptions (runProgramRequest requestMsg);
                 run_procState := procState;
                 tempScriptFilePath := None;
                 requestName := name |}]
    ∧ calls is_exec (trace (VixTools_RunProgram os requestMsg name a).2)
      = S (calls is_exec (trace a)).
Proof.
  unfold requested_commandLineArgs.
  unfold VixTools_RunProgram, mbind, M_bind.
  destruct (bool_decide (rp_commandLine (runProgramRequest requestMsg)
                         = EmptyString)); [done|].
  destruct (VixToolsImpersonateUser_outcome os requestMsg a)
    as (err & tok & gate & Hgate & Hout).
  rewrite Hgate. simpl.
  destruct (bool_decide (err = VIX_OK)) eqn:Herr.
  2: { apply bool_decide_eq_false in Herr. unfold mret, M_ret.
       rewrite release_add_trace. simpl. done. }
  unfold VixToolsRunProgramImpl, mbind, M_bind.
  destruct (File_Exists os _); simpl;
    [|unfold mret, M_ret; by rewrite release_add_trace].
  destruct (FileIO_Access_EXEC os _); simpl;
    [|unfold mret, M_ret; by rewrite release_add_trace].
  destruct (Str_Asprintf_fails os _); simpl;
    [unfold mret, M_ret; by rewrite release_add_trace|].
  destruct (ProcMgr_ExecAsync os _ _) as [procState|]; simpl;
    [|unfold mret, M_ret; by rewrite release_add_trace].
  unfold mret, M_ret. rewrite release_add_trace. simpl.
  intros _. exists procState. split_and!; try done.
  rewrite !calls_app, (gate_outcome_no_exec _ _ _ Hout),
    release_events_no_exec. unfold calls at 2. simpl. lia.
Qed.

End LaunchSuccess.

(** X13.  A fire-and-report launch that returns [VIX_OK] has created
    exactly one process, from the quoted command line of the request and
    with the environment of the private table; the text it returns is the
    pid of that process, and one monitor of the process, carrying the name
    and the options of the request, was added at the end of the timer
    queue. *)
Theorem fire_and_report_launch_started (os : GuestOS)
    (requestMsg : VixCommandRequestHeader) (requestName : string)
    (a : Agent) :
  (VixTools_RunProgram os requestMsg requestName a).1.1 = VIX_OK →
  ∃ procState,
    ProcMgr_ExecAsync os
      (full_command_line (rp_commandLine (runProgramRequest requestMsg))
         (requested_commandLineArgs (runProgramRequest requestMsg)))
      {| workingDirectory := None;
         envp := Env.VixToolsEnvironmentTableToEnvp
                   (userEnvironmentTable a) |}
    = Some procState
    ∧ (VixTools_RunProgram os requestMsg requestName a).1.2
      = format_int64 (ProcMgr_GetPid os procState)
    ∧ timers (VixTools_RunProgram os requestMsg requestName a).2
      = timers a
        ++ [TimerMonitorAsyncProc
              {| runProgramOptions :=
                   rp_runProgramOptions (runProgramRequest requestMsg);
                 run_procState := procState;
                 tempScriptFilePath := None;
                 requestName := requestName |}]
    ∧ calls is_exec
        (trace (VixTools_RunProgram os requestMsg requestName a).2)
      = S (calls is_exec (trace a)).
Proof. apply VixTools_RunProgram_success. Qed.

(** The theorem at the launch of /bin/true by the console user. *)
Lemma fire_and_report_launch_started_witness :
  ∃ procState,
    ProcMgr_ExecAsync sample_os
      (full_command_line (rp_commandLine (runProgramRequest run_true))
         (requested_commandLineArgs (runProgramRequest run_true)))
      {| workingDirectory := None;
         envp := Env.VixToolsEnvironmentTableToEnvp
                   (userEnvironmentTable initial_agent) |}
    = Some procState
    ∧ (VixTools_RunProgram sample_os run_true "req" initial_agent).1.2
      = format_int64 (ProcMgr_GetPid sample_os procState)
    ∧ timers (VixTools_RunProgram sample_os run_true "req" initial_agent).2
      = timers initial_agent
        ++ [TimerMonitorAsyncProc
              {| runProgramOptions :=
                   rp_runProgramOptions (runProgramRequest run_true);
                 run_procState := procState;
                 tempScriptFilePath := None;
                 requestName := "req" |}]
    ∧ calls is_exec
        (trace (VixTools_RunProgram sample_os run_true "req"
                  initial_agent).2)
      = S (calls is_exec (trace initial_agent)).
Proof.
  apply (fire_and_report_launch_started sample_os run_true "req"
           initial_agent).
  reflexivity.
Defined.



(** ** From the launch to the recorded exit *)

Lemma find_reap_None now p l :
  Registry.VixToolsFindExitedProgramState p l = None →
  Registry.VixToolsFindExitedProgramState p (Registry.reap now l) = None.
Proof.
  rewrite !find_None. intros Hnot Hin. by apply Hnot, (reap_pids_incl now).
Qed.

(** X15.  From the launch to the lookup: when a tracked launch returned
    [VIX_OK], its monitor is the only timer of the queue, the registry had
    no entry for the pid, and the process is found ended when the timer
    fires, the lookup of the pid afterwards gives one entry with the program
    path and the start time of the launch, the exit code that was retrieved
    (-1 when the retrieval failed) and the clock reading that followed as
    end time; the entry is still flagged as running. *)
Theorem tracked_launch_round_trip (os : GuestOS)
    (VIX_RUNPROGRAM_RETURN_IMMEDIATELY : Z)
    (requestMsg : VixCommandRequestHeader) (requestName : string)
    (a : Agent) (procState : ProcMgr_AsyncProc) (result code : Z) :
  (VixTools_StartProgram os requestMsg requestName a).1.1 = VIX_OK →
  timers (VixTools_StartProgram os requestMsg requestName a).2
  = [TimerMonitorStartProgram {| start_procState := procState |}] →
  Registry.VixToolsFindExitedProgramState
    (Registry.to_uint64 (ProcMgr_GetPid os procState))
    (exitedProcessList a) = None →
  ProcMgr_IsAsyncProcRunning os (S (S (tick a))) procState = false →
  ProcMgr_GetExitCode os (S (S (S (tick a)))) procState = (result, code) →
  Registry.VixToolsFindExitedProgramState
    (Registry.to_uint64 (ProcMgr_GetPid os procState))
    (exitedProcessList
       (g_main_context_iteration os VIX_RUNPROGRAM_RETURN_IMMEDIATELY
          (VixTools_StartProgram os requestMsg requestName a).2).2)
  = Some {| Registry.name :=
              Some (sp_programPath (startProgramRequest requestMsg));
            Registry.user := Some "XXX TBD XXX"%string;
            Registry.pid := Registry.to_uint64 (ProcMgr_GetPid os procState);
            Registry.startTime := time os (tick a);
            Registry.exitCode :=
              if bool_decide (0%Z ≠ result) then (-1)%Z else code;
            Registry.endTime := time os (S (S (S (S (tick a)))));
            Registry.isRunning := true |}.
Proof.
  intros Hok Htimers Hnone Hended Hcode.
  destruct (VixTools_StartProgram_success os requestMsg requestName a Hok)
    as (p & _ & _ & Hqueue & Hlist & Htick).
  assert (Hp : p = procState).
  { rewrite Hqueue in Htimers.
    destruct (timers a) as [|t [|t' ts]]; simpl in Htimers; congruence. }
  subst p. clear Hqueue.
  destruct (VixTools_StartProgram os requestMsg requestName a) as [res a1].
  simpl in *. destruct a1 as [l1 env1 root1 allow1 done1 q1 tick1 trace1].
  simpl in *. subst l1 q1 tick1.
  unfold g_main_context_iteration, mbind, M_bind. simpl.
  unfold VixToolsMonitorStartProgram, mbind, M_bind. simpl.
  rewrite Hended. simpl.
  unfold retrieve_exit_code, mbind, M_bind. simpl. rewrite Hcode. simpl.
  set (s := Registry.exit_record (ProcMgr_GetPid os procState)
              (if bool_decide (0%Z ≠ result) then (-1)%Z else code)
              (time os (S (S (S (S (tick a))))))).
  change (Registry.to_uint64 (ProcMgr_GetPid os procState))
    with (Registry.pid s).
  rewrite (update_in_place_find s _ _
             (Registry.running_record
                (sp_programPath (startProgramRequest requestMsg))
                (ProcMgr_GetPid os procState) (time os (tick a))));
    [done|done| |done].
  rewrite find_app, find_reap_None by done.
  simpl. by rewrite Z.eqb_refl.
Qed.

(** The theorem at the launch of /bin/true at tick 1: the process is seen
    ended at tick 3 and its exit status cannot be retrieved. *)
Lemma tracked_launch_round_trip_witness :
  Registry.VixToolsFindExitedProgramState 5001
    (exitedProcessList
       (g_main_context_iteration sample_os 1
          (VixTools_StartProgram sample_os start_true "req" (agent_at 1)).2).2)
  = Some {| Registry.name := Some "/bin/true"%string;
            Registry.user := Some "XXX TBD XXX"%string;
            Registry.pid := 5001;
            Registry.startTime := 1001;
            Registry.exitCode := -1;
            Registry.endTime := 1005;
            Registry.isRunning := true |}.
Proof.
  apply (tracked_launch_round_trip sample_os 1 start_true "req" (agent_at 1)
           1%Z 1%Z 17%Z); reflexivity.
Defined.

(** ** The timer queue: collection of ended programs, completion reports *)

Section QueueFacts.
Variable os : GuestOS.
Variable VIX_RUNPROGRAM_RETURN_IMMEDIATELY : Z.


Lemma run_callback_queue t b :
  tick b ≤ tick (run_callback os VIX_RUNPROGRAM_RETURN_IMMEDIATELY t b).2
  ∧ timers (run_callback os VIX_RUNPROGRAM_RETURN_IMMEDIATELY t b).2
    = timers b
      ++ (if ProcMgr_IsAsyncProcRunning os (tick b) (timer_procState t)
          then [t] else []).
Proof.
  destruct t as [st | st]; simpl;
    unfold VixToolsMonitorAsyncProc, VixToolsMonitorStartProgram,
      poll_running, retrieve_exit_code, mbind, M_bind, next_tick; simpl.
  - destruct (ProcMgr_IsAsyncProcRunning os (tick b) (run_procState st));
      simpl; [split; [lia|done]|].
    destruct (ProcMgr_GetExitCode os (S (tick b)) (run_procState st))
      as [result code]. simpl.
    unfold VixToolsFreeRunProgramState, when, mbind, M_bind. simpl.
    destruct (reportProgramDoneProc b && _), (tempScriptFilePath st);
      simpl; rewrite app_nil_r; (split; [lia|done]).
  - destruct (ProcMgr_IsAsyncProcRunning os (tick b) (start_procState st));
      simpl; [split; [lia|done]|].
    destruct (ProcMgr_GetExitCode os (S (tick b)) (start_procState st))
      as [result code]. simpl. rewrite app_nil_r. split; [lia|done].
Qed.

Lemma iteration_queue a t rest :
  timers a = t :: rest →
  tick a
  ≤ tick (g_main_context_iteration os VIX_RUNPROGRAM_RETURN_IMMEDIATELY a).2
  ∧ timers (g_main_context_iteration os VIX_RUNPROGRAM_RETURN_IMMEDIATELY
              a).2
    = rest
      ++ (if ProcMgr_IsAsyncProcRunning os (tick a) (timer_procState t)
          then [t] else []).
Proof.
  intros Hq.
  unfold g_main_context_iteration, mbind, M_bind, get_agent. simpl.
  rewrite Hq. simpl.
  apply (run_callback_queue t
           {| exitedProcessList := exitedProcessList a;
              userEnvironmentTable := userEnvironmentTable a;
              thisProcessRunsAsRoot := thisProcessRunsAsRoot a;
              allowConsoleUserOps := allowConsoleUserOps a;
              reportProgramDoneProc := reportProgramDoneProc a;
              timers := rest;
              tick := tick a;
              trace := trace a |}).
Qed.

Lemma loop_S n a :
  g_main_loop_run os VIX_RUNPROGRAM_RETURN_IMMEDIATELY (S n) a
  = g_main_loop_run os VIX_RUNPROGRAM_RETURN_IMMEDIATELY n
      (g_main_context_iteration os VIX_RUNPROGRAM_RETURN_IMMEDIATELY a).2.
Proof.
  simpl. unfold mbind, M_bind.
  by destruct (g_main_context_iteration os VIX_RUNPROGRAM_RETURN_IMMEDIATELY
                 a) as [[] a1].
Qed.

Lemma monitors_of_app p l1 l2 :
  monitors_of p (l1 ++ l2) = monitors_of p l1 + monitors_of p l2.
Proof. unfold monitors_of. by rewrite List.filter_app, length_app. Qed.

Lemma monitors_of_split p l :
  monitors_of p l = 1 →
  ∃ pre t post, l = pre ++ t :: post ∧ timer_procState t = p
    ∧ monitors_of p pre = 0 ∧ monitors_of p post = 0.
Proof.
  induction l as [|t l IH]; [done|].
  unfold monitors_of in *. simpl.
  destruct (timer_procState t =? p)%Z eqn:Ht; simpl.
  - intros [= Hl]. exists [], t, l. apply Z.eqb_eq in Ht. done.
  - intros Hl. destruct (IH Hl) as (pre & t' & post & -> & Ht' & Hpre & Hpost).
    exists (t :: pre), t', post. simpl. by rewrite Ht.
Qed.

Lemma ended_monitor_reaches_the_head p pre : ∀ a t post,
  timers a = pre ++ t :: post →
  timer_procState t = p →
  (∀ k, tick a ≤ k → ProcMgr_IsAsyncProcRunning os k p = false) →
  monitors_of p pre = 0 → monitors_of p post = 0 →
  monitors_of p
    (timers (g_main_loop_run os VIX_RUNPROGRAM_RETURN_IMMEDIATELY
               (S (length pre)) a).2) = 0.
Proof.
  induction pre as [|t0 pre IH]; intros a t post Hq Ht Hended Hpre Hpost.
  - rewrite loop_S. simpl.
    destruct (iteration_queue a t post Hq) as [_ ->].
    rewrite Ht, (Hended (tick a)) by lia. by rewrite app_nil_r.
  - rewrite loop_S.
    destruct (iteration_queue a t0 (pre ++ t :: post) Hq) as [Htick Hq1].
    rewrite <- app_assoc in Hq1. simpl in Hq1.
    change (t0 :: pre) with ([t0] ++ pre) in Hpre.
    rewrite monitors_of_app in Hpre.
    apply (IH _ t _ Hq1 Ht).
    + intros k Hk. apply Hended. lia.
    + lia.
    + rewrite monitors_of_app.
      destruct (ProcMgr_IsAsyncProcRunning os (tick a) (timer_procState t0));
        [lia | unfold monitors_of at 2; simpl; lia].
Qed.

End QueueFacts.

(** X16.  A program that has ended is collected within one round of the
    timer queue (all monitors poll with the same period, so their timers
    expire in the order of the queue): when the queue holds one monitor of
    the process and the process is not running from now on, then after some
    number of timer expirations, at most the length of the queue, the
    monitor is gone from the queue and the exit status of the process has
    been retrieved once more than before. *)
Theorem ended_program_is_collected (os : GuestOS)
    (VIX_RUNPROGRAM_RETURN_IMMEDIATELY : Z) (p : ProcMgr_AsyncProc)
    (a : Agent) :
  monitors_of p (timers a) = 1 →
  (∀ k, tick a ≤ k → ProcMgr_IsAsyncProcRunning os k p = false) →
  ∃ n, n ≤ length (timers a)
    ∧ monitors_of p
        (timers (g_main_loop_run os VIX_RUNPROGRAM_RETURN_IMMEDIATELY n a).2)
      = 0
    ∧ calls (is_exit_code_retrieval_of p)
        (trace (g_main_loop_run os VIX_RUNPROGRAM_RETURN_IMMEDIATELY n a).2)
      = S (calls (is_exit_code_retrieval_of p) (trace a)).
Proof.
  intros Hone Hended.
  destruct (monitors_of_split p (timers a) Hone)
    as (pre & t & post & Hq & Ht & Hpre & Hpost).
  exists (S (length pre)).
  pose proof (ended_monitor_reaches_the_head os
                VIX_RUNPROGRAM_RETURN_IMMEDIATELY p pre a t post Hq Ht Hended
                Hpre Hpost) as Hgone.
  pose proof (g_main_loop_run_conserves os VIX_RUNPROGRAM_RETURN_IMMEDIATELY
                p (S (length pre)) a) as Hcons.
  split_and!.
  - rewrite Hq, length_app. simpl. lia.
  - done.
  - lia.
Qed.

(** The theorem at the monitor of a tracked launch whose process has ended
    at tick 3. *)
Lemma ended_program_is_collected_witness :
  ∃ n, n ≤ 1
    ∧ monitors_of 1%Z
        (timers (g_main_loop_run sample_os 1 n
                   (agent_monitoring
                      (TimerMonitorStartProgram sample_start_state) 3)).2)
      = 0
    ∧ calls (is_exit_code_retrieval_of 1%Z)
        (trace (g_main_loop_run sample_os 1 n
                  (agent_monitoring
                     (TimerMonitorStartProgram sample_start_state) 3)).2)
      = 1.
Proof.
  apply (ended_program_is_collected sample_os 1 1%Z
           (agent_monitoring (TimerMonitorStartProgram sample_start_state)
              3)).
  - reflexivity.
  - intros k Hk. simpl in Hk. apply bool_decide_eq_false_2. lia.
Defined.

Section ReportFacts.
Variable os : GuestOS.
Variable VIX_RUNPROGRAM_RETURN_IMMEDIATELY : Z.

Local Ltac count_reports :=
  unfold calls, fire_and_report_monitors;
  rewrite ?List.filter_app, ?length_app; simpl; lia.

Lemma run_callback_reports t b :
  calls is_report
    (trace (run_callback os VIX_RUNPROGRAM_RETURN_IMMEDIATELY t b).2)
  + fire_and_report_monitors
      (timers (run_callback os VIX_RUNPROGRAM_RETURN_IMMEDIATELY t b).2)
  ≤ calls is_report (trace b) + fire_and_report_monitors (timers b)
    + (if is_fire_and_report_monitor t then 1 else 0)
  ∧ reportProgramDoneProc
      (run_callback os VIX_RUNPROGRAM_RETURN_IMMEDIATELY t b).2
    = reportProgramDoneProc b
  ∧ (reportProgramDoneProc b = false →
     calls is_report
       (trace (run_callback os VIX_RUNPROGRAM_RETURN_IMMEDIATELY t b).2)
     = calls is_report (trace b)).
Proof.
  destruct t as [st | st]; simpl;
    unfold VixToolsMonitorAsyncProc, VixToolsMonitorStartProgram,
      poll_running, retrieve_exit_code, mbind, M_bind, next_tick; simpl.
  - destruct (ProcMgr_IsAsyncProcRunning os (tick b) (run_procState st));
      simpl.
    + split_and!; [count_reports | done | intros _; count_reports].
    + destruct (ProcMgr_GetExitCode os (S (tick b)) (run_procState st))
        as [result code]. simpl.
      unfold VixToolsFreeRunProgramState, when, mbind, M_bind. simpl.
      destruct (reportProgramDoneProc b && _) eqn:Hc,
        (tempScriptFilePath st); simpl;
        (split_and!;
         [count_reports | done
         | intros Hoff; rewrite Hoff in Hc; try discriminate Hc;
           count_reports]).
  - destruct (ProcMgr_IsAsyncProcRunning os (tick b) (start_procState st));
      simpl.
    + split_and!; [count_reports | done | intros _; count_reports].
    + destruct (ProcMgr_GetExitCode os (S (tick b)) (start_procState st))
        as [result code]. simpl.
      split_and!; [count_reports | done | intros _; count_reports].
Qed.

Lemma iteration_reports a :
  calls is_report
    (trace (g_main_context_iteration os VIX_RUNPROGRAM_RETURN_IMMEDIATELY
              a).2)
  + fire_and_report_monitors
      (timers (g_main_context_iteration os VIX_RUNPROGRAM_RETURN_IMMEDIATELY
                 a).2)
  ≤ calls is_report (trace a) + fire_and_report_monitors (timers a)
  ∧ reportProgramDoneProc
      (g_main_context_iteration os VIX_RUNPROGRAM_RETURN_IMMEDIATELY a).2
    = reportProgramDoneProc a
  ∧ (reportProgramDoneProc a = false →
     calls is_report
       (trace (g_main_context_iteration os VIX_RUNPROGRAM_RETURN_IMMEDIATELY
                 a).2)
     = calls is_report (trace a)).
Proof.
  unfold g_main_context_iteration, mbind, M_bind, get_agent. simpl.
  destruct (timers a) as [|t rest] eqn:Hq; simpl.
  { rewrite Hq. done. }
  destruct (run_callback_reports t
              {| exitedProcessList := exitedProcessList a;
                 userEnvironmentTable := userEnvironmentTable a;
                 thisProcessRunsAsRoot := thisProcessRunsAsRoot a;
                 allowConsoleUserOps := allowConsoleUserOps a;
                 reportProgramDoneProc := reportProgramDoneProc a;
                 timers := rest;
                 tick := tick a;
                 trace := trace a |}) as (Hle & Hproc & Hnone).
  simpl in *. split_and!; [|done|done].
  unfold fire_and_report_monitors in *. simpl.
  destruct (is_fire_and_report_monitor t); simpl; lia.
Qed.

Lemma loop_reports n : ∀ a,
  calls is_report
    (trace (g_main_loop_run os VIX_RUNPROGRAM_RETURN_IMMEDIATELY n a).2)
  + fire_and_report_monitors
      (timers (g_main_loop_run os VIX_RUNPROGRAM_RETURN_IMMEDIATELY n a).2)
  ≤ calls is_report (trace a) + fire_and_report_monitors (timers a)
  ∧ (reportProgramDoneProc a = false →
     calls is_report
       (trace (g_main_loop_run os VIX_RUNPROGRAM_RETURN_IMMEDIATELY n a).2)
     = calls is_report (trace a)).
Proof.
  induction n as [|n IH]; intros a; [done|].
  rewrite loop_S.
  destruct (iteration_reports a) as (Hle & Hproc & Hnone).
  destruct (IH (g_main_context_iteration os VIX_RUNPROGRAM_RETURN_IMMEDIATELY
                  a).2) as [Hle' Hnone'].
  split; [lia|].
  intros Hoff. rewrite Hnone' by congruence. auto.
Qed.

End ReportFacts.

(** X17.  The completion callback is called at most once for each
    fire-and-report launch: over any number of timer expirations, the calls
    of the callback made so far plus the monitors of fire-and-report
    launches still in the queue never increase, so no monitor reports twice
    and the monitor of a tracked launch never reports.  When no callback is
    registered, none is called. *)
Theorem completion_reports_are_bounded (os : GuestOS)
    (VIX_RUNPROGRAM_RETURN_IMMEDIATELY : Z) (n : nat) (a : Agent) :
  calls is_report
    (trace (g_main_loop_run os VIX_RUNPROGRAM_RETURN_IMMEDIATELY n a).2)
  + fire_and_report_monitors
      (timers (g_main_loop_run os VIX_RUNPROGRAM_RETURN_IMMEDIATELY n a).2)
  ≤ calls is_report (trace a) + fire_and_report_monitors (timers a)
  ∧ (reportProgramDoneProc a = false →
     calls is_report
       (trace (g_main_loop_run os VIX_RUNPROGRAM_RETURN_IMMEDIATELY n a).2)
     = calls is_report (trace a)).
Proof. apply loop_reports. Qed.

(** The theorem at an agent whose callback was unregistered while the
    monitor of a fire-and-report launch was in the queue. *)
Lemma completion_reports_are_bounded_witness :
  reportProgramDoneProc
    (VixTools_SetRunProgramCallback false
       (agent_monitoring (TimerMonitorAsyncProc sample_run_state) 3)).2
  = false
  ∧ calls is_report
      (trace (g_main_loop_run sample_os 1 5
                (VixTools_SetRunProgramCallback false
                   (agent_monitoring (TimerMonitorAsyncProc sample_run_state)
                      3)).2).2)
    = 0.
Proof.
  split; [reflexivity|].
  rewrite (proj2 (completion_reports_are_bounded sample_os 1 5
                    (VixTools_SetRunProgramCallback false
                       (agent_monitoring
                          (TimerMonitorAsyncProc sample_run_state) 3)).2)
             eq_refl).
  reflexivity.
Defined.

(** ** Guest variables and the private table *)

Section VariableFacts.
Variable os : GuestOS.
Variable env : GuestEnvironment.
Variable VIX_GUEST_ENVIRONMENT_VARIABLE : Z.

(** What [VixToolsWriteVariable] does to the private table: on success the
    variable is stored, when there is a table; otherwise the table is left
    alone. *)
Lemma VixToolsWriteVariable_table requestMsg writeRequest a :
  FoundryToolsDaemon_TranslateSystemErr os ≠ VIX_OK →
  userEnvironmentTable
    (GuestVar.VixToolsWriteVariable os env VIX_GUEST_ENVIRONMENT_VARIABLE
       requestMsg writeRequest a).2
  = if bool_decide
         ((GuestVar.VixToolsWriteVariable os env
             VIX_GUEST_ENVIRONMENT_VARIABLE requestMsg writeRequest a).1
          = VIX_OK)
    then (λ table,
            <[(VixMsg_ParseWriteVariableRequest env writeRequest).1.2
              := (VixMsg_ParseWriteVariableRequest env writeRequest).2]>
              table) <$> userEnvironmentTable a
    else userEnvironmentTable a.
Proof.
  intros Hsys. unfold GuestVar.VixToolsWriteVariable.
  destruct (VixMsg_ParseWriteVariableRequest env writeRequest)
    as [[perr valueName] value]. simpl.
  unfold mbind, M_bind.
  destruct (bool_decide (perr = VIX_OK)) eqn:Hperr; simpl.
  2: { apply bool_decide_eq_false in Hperr.
       by rewrite bool_decide_eq_false_2. }
  destruct (VixToolsImpersonateUser_outcome os requestMsg a)
    as (err & tok & gate & Hgate & Hout).
  rewrite Hgate. simpl.
  destruct (bool_decide (err = VIX_OK)) eqn:Herr; simpl.
  2: { apply bool_decide_eq_false in Herr.
       unfold mret, M_ret. rewrite release_add_trace. simpl.
       by rewrite bool_decide_eq_false_2. }
  apply bool_decide_eq_true in Herr. subst err.
  destruct (wv_variableType writeRequest =? VIX_GUEST_ENVIRONMENT_VARIABLE)%Z;
    simpl.
  2: { unfold mret, M_ret. rewrite release_add_trace. by simpl. }
  destruct (Util_HasAdminPriv env (tick a) =? 1)%Z; simpl.
  2: { unfold mret, M_ret. rewrite release_add_trace. by simpl. }
  destruct (System_SetEnv env (S (tick a)) valueName value =? 0)%Z; simpl.
  2: { unfold mret, M_ret. rewrite release_add_trace. simpl.
       by rewrite bool_decide_eq_false_2. }
  destruct (userEnvironmentTable a); simpl;
    unfold mret, M_ret; rewrite release_add_trace; by simpl.
Qed.


Lemma VixToolsReadVariable_table requestMsg readRequest b table :
  userEnvironmentTable b = Some table →
  (VixToolsImpersonateUser os requestMsg b).1.1 = VIX_OK →
  rv_variableType readRequest = VIX_GUEST_ENVIRONMENT_VARIABLE →
  (GuestVar.VixToolsReadVariable os env VIX_GUEST_ENVIRONMENT_VARIABLE
     requestMsg readRequest b).1
  = (VIX_OK, Some (default EmptyString (table !! rv_name readRequest)))
  ∧ tick (GuestVar.VixToolsReadVariable os env
            VIX_GUEST_ENVIRONMENT_VARIABLE requestMsg readRequest b).2
    = tick b.
Proof.
  intros Htable Hok Htype.
  destruct (VixToolsImpersonateUser_outcome os requestMsg b)
    as (err & tok & gate & Hgate & Hout).
  rewrite Hgate in Hok. simpl in Hok. subst err.
  unfold GuestVar.VixToolsReadVariable, mbind, M_bind.
  rewrite Hgate. simpl. rewrite Htype, Z.eqb_refl. simpl. rewrite Htable.
  destruct (table !! rv_name readRequest); simpl;
    unfold mret, M_ret; rewrite release_add_trace; by simpl.
Qed.

End VariableFacts.

(** X19.  What was written is read back: after a write of an environment
    variable that returned [VIX_OK], in an agent that keeps a private
    table, a read of that variable (by a user the gate admits) returns the
    value written, and a read of any other variable returns what the table
    held for it before, or the empty text.  (The system error the agent
    reports is assumed not to be [VIX_OK].) *)
Theorem written_variable_is_read_back (os : GuestOS) (env : GuestEnvironment)
    (VIX_GUEST_ENVIRONMENT_VARIABLE : Z)
    (writeMsg readMsg : VixCommandRequestHeader)
    (writeRequest : VixMsgWriteVariableRequest)
    (readRequest : VixMsgReadVariableRequest) (a : Agent)
    (table : gmap string string) :
  userEnvironmentTable a = Some table →
  FoundryToolsDaemon_TranslateSystemErr os ≠ VIX_OK →
  (GuestVar.VixToolsWriteVariable os env VIX_GUEST_ENVIRONMENT_VARIABLE
     writeMsg writeRequest a).1 = VIX_OK →
  (VixToolsImpersonateUser os readMsg
     (GuestVar.VixToolsWriteVariable os env VIX_GUEST_ENVIRONMENT_VARIABLE
        writeMsg writeRequest a).2).1.1 = VIX_OK →
  rv_variableType readRequest = VIX_GUEST_ENVIRONMENT_VARIABLE →
  (rv_name readRequest
   = (VixMsg_ParseWriteVariableRequest env writeRequest).1.2 →
   (GuestVar.VixToolsReadVariable os env VIX_GUEST_ENVIRONMENT_VARIABLE
      readMsg readRequest
      (GuestVar.VixToolsWriteVariable os env VIX_GUEST_ENVIRONMENT_VARIABLE
         writeMsg writeRequest a).2).1
   = (VIX_OK, Some (VixMsg_ParseWriteVariableRequest env writeRequest).2))
  ∧ (rv_name readRequest
     ≠ (VixMsg_ParseWriteVariableRequest env writeRequest).1.2 →
     (GuestVar.VixToolsReadVariable os env VIX_GUEST_ENVIRONMENT_VARIABLE
        readMsg readRequest
        (GuestVar.VixToolsWriteVariable os env
           VIX_GUEST_ENVIRONMENT_VARIABLE writeMsg writeRequest a).2).1
     = (VIX_OK,
        Some (default EmptyString (table !! rv_name readRequest)))).
Proof.
  intros Htable Hsys Hwritten Hgate Htype.
  pose proof (VixToolsWriteVariable_table os env
                VIX_GUEST_ENVIRONMENT_VARIABLE writeMsg writeRequest a Hsys)
    as Hstored.
  rewrite Hwritten, Htable in Hstored. simpl in Hstored.
  destruct (VixToolsReadVariable_table os env VIX_GUEST_ENVIRONMENT_VARIABLE
              readMsg readRequest _ _ Hstored Hgate Htype) as [-> _].
  split; intros Hname.
  - by rewrite Hname, lookup_insert_eq.
  - by rewrite lookup_insert_ne.
Qed.

(** The theorem at the write of LD_LIBRARY_PATH and its read. *)
Lemma written_variable_is_read_back_witness :
  (GuestVar.VixToolsReadVariable sample_os sample_env sample_variable_type
     (console_request VIX_COMMAND_READ_VARIABLE) read_library_path
     (GuestVar.VixToolsWriteVariable sample_os sample_env
        sample_variable_type (console_request VIX_COMMAND_WRITE_VARIABLE)
        write_library_path agent_with_table).2).1
  = (VIX_OK, Some "/opt/lib"%string).
Proof.
  apply (proj1 (written_variable_is_read_back sample_os sample_env
                  sample_variable_type
                  (console_request VIX_COMMAND_WRITE_VARIABLE)
                  (console_request VIX_COMMAND_READ_VARIABLE)
                  write_library_path read_library_path agent_with_table
                  {[ "PATH"%string := "/usr/bin"%string ]}
                  eq_refl ltac:(discriminate) eq_refl eq_refl eq_refl));
    reflexivity.
Defined.

(** X20.  A caller without administrator privileges cannot write an
    environment variable: the write does not return [VIX_OK], whatever else
    is wrong with the request, and the private table is left as it is. *)
Theorem unprivileged_write_is_refused (os : GuestOS) (env : GuestEnvironment)
    (VIX_GUEST_ENVIRONMENT_VARIABLE : Z)
    (requestMsg : VixCommandRequestHeader)
    (writeRequest : VixMsgWriteVariableRequest) (a : Agent) :
  Util_HasAdminPriv env (tick a) ≠ 1%Z →
  (GuestVar.VixToolsWriteVariable os env VIX_GUEST_ENVIRONMENT_VARIABLE
     requestMsg writeRequest a).1 ≠ VIX_OK
  ∧ userEnvironmentTable
      (GuestVar.VixToolsWriteVariable os env VIX_GUEST_ENVIRONMENT_VARIABLE
         requestMsg writeRequest a).2 = userEnvironmentTable a.
Proof.
  intros Hpriv. unfold GuestVar.VixToolsWriteVariable.
  destruct (VixMsg_ParseWriteVariableRequest env writeRequest)
    as [[perr valueName] value]. simpl.
  unfold mbind, M_bind.
  destruct (bool_decide (perr = VIX_OK)) eqn:Hperr; simpl.
  2: { by apply bool_decide_eq_false in Hperr. }
  destruct (VixToolsImpersonateUser_outcome os requestMsg a)
    as (err & tok & gate & Hgate & Hout).
  rewrite Hgate. simpl.
  destruct (bool_decide (err = VIX_OK)) eqn:Herr; simpl.
  2: { apply bool_decide_eq_false in Herr.
       unfold mret, M_ret. rewrite release_add_trace. by simpl. }
  destruct (wv_variableType writeRequest =? VIX_GUEST_ENVIRONMENT_VARIABLE)%Z;
    simpl.
  2: { unfold mret, M_ret. rewrite release_add_trace. by simpl. }
  apply Z.eqb_neq in Hpriv. rewrite Hpriv. simpl.
  unfold mret, M_ret. rewrite release_add_trace. by simpl.
Qed.

(** The theorem at a write made at tick 5, when the caller has no
    privileges. *)
Lemma unprivileged_write_is_refused_witness :
  (GuestVar.VixToolsWriteVariable sample_os sample_env sample_variable_type
     (console_request VIX_COMMAND_WRITE_VARIABLE) write_library_path
     (agent_at 5)).1 ≠ VIX_OK
  ∧ userEnvironmentTable
      (GuestVar.VixToolsWriteVariable sample_os sample_env
         sample_variable_type (console_request VIX_COMMAND_WRITE_VARIABLE)
         write_library_path (agent_at 5)).2
    = userEnvironmentTable (agent_at 5).
Proof.
  apply (unprivileged_write_is_refused sample_os sample_env
           sample_variable_type (console_request VIX_COMMAND_WRITE_VARIABLE)
           write_library_path (agent_at 5)).
  discriminate.
Defined.

(** X21.  A variable written reaches the programs launched afterwards: after
    a write that returned [VIX_OK], in an agent that keeps a private table,
    every process a fire-and-report launch creates gets an environment that
    holds the entry 'name=value' of the variable written. *)
Theorem written_variable_reaches_fire_and_report_launch (os : GuestOS)
    (env : GuestEnvironment) (VIX_GUEST_ENVIRONMENT_VARIABLE : Z)
    (writeMsg : VixCommandRequestHeader)
    (writeRequest : VixMsgWriteVariableRequest) (a : Agent)
    (requestName program : string) (arguments : option string)
    (runProgramOptions : Z) (userToken : UserToken) :
  is_Some (userEnvironmentTable a) →
  FoundryToolsDaemon_TranslateSystemErr os ≠ VIX_OK →
  (GuestVar.VixToolsWriteVariable os env VIX_GUEST_ENVIRONMENT_VARIABLE
     writeMsg writeRequest a).1 = VIX_OK →
  ∃ events,
    trace (VixToolsRunProgramImpl os requestName program arguments
             runProgramOptions userToken
             (GuestVar.VixToolsWriteVariable os env
                VIX_GUEST_ENVIRONMENT_VARIABLE writeMsg writeRequest a).2).2
    = trace (GuestVar.VixToolsWriteVariable os env
               VIX_GUEST_ENVIRONMENT_VARIABLE writeMsg writeRequest a).2
      ++ events
    ∧ ∀ cmd procArgs r, EvExecAsync cmd procArgs r ∈ events →
        ∃ entries, envp procArgs = Some entries
          ∧ Env.VixToolsEnvironmentTableEntryToEnvpEntry
              (VixMsg_ParseWriteVariableRequest env writeRequest).1.2
              (VixMsg_ParseWriteVariableRequest env writeRequest).2
            ∈ entries.
Proof.
  intros [table Htable] Hsys Hwritten.
  pose proof (VixToolsWriteVariable_table os env
                VIX_GUEST_ENVIRONMENT_VARIABLE writeMsg writeRequest a Hsys)
    as Hstored.
  rewrite Hwritten, Htable in Hstored. simpl in Hstored.
  destruct (GuestVar.VixToolsWriteVariable os env
              VIX_GUEST_ENVIRONMENT_VARIABLE writeMsg writeRequest a)
    as [status b]. simpl in *. clear Hwritten.
  unfold VixToolsRunProgramImpl, mbind, M_bind.
  destruct (File_Exists os _); simpl;
    [|exists []; split; [by rewrite app_nil_r|intros ??? H; event_cases H]].
  destruct (FileIO_Access_EXEC os _); simpl;
    [|exists []; split; [by rewrite app_nil_r|intros ??? H; event_cases H]].
  destruct (Str_Asprintf_fails os _); simpl;
    [exists []; split; [by rewrite app_nil_r|intros ??? H; event_cases H]|].
  rewrite Hstored.
  set (launchArgs := {| workingDirectory := None; envp := _ |}).
  exists [EvExecAsync (full_command_line program arguments) launchArgs
            (ProcMgr_ExecAsync os (full_command_line program arguments)
               launchArgs)].
  split; [by destruct (ProcMgr_ExecAsync os _ _)|].
  intros cmd procArgs r Hin.
  apply list_elem_of_singleton in Hin. injection Hin as -> -> ->.
  eexists. split; [reflexivity|].
  apply table_envp_entries. do 2 eexists. split; [|reflexivity].
  apply lookup_insert_eq.
Qed.

(** The theorem at the write of LD_LIBRARY_PATH and the launch of
    /bin/true. *)
Lemma written_variable_reaches_fire_and_report_launch_witness :
  ∃ events,
    trace (VixToolsRunProgramImpl sample_os "req" "/bin/true" None 0
             PROCESS_CREATOR_USER_TOKEN
             (GuestVar.VixToolsWriteVariable sample_os sample_env
                sample_variable_type
                (console_request VIX_COMMAND_WRITE_VARIABLE)
                write_library_path agent_with_table).2).2
    = trace (GuestVar.VixToolsWriteVariable sample_os sample_env
               sample_variable_type
               (console_request VIX_COMMAND_WRITE_VARIABLE)
               write_library_path agent_with_table).2
      ++ events
    ∧ ∀ cmd procArgs r, EvExecAsync cmd procArgs r ∈ events →
        ∃ entries, envp procArgs = Some entries
          ∧ "LD_LIBRARY_PATH=/opt/lib"%string ∈ entries.
Proof.
  apply (written_variable_reaches_fire_and_report_launch sample_os sample_env
           sample_variable_type (console_request VIX_COMMAND_WRITE_VARIABLE)
           write_library_path agent_with_table "req" "/bin/true" None 0
           PROCESS_CREATOR_USER_TOKEN).
  - by eexists.
  - discriminate.
  - reflexivity.
Defined.

(** X22.  An agent that keeps a private table answers the reads of
    environment variables from the table alone: the answer does not depend
    on the process environment, and a variable the table does not hold
    reads as the empty text, with [VIX_OK]. *)
Theorem private_table_shadows_the_process_environment (os : GuestOS)
    (env env' : GuestEnvironment) (VIX_GUEST_ENVIRONMENT_VARIABLE : Z)
    (requestMsg : VixCommandRequestHeader)
    (readRequest : VixMsgReadVariableRequest) (a : Agent)
    (table : gmap string string) :
  userEnvironmentTable a = Some table →
  GuestVar.VixToolsReadVariable os env VIX_GUEST_ENVIRONMENT_VARIABLE
    requestMsg readRequest a
  = GuestVar.VixToolsReadVariable os env' VIX_GUEST_ENVIRONMENT_VARIABLE
      requestMsg readRequest a
  ∧ ((VixToolsImpersonateUser os requestMsg a).1.1 = VIX_OK →
     rv_variableType readRequest = VIX_GUEST_ENVIRONMENT_VARIABLE →
     table !! rv_name readRequest = None →
     (GuestVar.VixToolsReadVariable os env VIX_GUEST_ENVIRONMENT_VARIABLE
        requestMsg readRequest a).1 = (VIX_OK, Some EmptyString)).
Proof.
  intros Htable. split.
  - unfold GuestVar.VixToolsReadVariable, mbind, M_bind.
    destruct (VixToolsImpersonateUser_outcome os requestMsg a)
      as (err & tok & gate & Hgate & Hout).
    rewrite Hgate. simpl.
    destruct (bool_decide (err = VIX_OK)); [|done].
    destruct (rv_variableType readRequest =? VIX_GUEST_ENVIRONMENT_VARIABLE)%Z;
      [|done].
    simpl. by rewrite Htable.
  - intros Hok Htype Hmissing.
    destruct (VixToolsReadVariable_table os env VIX_GUEST_ENVIRONMENT_VARIABLE
                requestMsg readRequest a table Htable Hok Htype) as [-> _].
    by rewrite Hmissing.
Qed.

(** The theorem at the read of SHELL, which the table does not hold. *)
Lemma private_table_shadows_the_process_environment_witness :
  (GuestVar.VixToolsReadVariable sample_os sample_env sample_variable_type
     (console_request VIX_COMMAND_READ_VARIABLE) read_shell
     agent_with_table).1
  = (VIX_OK, Some EmptyString).
Proof.
  apply (proj2 (private_table_shadows_the_process_environment sample_os
                  sample_env sample_env sample_variable_type
                  (console_request VIX_COMMAND_READ_VARIABLE) read_shell
                  agent_with_table {[ "PATH"%string := "/usr/bin"%string ]}
                  eq_refl));
    reflexivity.
Defined.

(** ** Files and directories *)

Section FileFacts.
Variable os : GuestOS.
Variable fs : GuestFiles.

Lemma finish_run status imp tok made b :
  GuestFile.finish status imp tok made b
  = ((status, made), add_trace b (release_events imp tok)).
Proof.
  unfold GuestFile.finish, mbind, M_bind. by rewrite release_add_trace.
Qed.

End FileFacts.

(** X23.  The text an existence query returns is "1" or "0", and it is
    "1" exactly when the query returns [VIX_OK] and the path is a regular
    file (for the file query) or a directory (for the directory query);
    every failure, the registry query included, answers "0". *)
Theorem object_exists_answer (os : GuestOS) (fs : GuestFiles)
    (requestMsg : VixCommandRequestHeader)
    (fileRequest : VixMsgSimpleFileRequest) (a : Agent) :
  ((GuestFile.VixToolsObjectExists os fs requestMsg fileRequest a).1.2 = "1"
   ∨ (GuestFile.VixToolsObjectExists os fs requestMsg fileRequest a).1.2 = "0")
  ∧ ((GuestFile.VixToolsObjectExists os fs requestMsg fileRequest a).1.2 = "1"
     ↔ (GuestFile.VixToolsObjectExists os fs requestMsg fileRequest a).1.1
       = VIX_OK
       ∧ (opCode requestMsg = VIX_COMMAND_GUEST_FILE_EXISTS
          ∧ File_IsFile fs (sf_pathName fileRequest) = true
          ∨ opCode requestMsg = VIX_COMMAND_DIRECTORY_EXISTS
            ∧ File_IsDirectory os (sf_pathName fileRequest) = true)).
Proof.
  unfold GuestFile.VixToolsObjectExists, mbind, M_bind.
  destruct (bool_decide (sf_pathName fileRequest = EmptyString)).
  { simpl. split; [by right|]. split; [done|]. by intros [? _]. }
  destruct (VixToolsImpersonateUser_outcome os requestMsg a)
    as (err & tok & gate & Hgate & Hout).
  rewrite Hgate. simpl.
  destruct (bool_decide (err = VIX_OK)) eqn:Herr; simpl.
  2: { apply bool_decide_eq_false in Herr.
       unfold mret, M_ret. rewrite release_add_trace. simpl.
       split; [by right|]. split; [done|]. by intros [? _]. }
  apply bool_decide_eq_true in Herr. subst err.
  destruct (opCode requestMsg); simpl;
    unfold mret, M_ret; rewrite release_add_trace; simpl;
    try (split; [by right|]; split; [done|]; intros [? [[? ?]|[? ?]]]; done).
  - destruct (File_IsFile fs (sf_pathName fileRequest)); simpl.
    + split; [by left|]. split; [by auto|done].
    + split; [by right|]. split; [done|]. intros [_ [[_ ?]|[? _]]]; done.
  - destruct (File_IsDirectory os (sf_pathName fileRequest)); simpl.
    + split; [by left|]. split; [by auto|done].
    + split; [by right|]. split; [done|]. intros [_ [[? _]|[_ ?]]]; done.
Qed.

(** X24.  A delete request makes at most one removing call, the one of its
    opcode on the path of the request, and only after its tests: the file
    opcode unlinks a symbolic link or an existing regular file, the two
    directory opcodes remove a directory.  Nothing is removed for an empty
    path or when the gate refuses, and a delete that returns [VIX_OK] has
    made its call. *)
Theorem delete_removes_only_what_was_asked (os : GuestOS) (fs : GuestFiles)
    (requestMsg : VixCommandRequestHeader)
    (fileRequest : VixMsgSimpleFileRequest) (a b : Agent)
    (status : FileStatus) (made : list FileCall) :
  GuestFile.VixToolsDeleteObject os fs requestMsg fileRequest a
  = ((status, made), b) →
  (made = []
   ∨ made = [CallUnlinkNoFollow (sf_pathName fileRequest)]
     ∧ opCode requestMsg = VIX_COMMAND_DELETE_GUEST_FILE
     ∧ (File_IsSymLink fs (sf_pathName fileRequest) = true
        ∨ File_Exists os (sf_pathName fileRequest) = true
          ∧ File_IsFile fs (sf_pathName fileRequest) = true)
   ∨ made = [CallDeleteDirectoryTree (sf_pathName fileRequest)]
     ∧ opCode requestMsg = VIX_COMMAND_DELETE_GUEST_DIRECTORY
     ∧ File_IsDirectory os (sf_pathName fileRequest) = true
   ∨ made = [CallDeleteEmptyDirectory (sf_pathName fileRequest)]
     ∧ opCode requestMsg = VIX_COMMAND_DELETE_GUEST_EMPTY_DIRECTORY
     ∧ File_IsDirectory os (sf_pathName fileRequest) = true)
  ∧ (made ≠ [] →
     sf_pathName fileRequest ≠ EmptyString
     ∧ (VixToolsImpersonateUser os requestMsg a).1.1 = VIX_OK)
  ∧ (status = Status VIX_OK → made ≠ []).
Proof.
  unfold GuestFile.VixToolsDeleteObject, GuestFile.delete_directory, mbind, M_bind.
  case_bool_decide as Hpath.
  { rewrite finish_run. intros [= <- <- <-]. split_and!; by auto. }
  destruct (VixToolsImpersonateUser_outcome os requestMsg a)
    as (err & tok & gate & Hgate & Hout).
  rewrite Hgate. simpl.
  case_bool_decide as Herr; simpl.
  2: { rewrite finish_run. intros [= <- <- <-].
       split_and!; [by auto|done|congruence]. }
  subst err.
  destruct (opCode requestMsg); simpl; rewrite ?finish_run;
    try (intros [= <- <- <-]; split_and!; by auto).
  - destruct (File_IsSymLink fs (sf_pathName fileRequest)) eqn:Hlink,
      (File_Exists os (sf_pathName fileRequest)) eqn:Hexists,
      (File_IsFile fs (sf_pathName fileRequest)) eqn:Hfile; simpl;
      try (rewrite finish_run; intros [= <- <- <-]; split_and!; by auto);
      destruct (File_UnlinkNoFollow fs (sf_pathName fileRequest) =? 0)%Z;
      simpl; rewrite finish_run; intros [= <- <- <-];
      (split_and!; [right; left; by auto | done | done]).
  - destruct (File_Exists os (sf_pathName fileRequest)),
      (File_IsDirectory os (sf_pathName fileRequest)); simpl;
      try (rewrite finish_run; intros [= <- <- <-]; split_and!; by auto);
      destruct (File_DeleteDirectoryTree fs (sf_pathName fileRequest));
      simpl; rewrite finish_run; intros [= <- <- <-];
      (split_and!; [right; right; left; by auto | done | done]).
  - destruct (File_Exists os (sf_pathName fileRequest)),
      (File_IsDirectory os (sf_pathName fileRequest)); simpl;
      try (rewrite finish_run; intros [= <- <- <-]; split_and!; by auto);
      destruct (File_DeleteEmptyDirectory fs (sf_pathName fileRequest));
      simpl; rewrite finish_run; intros [= <- <- <-];
      (split_and!; [right; right; right; by auto | done | done]).
Qed.

(** The theorem at the deletion of the file /bin/true by the console
    user. *)
Lemma delete_removes_only_what_was_asked_witness :
  GuestFile.VixToolsDeleteObject sample_os sample_fs
    (console_request VIX_COMMAND_DELETE_GUEST_FILE)
    {| sf_pathName := "/bin/true" |} initial_agent
  = ((Status VIX_OK, [CallUnlinkNoFollow "/bin/true"]), initial_agent)
  ∧ ([CallUnlinkNoFollow "/bin/true"] ≠ [] →
     sf_pathName {| sf_pathName := "/bin/true" |} ≠ EmptyString
     ∧ (VixToolsImpersonateUser sample_os
          (console_request VIX_COMMAND_DELETE_GUEST_FILE) initial_agent).1.1
       = VIX_OK).
Proof.
  split; [reflexivity|].
  apply (delete_removes_only_what_was_asked sample_os sample_fs
           (console_request VIX_COMMAND_DELETE_GUEST_FILE)
           {| sf_pathName := "/bin/true" |} initial_agent initial_agent
           (Status VIX_OK) [CallUnlinkNoFollow "/bin/true"]).
  reflexivity.
Defined.

(** X25.  A create-directory request makes at most one creating call, on
    the path of the request: with its parents for the older opcode and
    when the newer one asks for them, without them otherwise.  No call is
    made for an empty path, when the gate refuses, or when the path exists
    already, and a request that returns [VIX_OK] has made its call. *)
Theorem create_directory_spares_existing_paths (os : GuestOS)
    (fs : GuestFiles) (requestMsg : VixCommandRequestHeader)
    (dirRequest : VixMsgCreateFileRequestEx) (a b : Agent)
    (status : FileStatus) (made : list FileCall) :
  GuestFile.VixToolsCreateDirectory os fs requestMsg dirRequest a
  = ((status, made), b) →
  (made = []
   ∨ made = [CallCreateDirectoryHierarchy (cf_pathName dirRequest)]
     ∧ (opCode requestMsg = VIX_COMMAND_CREATE_DIRECTORY
        ∨ opCode requestMsg = VIX_COMMAND_CREATE_DIRECTORY_EX
          ∧ cf_createParentDirectories dirRequest = true)
   ∨ made = [CallCreateDirectory (cf_pathName dirRequest)]
     ∧ opCode requestMsg = VIX_COMMAND_CREATE_DIRECTORY_EX
     ∧ cf_createParentDirectories dirRequest = false)
  ∧ (made ≠ [] →
     cf_pathName dirRequest ≠ EmptyString
     ∧ (VixToolsImpersonateUser os requestMsg a).1.1 = VIX_OK
     ∧ File_Exists os (cf_pathName dirRequest) = false)
  ∧ (status = Status VIX_OK → made ≠ []).
Proof.
  unfold GuestFile.VixToolsCreateDirectory, mbind, M_bind.
  assert (Hgate := VixToolsImpersonateUser_outcome os requestMsg a).
  destruct Hgate as (err & tok & gate & Hgate & Hout).
  destruct (opCode requestMsg); simpl; rewrite ?finish_run;
    try (intros [= <- <- <-]; split_and!; by auto);
    (case_bool_decide as Hpath;
     [rewrite finish_run; intros [= <- <- <-]; split_and!; by auto|]);
    rewrite Hgate; simpl;
    (case_bool_decide as Herr; simpl;
     [|rewrite finish_run; intros [= <- <- <-];
       split_and!; [by auto|done|congruence]]);
    subst err;
    (destruct (File_Exists os (cf_pathName dirRequest)); simpl;
     [rewrite finish_run; intros [= <- <- <-]; split_and!; by auto|]).
  - destruct (File_CreateDirectoryHierarchy fs (cf_pathName dirRequest));
      simpl; rewrite finish_run; intros [= <- <- <-];
      (split_and!; [right; left; by auto | done | done]).
  - destruct (cf_createParentDirectories dirRequest); simpl;
      [destruct (File_CreateDirectoryHierarchy fs (cf_pathName dirRequest))
      |destruct (File_CreateDirectory fs (cf_pathName dirRequest))];
      simpl; rewrite finish_run; intros [= <- <- <-];
      (split_and!; [by auto 10 | done | done]).
Qed.

(** The theorem at the creation of /bin/true, which exists. *)
Lemma create_directory_spares_existing_paths_witness :
  GuestFile.VixToolsCreateDirectory sample_os sample_fs
    (console_request VIX_COMMAND_CREATE_DIRECTORY)
    {| cf_createParentDirectories := true; cf_pathName := "/bin/true" |}
    initial_agent
  = ((VIX_E_FILE_ALREADY_EXISTS, []), initial_agent)
  ∧ (VIX_E_FILE_ALREADY_EXISTS = Status VIX_OK → [] ≠ @nil FileCall).
Proof.
  split; [reflexivity|].
  apply (create_directory_spares_existing_paths sample_os sample_fs
           (console_request VIX_COMMAND_CREATE_DIRECTORY)
           {| cf_createParentDirectories := true; cf_pathName := "/bin/true" |}
           initial_agent initial_agent VIX_E_FILE_ALREADY_EXISTS []).
  reflexivity.
Defined.

(** X26.  A move request makes at most one call of [File_Rename], from the
    old to the new path of the request, and only when the gate admitted the
    user, the old path exists, the two paths are not the same file and the
    new path is not a directory; the file opcode with the overwrite flag
    moreover only when the old path is not a directory and, with the flag
    clear, the new path does not exist, and the directory opcode only when
    the old path is a directory.  A move that returns [VIX_OK] has renamed,
    or was a move of a file onto itself. *)
Theorem move_renames_only_after_its_checks (os : GuestOS) (fs : GuestFiles)
    (requestMsg : VixCommandRequestHeader)
    (renameRequest : VixCommandRenameFileRequestEx) (a b : Agent)
    (status : FileStatus) (made : list FileCall) :
  GuestFile.VixToolsMoveObject os fs requestMsg renameRequest a
  = ((status, made), b) →
  (made = []
   ∨ made = [CallRename (rf_oldPathName renameRequest)
               (rf_newPathName renameRequest)])
  ∧ (made ≠ [] →
     (VixToolsImpersonateUser os requestMsg a).1.1 = VIX_OK
     ∧ File_Exists os (rf_oldPathName renameRequest) = true
     ∧ File_IsSameFile fs (rf_oldPathName renameRequest)
         (rf_newPathName renameRequest) = false
     ∧ File_IsDirectory os (rf_newPathName renameRequest) = false
     ∧ (opCode requestMsg = VIX_COMMAND_MOVE_GUEST_FILE_EX →
        File_IsDirectory os (rf_oldPathName renameRequest) = false
        ∧ (rf_overwrite renameRequest = false →
           File_Exists os (rf_newPathName renameRequest) = false))
     ∧ (opCode requestMsg = VIX_COMMAND_MOVE_GUEST_DIRECTORY →
        File_IsDirectory os (rf_oldPathName renameRequest) = true))
  ∧ (status = Status VIX_OK →
     made ≠ []
     ∨ File_IsSameFile fs (rf_oldPathName renameRequest)
         (rf_newPathName renameRequest) = true).
Proof.
  unfold GuestFile.VixToolsMoveObject, mbind, M_bind.
  assert (Hgate := VixToolsImpersonateUser_outcome os requestMsg a).
  destruct Hgate as (err & tok & gate & Hgate & Hout).
  destruct (opCode requestMsg) eqn:Hop; simpl; rewrite ?finish_run;
    try (intros [= <- <- <-]; split_and!; by auto);
    (destruct (bool_decide (rf_oldPathName renameRequest = EmptyString)
               || bool_decide (rf_newPathName renameRequest = EmptyString));
     [rewrite finish_run; intros [= <- <- <-]; split_and!; by auto|]);
    rewrite Hgate; simpl;
    (case_bool_decide as Herr; simpl;
     [|rewrite finish_run; intros [= <- <- <-];
       split_and!; [by auto|done|congruence]]);
    subst err;
    (destruct (File_Exists os (rf_oldPathName renameRequest)); simpl;
     [|rewrite finish_run; intros [= <- <- <-]; split_and!; by auto]);
    (destruct (File_IsSameFile fs _ _); simpl;
     [rewrite finish_run; intros [= <- <- <-]; split_and!; by auto|]);
    (destruct (File_IsDirectory os (rf_newPathName renameRequest)); simpl;
     [rewrite finish_run; intros [= <- <- <-]; split_and!; by auto|]).
  - destruct (File_Rename fs _ _); simpl; rewrite finish_run;
      intros [= <- <- <-]; split_and!; by auto.
  - destruct (File_IsDirectory os (rf_oldPathName renameRequest)); simpl;
      [rewrite finish_run; intros [= <- <- <-]; split_and!; by auto|].
    destruct (rf_overwrite renameRequest),
      (File_Exists os (rf_newPathName renameRequest)); simpl;
      try (rewrite finish_run; intros [= <- <- <-]; split_and!; by auto);
      destruct (File_Rename fs _ _); simpl; rewrite finish_run;
      intros [= <- <- <-]; split_and!; by auto.
  - destruct (File_IsDirectory os (rf_oldPathName renameRequest)); simpl;
      [|rewrite finish_run; intros [= <- <- <-]; split_and!; by auto].
    destruct (File_Rename fs _ _); simpl; rewrite finish_run;
      intros [= <- <- <-]; split_and!; by auto.
Qed.

(** The theorem at the move of /bin/true onto itself. *)
Lemma move_renames_only_after_its_checks_witness :
  GuestFile.VixToolsMoveObject sample_os sample_fs
    (console_request VIX_COMMAND_MOVE_GUEST_FILE)
    {| rf_overwrite := false; rf_oldPathName := "/bin/true";
       rf_newPathName := "/bin/true" |} initial_agent
  = ((Status VIX_OK, []), initial_agent)
  ∧ (Status VIX_OK = Status VIX_OK →
     [] ≠ @nil FileCall
     ∨ File_IsSameFile sample_fs "/bin/true" "/bin/true" = true).
Proof.
  split; [reflexivity|].
  apply (move_renames_only_after_its_checks sample_os sample_fs
           (console_request VIX_COMMAND_MOVE_GUEST_FILE)
           {| rf_overwrite := false; rf_oldPathName := "/bin/true";
              rf_newPathName := "/bin/true" |} initial_agent initial_agent
           (Status VIX_OK) []).
  reflexivity.
Defined.

(** ** The gate in the file and variable handlers *)

Section HandlerDiscipline.
Variable os : GuestOS.
Variable fs : GuestFiles.
Variable env : GuestEnvironment.
Variable VIX_GUEST_ENVIRONMENT_VARIABLE : Z.

(** The trace of a handler that made no call of its own between the gate
    and the epilogue. *)
Lemma discipline_of_trace err tok events imp (t : list Event) :
  gate_outcome err tok events →
  imp = bool_decide (err = VIX_OK) →
  ∃ all,
    (t ++ events) ++ release_events imp tok = t ++ all
    ∧ disciplined (gate_events all).
Proof.
  intros Hout ->.
  exists (events ++ release_events (bool_decide (err = VIX_OK)) tok).
  split; [by rewrite app_assoc|].
  pose proof (gate_then_release_disciplined err tok events [] Hout eq_refl)
    as Hdisc.
  by rewrite app_nil_l in Hdisc.
Qed.

(** The end of a path through a handler: the epilogue runs, and the trace is
    that of the gate, when it was tried, followed by that of the
    epilogue. *)
Local Ltac epilogue Hout :=
  unfold mret, M_ret; rewrite ?release_add_trace;
  cbn [fst snd trace add_trace];
  first
    [ by (exists []; split; [by rewrite app_nil_r | constructor])
    | by (eexists; split; [reflexivity | vm_compute; constructor])
    | apply (discipline_of_trace _ _ _ _ _ Hout);
      first [ reflexivity
            | by rewrite bool_decide_eq_false_2
            | by rewrite bool_decide_eq_true_2 ] ].

(** The tests a handler makes under the gate. *)
Local Ltac tests :=
  repeat match goal with
         | |- context [match opCode ?r with _ => _ end] =>
             destruct (opCode r); simpl
         | |- context [if ?c then _ else _] => destruct c; simpl
         end.

Lemma VixToolsDeleteObject_disciplined requestMsg fileRequest :
  emits (GuestFile.VixToolsDeleteObject os fs requestMsg fileRequest)
    (λ _ events, disciplined (gate_events events)).
Proof.
  intros a.
  unfold GuestFile.VixToolsDeleteObject, GuestFile.delete_directory, GuestFile.finish,
    mbind, M_bind.
  destruct (bool_decide (sf_pathName fileRequest = EmptyString));
    [epilogue I|].
  destruct (VixToolsImpersonateUser_outcome os requestMsg a)
    as (err & tok & events & Hgate & Hout).
  rewrite Hgate. simpl.
  destruct (bool_decide (err = VIX_OK)) eqn:Herr; simpl.
  2: { apply bool_decide_eq_false in Herr. epilogue Hout. }
  apply bool_decide_eq_true in Herr. subst err.
  tests; epilogue Hout.
Qed.

Lemma VixToolsObjectExists_disciplined requestMsg fileRequest :
  emits (GuestFile.VixToolsObjectExists os fs requestMsg fileRequest)
    (λ _ events, disciplined (gate_events events)).
Proof.
  intros a. unfold GuestFile.VixToolsObjectExists, mbind, M_bind.
  destruct (bool_decide (sf_pathName fileRequest = EmptyString));
    [epilogue I|].
  destruct (VixToolsImpersonateUser_outcome os requestMsg a)
    as (err & tok & events & Hgate & Hout).
  rewrite Hgate. simpl.
  destruct (bool_decide (err = VIX_OK)) eqn:Herr; simpl.
  2: { apply bool_decide_eq_false in Herr. epilogue Hout. }
  apply bool_decide_eq_true in Herr. subst err.
  destruct (opCode requestMsg); simpl; epilogue Hout.
Qed.

Lemma VixToolsCreateDirectory_disciplined requestMsg dirRequest :
  emits (GuestFile.VixToolsCreateDirectory os fs requestMsg dirRequest)
    (λ _ events, disciplined (gate_events events)).
Proof.
  intros a. unfold GuestFile.VixToolsCreateDirectory, GuestFile.finish, mbind, M_bind.
  destruct (match opCode requestMsg with
            | VIX_COMMAND_CREATE_DIRECTORY => Some true
            | VIX_COMMAND_CREATE_DIRECTORY_EX =>
                Some (cf_createParentDirectories dirRequest)
            | _ => None
            end) as [createParentDirectories|]; [|epilogue I].
  destruct (bool_decide (cf_pathName dirRequest = EmptyString));
    [epilogue I|].
  destruct (VixToolsImpersonateUser_outcome os requestMsg a)
    as (err & tok & events & Hgate & Hout).
  rewrite Hgate. simpl.
  destruct (bool_decide (err = VIX_OK)) eqn:Herr; simpl.
  2: { apply bool_decide_eq_false in Herr. epilogue Hout. }
  apply bool_decide_eq_true in Herr. subst err.
  tests; epilogue Hout.
Qed.

Lemma VixToolsMoveObject_disciplined requestMsg renameRequest :
  emits (GuestFile.VixToolsMoveObject os fs requestMsg renameRequest)
    (λ _ events, disciplined (gate_events events)).
Proof.
  intros a. unfold GuestFile.VixToolsMoveObject, GuestFile.finish, mbind, M_bind.
  destruct (match opCode requestMsg with
            | VIX_COMMAND_MOVE_GUEST_FILE => Some true
            | VIX_COMMAND_MOVE_GUEST_FILE_EX
            | VIX_COMMAND_MOVE_GUEST_DIRECTORY =>
                Some (rf_overwrite renameRequest)
            | _ => None
            end) as [overwrite|]; [|epilogue I].
  destruct (bool_decide _ || bool_decide _); [epilogue I|].
  destruct (VixToolsImpersonateUser_outcome os requestMsg a)
    as (err & tok & events & Hgate & Hout).
  rewrite Hgate. simpl.
  destruct (bool_decide (err = VIX_OK)) eqn:Herr; simpl.
  2: { apply bool_decide_eq_false in Herr. epilogue Hout. }
  apply bool_decide_eq_true in Herr. subst err.
  tests; epilogue Hout.
Qed.

Lemma VixToolsReadVariable_disciplined requestMsg readRequest :
  emits (GuestVar.VixToolsReadVariable os env VIX_GUEST_ENVIRONMENT_VARIABLE
           requestMsg readRequest)
    (λ _ events, disciplined (gate_events events)).
Proof.
  intros a. unfold GuestVar.VixToolsReadVariable, mbind, M_bind.
  destruct (VixToolsImpersonateUser_outcome os requestMsg a)
    as (err & tok & events & Hgate & Hout).
  rewrite Hgate. simpl.
  destruct (bool_decide (err = VIX_OK)) eqn:Herr; simpl.
  2: { apply bool_decide_eq_false in Herr. epilogue Hout. }
  apply bool_decide_eq_true in Herr. subst err.
  destruct (rv_variableType readRequest =? VIX_GUEST_ENVIRONMENT_VARIABLE)%Z;
    simpl; [|epilogue Hout].
  destruct (userEnvironmentTable a) as [table|]; simpl.
  - destruct (table !! rv_name readRequest); simpl; epilogue Hout.
  - destruct (System_GetEnv env (tick a) (rv_name readRequest)); simpl;
      epilogue Hout.
Qed.

Lemma VixToolsWriteVariable_disciplined requestMsg writeRequest :
  emits (GuestVar.VixToolsWriteVariable os env
           VIX_GUEST_ENVIRONMENT_VARIABLE requestMsg writeRequest)
    (λ _ events, disciplined (gate_events events)).
Proof.
  intros a. unfold GuestVar.VixToolsWriteVariable.
  destruct (VixMsg_ParseWriteVariableRequest env writeRequest)
    as [[perr valueName] value]. simpl.
  unfold mbind, M_bind.
  destruct (bool_decide (perr = VIX_OK)) eqn:Hperr; simpl; [|epilogue I].
  destruct (VixToolsImpersonateUser_outcome os requestMsg a)
    as (err & tok & events & Hgate & Hout).
  rewrite Hgate. simpl.
  destruct (bool_decide (err = VIX_OK)) eqn:Herr; simpl.
  2: { apply bool_decide_eq_false in Herr. epilogue Hout. }
  apply bool_decide_eq_true in Herr. subst err.
  destruct (wv_variableType writeRequest =? VIX_GUEST_ENVIRONMENT_VARIABLE)%Z;
    simpl; [|epilogue Hout].
  destruct (Util_HasAdminPriv env (tick a) =? 1)%Z; simpl; [|epilogue Hout].
  destruct (System_SetEnv env (S (tick a)) valueName value =? 0)%Z; simpl;
    [|epilogue Hout].
  destruct (userEnvironmentTable a); simpl; epilogue Hout.
Qed.

End HandlerDiscipline.

(** X27.  The handlers of files and variables keep the discipline of the
    gate: whatever a delete, an existence query, a create-directory, a
    move, a read or a write of a variable does, its calls of the Auth and
    impersonation libraries are none, or a failed authentication, or an
    identity acquired and closed, restored before it is closed when the
    agent had switched to it. *)
Theorem file_and_variable_handlers_release_what_they_acquire (os : GuestOS)
    (fs : GuestFiles) (env : GuestEnvironment)
    (VIX_GUEST_ENVIRONMENT_VARIABLE : Z)
    (requestMsg : VixCommandRequestHeader)
    (fileRequest : VixMsgSimpleFileRequest)
    (dirRequest : VixMsgCreateFileRequestEx)
    (renameRequest : VixCommandRenameFileRequestEx)
    (readRequest : VixMsgReadVariableRequest)
    (writeRequest : VixMsgWriteVariableRequest) :
  emits (GuestFile.VixToolsDeleteObject os fs requestMsg fileRequest)
    (λ _ events, disciplined (gate_events events))
  ∧ emits (GuestFile.VixToolsObjectExists os fs requestMsg fileRequest)
      (λ _ events, disciplined (gate_events events))
  ∧ emits (GuestFile.VixToolsCreateDirectory os fs requestMsg dirRequest)
      (λ _ events, disciplined (gate_events events))
  ∧ emits (GuestFile.VixToolsMoveObject os fs requestMsg renameRequest)
      (λ _ events, disciplined (gate_events events))
  ∧ emits (GuestVar.VixToolsReadVariable os env
             VIX_GUEST_ENVIRONMENT_VARIABLE requestMsg readRequest)
      (λ _ events, disciplined (gate_events events))
  ∧ emits (GuestVar.VixToolsWriteVariable os env
             VIX_GUEST_ENVIRONMENT_VARIABLE requestMsg writeRequest)
      (λ _ events, disciplined (gate_events events)).
Proof.
  split_and!.
  - apply VixToolsDeleteObject_disciplined.
  - apply VixToolsObjectExists_disciplined.
  - apply VixToolsCreateDirectory_disciplined.
  - apply VixToolsMoveObject_disciplined.
  - apply VixToolsReadVariable_disciplined.
  - apply VixToolsWriteVariable_disciplined.
Qed.
